(** * amplify-js: sign-in, sign-up, presigned URLs, Predictions dispatch
    and the Cognito provider facade, as a shallow embedding.

  Every TypeScript function is translated into a computation over an
  explicit world: the mutable module state it touches and the log of
  the remote calls it issues.  A [throw] keeps the world reached so
  far, as in JavaScript, so effects performed before an exception are
  still visible after it. *)

From Stdlib Require Import String ZArith List Bool Lia.
Import ListNotations.

Local Open Scope string_scope.
Local Open Scope list_scope.

(* ===================================================================== *)
(** ** JavaScript completions over a world *)
(* ===================================================================== *)

Module Js.

(** A call either returns a value or throws. *)
Inductive Completion (E A : Type) : Type :=
| Returned (a : A)
| Threw (e : E).
Arguments Returned {E A} a.
Arguments Threw {E A} e.

(** A computation reads and writes a world [W] and completes. *)
Definition M (W E A : Type) : Type := W -> Completion E A * W.

Section Ops.
Context {W E : Type}.

Definition ret {A} (a : A) : M W E A := fun w => (Returned a, w).

Definition throw {A} (e : E) : M W E A := fun w => (Threw e, w).

Definition bind {A B} (c : M W E A) (k : A -> M W E B) : M W E B :=
  fun w =>
    match c w with
    | (Returned a, w') => k a w'
    | (Threw e, w') => (Threw e, w')
    end.

(** [try { body } catch (error) { handler }] *)
Definition tryCatch {A} (body : M W E A) (handler : E -> M W E A) : M W E A :=
  fun w =>
    match body w with
    | (Returned a, w') => (Returned a, w')
    | (Threw e, w') => handler e w'
    end.

Definition gets {A} (f : W -> A) : M W E A := fun w => (Returned (f w), w).

Definition modify (f : W -> W) : M W E unit := fun w => (Returned tt, f w).

(** A pure call that may throw. *)
Definition lift {A} (c : Completion E A) : M W E A := fun w => (c, w).

End Ops.

(** JS truthiness of a string: only the empty string is falsy. *)
Definition truthy (s : string) : bool := negb (String.eqb s "").

(** Truthiness of a possibly undefined string. *)
Definition truthy_opt (o : option string) : bool :=
  match o with
  | Some s => truthy s
  | None => false
  end.

(** Truthiness of a possibly undefined boolean flag. *)
Definition truthy_flag (o : option bool) : bool :=
  match o with
  | Some b => b
  | None => false
  end.

(** Truthiness of a possibly undefined object. *)
Definition present {A} (o : option A) : bool :=
  match o with
  | Some _ => true
  | None => false
  end.

(** [a || b] on possibly undefined objects. *)
Definition or_else {A} (a b : option A) : option A :=
  match a with
  | Some _ => a
  | None => b
  end.

(** [a ?? d] *)
Definition nullish {A} (a : option A) (d : A) : A :=
  match a with
  | Some x => x
  | None => d
  end.

(** [o?.f] on a possibly undefined object. *)
Definition option_bind {A B} (o : option A) (f : A -> option B) : option B :=
  match o with
| Some a => f a
| None => None
  end.

End Js.

Import Js.

Declare Scope js_scope.
Delimit Scope js_scope with js.
Notation "x <- c1 ;; c2" := (Js.bind c1 (fun x => c2))
  (at level 61, c1 at next level, right associativity) : js_scope.
Notation "c1 ;; c2" := (Js.bind c1 (fun _ => c2))
  (at level 61, right associativity) : js_scope.

(** A string-to-string mapping (client metadata, challenge parameters,
    user attributes), in insertion order. *)
Definition StringMap := list (string * string).

(* ===================================================================== *)
(** ** Errors of the auth category *)
(* ===================================================================== *)

Module AuthErrors.

Inductive AuthValidationErrorCode :=
| EmptySignInUsername
| EmptySignInPassword
| EmptySignUpUsername
| EmptySignUpPassword.

(** The values the auth functions throw. *)
Inductive AuthThrown :=
| ValidationError (code : AuthValidationErrorCode)
    (* AuthError raised by assertValidationError *)
| ConfigurationError (name : string)
    (* AuthError raised by assertTokenProviderConfig *)
| ServiceError (name : string)
    (* error of the remote identity provider, named by its code *)
| UnknownError
    (* AuthError raised by assertServiceError *)
| PlainError (message : string).
    (* any other thrown value: a plain Error, a TypeError *)

Definition isValidationError (e : AuthThrown) : bool :=
  match e with ValidationError _ => true | _ => false end.

Definition isConfigurationError (e : AuthThrown) : bool :=
  match e with ConfigurationError _ => true | _ => false end.

Definition isServiceError (e : AuthThrown) : bool :=
  match e with ServiceError _ => true | _ => false end.

(** [error.name] *)
Definition errorName (e : AuthThrown) : string :=
  match e with
  | ValidationError EmptySignInUsername => "EmptySignInUsername"
  | ValidationError EmptySignInPassword => "EmptySignInPassword"
  | ValidationError EmptySignUpUsername => "EmptySignUpUsername"
  | ValidationError EmptySignUpPassword => "EmptySignUpPassword"
  | ConfigurationError n => n
  | ServiceError n => n
  | UnknownError => "Unknown"
  | PlainError _ => "Error"
  end.

Section Asserts.
Context {W : Type}.

(** Modelled from the spec: errors/utils/assertValidationError is
    not among the sources.  It throws the validation error named by
    [code] when the assertion is false and does nothing otherwise. *)
Definition assertValidationError (assertion : bool)
    (code : AuthValidationErrorCode) : M W AuthThrown unit :=
  if assertion then ret tt else throw (ValidationError code).

(** Modelled from the spec: errors/utils/assertServiceError is not
    among the sources.  A caught value that is not an error of the
    remote service is rethrown as the unknown error. *)
Definition assertServiceError (error : AuthThrown) : M W AuthThrown unit :=
  if isServiceError error then ret tt else throw UnknownError.

End Asserts.

End AuthErrors.

(* ===================================================================== *)
(** ** providers/cognito/apis/signInWithUserPassword.ts *)
(* ===================================================================== *)

Module SignIn.
Import AuthErrors.
Local Open Scope js_scope.

Inductive AuthSignInStep :=
| CONFIRM_SIGN_IN_WITH_CUSTOM_CHALLENGE
| CONFIRM_SIGN_IN_WITH_NEW_PASSWORD_REQUIRED
| CONFIRM_SIGN_IN_WITH_SMS_CODE
| CONFIRM_SIGN_IN_WITH_TOTP_CODE
| CONTINUE_SIGN_IN_WITH_MFA_SELECTION
| CONTINUE_SIGN_IN_WITH_TOTP_SETUP
| CONFIRM_SIGN_UP
| RESET_PASSWORD
| DONE.

Record AuthNextSignInStep := {
  signInStep : AuthSignInStep;
  additionalInfo : option StringMap
}.

Record AuthSignInResult := {
  isSignedIn : bool;
  nextStep : AuthNextSignInStep
}.

Record CognitoSignInOptions := {
  clientMetadata : option StringMap
}.

Record SignInRequestOptions := {
  serviceOptions : option CognitoSignInOptions
}.

Record SignInRequest := {
  username : string;
  password : option string;
  options : option SignInRequestOptions
}.

(** Tokens of a final authentication result. *)
Record AuthenticationResultType := {
  AccessToken : string;
  IdToken : string;
  RefreshToken : string
}.

(** Response of the remote initiate-auth call. *)
Record InitiateAuthOutput := {
  ChallengeName : option string;
  ChallengeParameters : option StringMap;
  AuthenticationResult : option AuthenticationResultType;
  Session : option string
}.

(** The value kept by utils/signInStore during a sign-in. *)
Record SignInState := {
  signInSession : option string;
  activeUsername : string;
  challengeName : option string
}.

Record InitiateAuthCall := {
  callUsername : string;
  callPassword : option string;
  callMetadata : option StringMap
}.

(** The world of a sign-in: the sign-in store, the session/credential
    cache, and the initiate-auth calls issued so far, oldest first.

    Modelled from the spec: the session/credential cache is not among
    the sources.  It holds the tokens of the signed-in user, or nothing
    (a read of it is then a miss). *)
Record World := {
  signInStore : option SignInState;
  tokenCache : option AuthenticationResultType;
  executorCalls : list InitiateAuthCall
}.

Definition SignInM := M World AuthThrown.

(** Modelled from the spec: utils/signInStore is not among the
    sources.  [setActiveSignInState] records the state of the attempt
    in flight. *)
Definition setActiveSignInState (s : SignInState) : SignInM unit :=
  modify (fun w => {| signInStore := Some s;
                      tokenCache := tokenCache w;
                      executorCalls := executorCalls w |}).

(** Modelled from the spec: utils/signInStore is not among the
    sources.  [cleanActiveSignInState] puts the store back into its
    initial state: no attempt in flight (NotStarted). *)
Definition cleanActiveSignInState : SignInM unit :=
  modify (fun w => {| signInStore := None;
                      tokenCache := tokenCache w;
                      executorCalls := executorCalls w |}).

Section WithCollaborators.

(** [Amplify.config.clientMetadata] *)
Variable Amplify_config_clientMetadata : option StringMap.

(** The remote identity provider behind the password-flow executor. *)
Variable initiateAuth :
  string -> option string -> option StringMap ->
  Completion AuthThrown InitiateAuthOutput.

(** utils/signInHelpers: the result for a pending challenge.  The helper
    is not among the sources; a failure of it is taken as thrown where
    it is called, inside the try block.  (Were it asynchronous, its
    rejection would pass the catch block by, since its result is
    returned without being awaited.) *)
Variable getSignInResult :
  option string -> option StringMap -> Completion AuthThrown AuthSignInResult.

(** utils/signInHelpers: the error names that are mapped to a
    next-step result instead of being thrown. *)
Variable getSignInResultFromError : string -> option AuthSignInResult.

(** Modelled from the spec: utils/signInHelpers is not among the
    sources.  The password-flow executor issues exactly one remote
    initiate-auth call with the username, password and metadata. *)
Definition handleUserPasswordAuthFlow (u : string) (p : option string)
    (metadata : option StringMap) : SignInM InitiateAuthOutput :=
  fun w =>
    (initiateAuth u p metadata,
     {| signInStore := signInStore w;
        tokenCache := tokenCache w;
        executorCalls :=
          executorCalls w ++
          [{| callUsername := u; callPassword := p; callMetadata := metadata |}] |}).

Definition signInWithUserPassword (signInRequest : SignInRequest)
    : SignInM AuthSignInResult :=
  let username := username signInRequest in
  let password := password signInRequest in
  let options := options signInRequest in
  let clientMetadata' := Amplify_config_clientMetadata in
  let metadata :=
    or_else
      (option_bind (option_bind options serviceOptions) clientMetadata)
      clientMetadata' in
  assertValidationError (truthy username) EmptySignInUsername ;;
  assertValidationError (truthy_opt password) EmptySignInPassword ;;
  tryCatch
    (out <- handleUserPasswordAuthFlow username password metadata ;;
     (* sets up local state used during the sign-in process *)
     setActiveSignInState
       {| signInSession := Session out;
          activeUsername := username;
          challengeName := ChallengeName out |} ;;
     if present (AuthenticationResult out) then
       (* TODO(israx): cache tokens *)
       cleanActiveSignInState ;;
       ret {| isSignedIn := true;
              nextStep := {| signInStep := DONE; additionalInfo := None |} |}
     else
       (* TODO(israx): set AmplifyUserSession via singleton *)
       lift (getSignInResult (ChallengeName out) (ChallengeParameters out)))
    (fun error =>
       cleanActiveSignInState ;;
       assertServiceError error ;;
       match getSignInResultFromError (errorName error) with
       | Some result => ret result
       | None => throw error
       end).

(** The metadata [signInWithUserPassword] sends a request with. *)
Definition metadataOf (req : SignInRequest) : option StringMap :=
  or_else (option_bind (option_bind (options req) serviceOptions) clientMetadata)
          Amplify_config_clientMetadata.

(** The remote call [signInWithUserPassword] issues for a request. *)
Definition executorCall (req : SignInRequest) : InitiateAuthCall :=
  {| callUsername := username req;
     callPassword := password req;
     callMetadata := metadataOf req |}.

(** What the catch block of [signInWithUserPassword] delivers for a
    caught [error]. *)
Definition delivered (error : AuthThrown) : Completion AuthThrown AuthSignInResult :=
  if isServiceError error then
    match getSignInResultFromError (errorName error) with
    | Some result => Returned result
    | None => Threw error
    end
  else Threw UnknownError.

End WithCollaborators.

End SignIn.

(* ===================================================================== *)
(** ** providers/cognito/apis/signUp.ts *)
(* ===================================================================== *)

Module SignUp.
Import AuthErrors.
Local Open Scope js_scope.

(** [Amplify.getConfig().Auth?.Cognito], as far as sign-up reads it. *)
Record CognitoUserPoolConfig := {
  userPoolId : option string;
  userPoolClientId : option string
}.

Record CognitoSignUpOptions := {
  clientMetadata : option StringMap;
  validationData : option StringMap
}.

Record SignUpRequestOptions := {
  userAttributes : option StringMap;
  serviceOptions : option CognitoSignUpOptions
}.

Record SignUpRequest := {
  username : string;
  password : string;
  options : option SignUpRequestOptions
}.

Record AttributeType := {
  Name : string;
  Value : string
}.

Record SignUpCommandInput := {
  Username : string;
  Password : string;
  UserAttributes : option (list AttributeType);
  ClientMetadata : option StringMap;
  ValidationData : option (list AttributeType);
  ClientId : option string
}.

Record CodeDeliveryDetailsType := {
  AttributeName : option string;
  DeliveryMedium : option string;
  Destination : option string
}.

Record SignUpCommandOutput := {
  UserConfirmed : option bool;
  CodeDeliveryDetails : option CodeDeliveryDetailsType;
  UserSub : option string
}.

Record AuthCodeDeliveryDetails := {
  deliveryMedium : option string;
  destination : option string;
  attributeName : option string
}.

Record AuthNextSignUpStep := {
  signUpStep : string;
  codeDeliveryDetails : option AuthCodeDeliveryDetails
}.

Record AuthSignUpResult := {
  isSignUpComplete : bool;
  nextStep : AuthNextSignUpStep;
  userId : option string
}.

(** The world of a sign-up: the configuration singleton and the
    sign-up calls sent to the remote service so far (region and input),
    oldest first. *)
Record World := {
  authConfig : option CognitoUserPoolConfig;
  signUpCalls : list (string * SignUpCommandInput)
}.

Definition SignUpM := M World AuthThrown.

(** Modelled from the spec: the test of assertTokenProviderConfig (core
    package), which is not among the sources.  The configuration is
    valid when it is present and names a user pool id and a client id. *)
Definition validTokenProviderConfig (cfg : option CognitoUserPoolConfig) : bool :=
  match cfg with
  | Some c => truthy_opt (userPoolId c) && truthy_opt (userPoolClientId c)
  | None => false
  end.

(** Modelled from the spec: assertTokenProviderConfig (core package) is
    not among the sources.  On an invalid configuration it throws the
    AuthTokenConfigException that the documentation of [signUp] names. *)
Definition assertTokenProviderConfig (cfg : option CognitoUserPoolConfig)
    : SignUpM unit :=
  if validTokenProviderConfig cfg then ret tt
  else throw (ConfigurationError "AuthTokenConfigException").

(** Modelled from the spec: utils/apiHelpers is not among the sources.
    [toAttributeType] turns an attribute mapping into the attribute
    list of the remote service, one entry per key. *)
Definition toAttributeType (attrs : StringMap) : list AttributeType :=
  map (fun kv => {| Name := fst kv; Value := snd kv |}) attrs.

Section WithCollaborators.

(** Region of a user pool id (utils/clients/CognitoIdentityProvider/utils);
    it may reject the id. *)
Variable getRegion : option string -> Completion AuthThrown string.

(** The remote sign-up call. *)
Variable remoteSignUp :
  string -> SignUpCommandInput -> Completion AuthThrown SignUpCommandOutput.

(** [signUpClient]: one remote call, recorded in the world. *)
Definition signUpClient (region : string) (input : SignUpCommandInput)
    : SignUpM SignUpCommandOutput :=
  fun w =>
    (remoteSignUp region input,
     {| authConfig := authConfig w;
        signUpCalls := signUpCalls w ++ [(region, input)] |}).

Definition signUp (signUpRequest : SignUpRequest) : SignUpM AuthSignUpResult :=
  let username := username signUpRequest in
  let password := password signUpRequest in
  let options := options signUpRequest in
  authConfig <- gets authConfig ;;
  let clientMetadata :=
    option_bind (option_bind (SignUp.options signUpRequest) serviceOptions)
                clientMetadata in
  assertTokenProviderConfig authConfig ;;
  assertValidationError (truthy username) EmptySignUpUsername ;;
  assertValidationError (truthy password) EmptySignUpPassword ;;
  (* TODO: implement autoSignIn *)
  let validationData :=
    option_map toAttributeType
      (option_bind (option_bind options serviceOptions) validationData) in
  let attributes :=
    option_map toAttributeType (option_bind options userAttributes) in
  region <- lift (getRegion (option_bind authConfig userPoolId)) ;;
  res <- signUpClient region
           {| Username := username;
              Password := password;
              UserAttributes := attributes;
              ClientMetadata := clientMetadata;
              ValidationData := validationData;
              ClientId := option_bind authConfig userPoolClientId |} ;;
  if truthy_flag (UserConfirmed res) then
    ret {| isSignUpComplete := true;
           nextStep := {| signUpStep := "DONE"; codeDeliveryDetails := None |};
           userId := None |}
  else
    ret {| isSignUpComplete := false;
           nextStep :=
             {| signUpStep := "CONFIRM_SIGN_UP";
                codeDeliveryDetails :=
                  Some {| deliveryMedium :=
                            option_bind (CodeDeliveryDetails res) DeliveryMedium;
                          destination :=
                            option_bind (CodeDeliveryDetails res) Destination;
                          attributeName :=
                            option_bind (CodeDeliveryDetails res) AttributeName |} |};
           userId := UserSub res |}.

End WithCollaborators.

(** The input [signUp] sends for a request under a configuration. *)
Definition signUpInput (cfg : option CognitoUserPoolConfig) (req : SignUpRequest)
    : SignUpCommandInput :=
  {| Username := username req;
     Password := password req;
     UserAttributes :=
       option_map toAttributeType (option_bind (options req) userAttributes);
     ClientMetadata :=
       option_bind (option_bind (options req) serviceOptions) clientMetadata;
     ValidationData :=
       option_map toAttributeType
         (option_bind (option_bind (options req) serviceOptions) validationData);
     ClientId := option_bind cfg userPoolClientId |}.

End SignUp.

(* ===================================================================== *)
(** ** storage/providers/s3/apis/getUrl.ts *)
(* ===================================================================== *)

(** Numbers are integers here: expirations and epoch milliseconds are
    integral and far below 2^53, where JavaScript computes with them
    exactly.  A Date is kept as its epoch milliseconds. *)

Module GetUrl.
Local Open Scope js_scope.
Local Open Scope Z_scope.

Inductive StorageValidationErrorCode :=
| NoKey
| UrlExpirationMaxLimitExceed.

Inductive StorageThrown :=
| ValidationError (code : StorageValidationErrorCode)
    (* StorageError raised by assertValidationError *)
| S3Exception (name : string)
    (* error of the remote object store *)
| TypeError (message : string)
    (* property read on undefined *)
| OtherError (message : string).
    (* failure of credential or configuration resolution *)

(** Seconds by the presigner's convention; the source gives no unit. *)
Definition DEFAULT_PRESIGN_EXPIRATION : Z := 900.

(** Seven days, in milliseconds. *)
Definition MAX_URL_EXPIRATION : Z := 7 * 24 * 60 * 60 * 1000.

(** AWS credentials; [expiration] is a Date, kept as epoch
    milliseconds, the value of [getTime()]. *)
Record AWSCredentials := {
  accessKeyId : string;
  secretAccessKey : string;
  sessionToken : option string;
  expiration : option Z
}.

Record ResolvedCredentials := {
  credentials : option AWSCredentials;
  identityId : option string
}.

Record StorageConfig := {
  defaultAccessLevel : string;
  bucket : string;
  region : string
}.

Record S3GetUrlOptions := {
  accessLevel : option string;
  validateObjectExistence : option bool;
  optExpiration : option Z
}.

Record StorageDownloadDataRequest := {
  key : string;
  options : option S3GetUrlOptions
}.

Record GetObjectInput := {
  Bucket : string;
  Key : string
}.

Record PresignOptions := {
  presignAccessLevel : string;
  presignCredentials : option AWSCredentials;
  presignExpiration : Z;
  signingRegion : string;
  presignRegion : string;
  signingService : string
}.

(** [expiresAt] is a Date, kept as epoch milliseconds. *)
Record S3GetUrlResult := {
  url : string;
  expiresAt : Z
}.

(** What the call asks of its collaborators, oldest first. *)
Inductive StorageCall :=
| GetPropertiesCall (k : string)
| PresignCall (o : PresignOptions) (i : GetObjectInput).

Definition isPresignCall (c : StorageCall) : bool :=
  match c with
  | PresignCall _ _ => true
  | GetPropertiesCall _ => false
  end.

Definition World := list StorageCall.

Definition StorageM := M World StorageThrown.

(** Modelled from the spec: errors/utils/assertValidationError of the
    storage package is not among the sources.  It throws the validation
    error named by [code] when the assertion is false. *)
Definition assertValidationError (assertion : bool)
    (code : StorageValidationErrorCode) : StorageM unit :=
  if assertion then ret tt else throw (ValidationError code).

Definition S3_SERVICE_NAME : string := "s3".

Section WithCollaborators.

(** utils/resolveCredentials: the credentials of the current session. *)
Variable resolveCredentials : Completion StorageThrown ResolvedCredentials.

(** utils/resolveStorageConfig: the storage part of the configuration. *)
Variable resolveStorageConfig : Completion StorageThrown StorageConfig.

(** utils/getKeyWithPrefix: access level, identity id, key. *)
Variable getKeyWithPrefix : string -> option string -> string -> string.

(** The remote existence check behind [getProperties]. *)
Variable headObject : string -> Completion StorageThrown unit.

(** The presigner behind [getPresignedGetObjectUrl]. *)
Variable presigner :
  PresignOptions -> GetObjectInput -> Completion StorageThrown string.

(** [Date.now()], epoch milliseconds. *)
Variable Date_now : Z.

Definition getProperties (k : string) : StorageM unit :=
  fun w => (headObject k, w ++ [GetPropertiesCall k]).

Definition getPresignedGetObjectUrl (o : PresignOptions) (i : GetObjectInput)
    : StorageM string :=
  fun w => (presigner o i, w ++ [PresignCall o i]).

Definition getUrl (req : StorageDownloadDataRequest) : StorageM S3GetUrlResult :=
  let options := options req in
  resolved <- lift resolveCredentials ;;
  let credentials := credentials resolved in
  let identityId := identityId resolved in
  config <- lift resolveStorageConfig ;;
  let key := key req in
  let accessLevel :=
    nullish (option_bind options accessLevel) (defaultAccessLevel config) in
  assertValidationError (truthy key) NoKey ;;
  (if truthy_flag (option_bind options validateObjectExistence)
   then getProperties key
   else ret tt) ;;
  let finalKey := getKeyWithPrefix accessLevel identityId key in
  let getUrlParams := {| Bucket := bucket config; Key := finalKey |} in
  let getUrlOptions :=
    {| presignAccessLevel := accessLevel;
       presignCredentials := credentials;
       presignExpiration :=
         nullish (option_bind options optExpiration) DEFAULT_PRESIGN_EXPIRATION;
       signingRegion := region config;
       presignRegion := region config;
       signingService := S3_SERVICE_NAME |} in
  let urlExpiration :=
    nullish (option_bind options optExpiration) DEFAULT_PRESIGN_EXPIRATION in
  assertValidationError (MAX_URL_EXPIRATION <? urlExpiration)
                        UrlExpirationMaxLimitExceed ;;
  let awsCredExpiration := option_bind credentials expiration in
  (* expiresAt is the minimum of credential expiration and url expiration *)
  match awsCredExpiration with
  | None =>
      throw (TypeError "Cannot read properties of undefined (reading 'getTime')")
  | Some credTime =>
      let urlExpiration' :=
        if urlExpiration <? credTime then urlExpiration else credTime in
      u <- getPresignedGetObjectUrl getUrlOptions getUrlParams ;;
      ret {| url := u; expiresAt := Date_now + urlExpiration' |}
  end.

End WithCollaborators.

(** The expiration a request asks for: [options?.expiration ??
    DEFAULT_PRESIGN_EXPIRATION]. *)
Definition requestedExpiration (req : StorageDownloadDataRequest) : Z :=
  nullish (option_bind (options req) optExpiration) DEFAULT_PRESIGN_EXPIRATION.

(** Whether a request asks for the existence check. *)
Definition wantsExistenceCheck (req : StorageDownloadDataRequest) : bool :=
  truthy_flag (option_bind (options req) validateObjectExistence).

(** The presign calls among the calls of a world. *)
Definition presignCalls (w : World) : list StorageCall :=
  filter isPresignCall w.

End GetUrl.

(* ===================================================================== *)
(** ** predictions/src/Predictions.ts *)
(* ===================================================================== *)

Module Predictions.
Local Open Scope js_scope.

Inductive PredictionsThrown :=
| Error (message : string)
| TypeError (message : string).

Record ProviderOptions := {
  providerName : option string
}.

Section WithTypes.

(** Inputs and outputs of the three capabilities. *)
Variables ConvertInput ConvertOutput : Type.
Variables IdentifyInput IdentifyOutput : Type.
Variables InterpretInput InterpretOutput : Type.

(** A pluggable: its name and the capabilities it implements. *)
Record AbstractPredictionsProvider := {
  getProviderName : string;
  convert_method : option (ConvertInput -> ConvertOutput);
  identify_method : option (IdentifyInput -> IdentifyOutput);
  interpret_method : option (InterpretInput -> InterpretOutput)
}.

Record PredictionsClass := {
  _convertPluggables : list AbstractPredictionsProvider;
  _identifyPluggables : list AbstractPredictionsProvider;
  _interpretPluggables : list AbstractPredictionsProvider
}.

Definition PredictionsM := M PredictionsClass PredictionsThrown.

Definition implementsConvertPluggable (obj : AbstractPredictionsProvider) : bool :=
  present (convert_method obj).

Definition implementsIdentifyPluggable (obj : AbstractPredictionsProvider) : bool :=
  present (identify_method obj).

Definition implementsInterpretPluggable (obj : AbstractPredictionsProvider) : bool :=
  present (interpret_method obj).

Definition getAllProviders (this : PredictionsClass)
    : list AbstractPredictionsProvider :=
  _convertPluggables this ++ _identifyPluggables this ++ _interpretPluggables this.

(** Returns null ([None]) when no pluggable has the name. *)
Definition getPluggable (this : PredictionsClass) (name : string)
    : option AbstractPredictionsProvider :=
  find (fun pluggable => String.eqb (getProviderName pluggable) name)
       (getAllProviders this).

Definition addPluggable (pluggable : AbstractPredictionsProvider)
    : PredictionsM unit :=
  fun this =>
    if present (getPluggable this (getProviderName pluggable)) then
      (Threw (Error ("Pluggable with name " ++ getProviderName pluggable
                     ++ " has already been added.")), this)
    else
      let this1 :=
        if implementsConvertPluggable pluggable
        then {| _convertPluggables := _convertPluggables this ++ [pluggable];
                _identifyPluggables := _identifyPluggables this;
                _interpretPluggables := _interpretPluggables this |}
        else this in
      let this2 :=
        if implementsIdentifyPluggable pluggable
        then {| _convertPluggables := _convertPluggables this1;
                _identifyPluggables := _identifyPluggables this1 ++ [pluggable];
                _interpretPluggables := _interpretPluggables this1 |}
        else this1 in
      let this3 :=
        if implementsInterpretPluggable pluggable
        then {| _convertPluggables := _convertPluggables this2;
                _identifyPluggables := _identifyPluggables this2;
                _interpretPluggables := _interpretPluggables this2 ++ [pluggable] |}
        else this2 in
      (Returned tt, this3).

Definition removePluggable (name : string) : PredictionsM unit :=
  modify (fun this =>
    let keep := filter (fun pluggable =>
                  negb (String.eqb (getProviderName pluggable) name)) in
    {| _convertPluggables := keep (_convertPluggables this);
       _identifyPluggables := keep (_identifyPluggables this);
       _interpretPluggables := keep (_interpretPluggables this) |}).

Definition NO_SINGLE_PROVIDER : string :=
  "More than one or no providers are configured, " ++
  "Either specify a provider name or configure exactly one provider".

(** The result is [None] when the function returns undefined. *)
Definition getPluggableToExecute (pluggables : list AbstractPredictionsProvider)
    (providerOptions : option ProviderOptions)
    : Completion PredictionsThrown (option AbstractPredictionsProvider) :=
  (* Give preference to provider name first since it is more specific to
     this call, even if there is only one provider configured to error
     out if the name provided is not the one matched. *)
  if truthy_opt (option_bind providerOptions providerName) then
    Returned
      (find (fun pluggable =>
               match option_bind providerOptions providerName with
               | Some name => String.eqb (getProviderName pluggable) name
               | None => false
               end)
            pluggables)
  else
    if Nat.eqb (length pluggables) 1 then
      Returned (nth_error pluggables 0)
    else
      Threw (Error NO_SINGLE_PROVIDER).

(** [pluggableToExecute.method(input)]: reading a method of undefined
    is a TypeError, and so is calling a method the object lacks. *)
Definition invoke {I O} (method : AbstractPredictionsProvider -> option (I -> O))
    (methodName : string) (pluggableToExecute : option AbstractPredictionsProvider)
    (input : I) : Completion PredictionsThrown O :=
  match pluggableToExecute with
  | None =>
      Threw (TypeError ("Cannot read properties of undefined (reading '"
                        ++ methodName ++ "')"))
  | Some p =>
      match method p with
      | Some f => Returned (f input)
      | None => Threw (TypeError ("pluggableToExecute." ++ methodName
                                  ++ " is not a function"))
      end
  end.

Definition interpret (input : InterpretInput) (options : option ProviderOptions)
    : PredictionsM InterpretOutput :=
  this <- gets (fun this => this) ;;
  pluggableToExecute <-
    lift (getPluggableToExecute (_interpretPluggables this) options) ;;
  lift (invoke interpret_method "interpret" pluggableToExecute input).

Definition convert (input : ConvertInput) (options : option ProviderOptions)
    : PredictionsM ConvertOutput :=
  this <- gets (fun this => this) ;;
  pluggableToExecute <-
    lift (getPluggableToExecute (_convertPluggables this) options) ;;
  lift (invoke convert_method "convert" pluggableToExecute input).

Definition identify (input : IdentifyInput) (options : option ProviderOptions)
    : PredictionsM IdentifyOutput :=
  this <- gets (fun this => this) ;;
  pluggableToExecute <-
    lift (getPluggableToExecute (_identifyPluggables this) options) ;;
  lift (invoke identify_method "identify" pluggableToExecute input).

End WithTypes.

Arguments getProviderName {_ _ _ _ _ _} _.
Arguments convert_method {_ _ _ _ _ _} _.
Arguments identify_method {_ _ _ _ _ _} _.
Arguments interpret_method {_ _ _ _ _ _} _.
Arguments _convertPluggables {_ _ _ _ _ _} _.
Arguments _identifyPluggables {_ _ _ _ _ _} _.
Arguments _interpretPluggables {_ _ _ _ _ _} _.
Arguments getPluggable {_ _ _ _ _ _} this name.
Arguments addPluggable {_ _ _ _ _ _} pluggable _.
Arguments removePluggable {_ _ _ _ _ _} name _.
Arguments getPluggableToExecute {_ _ _ _ _ _} pluggables providerOptions.
Arguments interpret {_ _ _ _ _ _} input options _.
Arguments convert {_ _ _ _ _ _} input options _.
Arguments identify {_ _ _ _ _ _} input options _.

(** No pluggable of the list has the name. *)
Definition unregistered {CI CO II IO TI TO : Type} (name : string)
    (pluggables : list (AbstractPredictionsProvider CI CO II IO TI TO)) : Prop :=
  forall p, In p pluggables -> getProviderName p <> name.

(** The TypeError of reading [method] on undefined. *)
Definition readOfUndefined (method : string) : PredictionsThrown :=
  TypeError ("Cannot read properties of undefined (reading '" ++ method ++ "')").

End Predictions.

(* ===================================================================== *)
(** ** auth/src/cognito: the CognitoProvider facade *)
(* ===================================================================== *)

Module CognitoProvider.
Local Open Scope js_scope.

Definition COGNITO_CACHE_KEY : string := "__cognito_cached_tokens".

Definition PROVIDER_NAME : string := "CognitoProvider".

(** Local storage: keys and their string values. *)
Definition Storage := list (string * string).

Fixpoint getItem (st : Storage) (k : string) : option string :=
  match st with
  | [] => None
  | (k', v) :: rest => if String.eqb k' k then Some v else getItem rest k
  end.

Definition removeItem (st : Storage) (k : string) : Storage :=
  filter (fun kv => negb (String.eqb (fst kv) k)) st.

(** [PluginConfig], which is also what [_config] holds. *)
Record PluginConfig := {
  userPoolId : option string;
  region : option string;
  clientId : option string;
  identityPoolId : option string;
  oauth : option string;
  storage : option Storage
}.

Record SignInParams := {
  signInType : string;
  username : string;
  password : option string
}.

Record SignUpParams := {
  signUpUsername : string;
  signUpPassword : string
}.

Record ConfirmSignUpParams := {
  confirmUsername : string;
  confirmationCode : string
}.

Record ConfirmSignInParams := {
  challengeName : string;
  mfaCode : option string;
  newPassword : option string;
  requiredAttributes : option StringMap
}.

(** Events sent to the authentication machine. *)
Inductive AuthMachineEvent :=
| configureEvent (config : PluginConfig)
| initiateSignUp (params : SignUpParams)
| signInRequested (signInType : string) (username : option string)
    (password : option string) (signInFlow : option string).

(** Events sent to the actor the machine spawned. *)
Inductive ActorEvent :=
| respondToAuthChallenge (params : ConfirmSignInParams)
| confirmSignUpEvent (params : ConfirmSignUpParams).

(** The spawned sign-in or sign-up actor: its state and what it was sent. *)
Record ActorRef := {
  actorState : string;
  actorInbox : list ActorEvent
}.

(** The interpreted authentication machine.  The machines themselves
    (./machines) are not among the sources: the service is kept as the
    state the facade reads and the events the facade sent, oldest
    first. *)
Record AuthService := {
  stateValue : string;
  actorRef : option ActorRef;
  contextError : option string;
  sentEvents : list AuthMachineEvent
}.

Inductive RemoteCommand :=
| GetIdCommand (IdentityPoolId : string) (loginKey idToken : string)
| GetCredentialsForIdentityCommand (IdentityId : string) (loginKey idToken : string)
| GetUserCommand (accessToken : string).

Record CognitoProvider := {
  _authService : AuthService;
  _config : PluginConfig;
  _userStorage : Storage;
  _authFlow : string;
  remoteCommands : list RemoteCommand;
  hubEvents : list string
}.

(** What the facade throws: its own [new Error(message)], the error
    the machines caught from the remote service and handed on (in the
    context, or with an error event), or a TypeError of the runtime. *)
Inductive ProviderThrown :=
| Error (message : string)
| MachineError (error : option string)
| TypeError (message : string).

Definition isUsageError (e : ProviderThrown) : bool :=
  match e with Error _ => true | _ => false end.

Definition isServiceRejection (e : ProviderThrown) : bool :=
  match e with MachineError _ => true | _ => false end.

Definition ProviderM := M CognitoProvider ProviderThrown.

(** [state.matches(name)] on a top-level state. *)
Definition matches (svc : AuthService) (name : string) : bool :=
  String.eqb (stateValue svc) name.

Definition with_authService (this : CognitoProvider) (svc : AuthService)
    : CognitoProvider :=
  {| _authService := svc;
     _config := _config this;
     _userStorage := _userStorage this;
     _authFlow := _authFlow this;
     remoteCommands := remoteCommands this;
     hubEvents := hubEvents this |}.

(** [this._authService.send(event)] *)
Definition authService_send (event : AuthMachineEvent) : ProviderM unit :=
  modify (fun this =>
    let svc := _authService this in
    with_authService this
      {| stateValue := stateValue svc;
         actorRef := actorRef svc;
         contextError := contextError svc;
         sentEvents := sentEvents svc ++ [event] |}).

(** [actorRef.send(event)] on the actor held in the machine's context. *)
Definition actor_send (event : ActorEvent) : ProviderM unit :=
  fun this =>
    let svc := _authService this in
    match actorRef svc with
    | None =>
        (Threw (TypeError
           "Cannot read properties of undefined (reading 'send')"),
         this)
    | Some a =>
        (Returned tt,
         with_authService this
           {| stateValue := stateValue svc;
              actorRef := Some {| actorState := actorState a;
                                  actorInbox := actorInbox a ++ [event] |};
              contextError := contextError svc;
              sentEvents := sentEvents svc |})
    end.

(** [actorRef.subscribe(listener)] on the actor held in the machine's
    context; the listener only logs. *)
Definition actor_subscribe : ProviderM unit :=
  fun this =>
    match actorRef (_authService this) with
    | None =>
        (Threw (TypeError
           "Cannot read properties of undefined (reading 'subscribe')"),
         this)
    | Some _ => (Returned tt, this)
    end.

Definition isConfigured (this : CognitoProvider) : bool :=
  truthy_opt (userPoolId (_config this)) && truthy_opt (region (_config this)).

Definition isAuthenticated (this : CognitoProvider) : bool :=
  (* TODO: should also check if token has expired? *)
  matches (_authService this) "signedIn".

Definition isSigningIn (this : CognitoProvider) : bool :=
  matches (_authService this) "signedIn".

Record SignInResult := {
  signInSuccesful : bool;
  nextStep : bool
}.

(** The cached tokens, as [getSessionData] parses them. *)
Record SessionData := {
  accessToken : string;
  idToken : string;
  refreshToken : string;
  expiration : Z
}.

(** [Credentials] of a GetCredentialsForIdentity response. *)
Record IdentityCredentials := {
  AccessKeyId : option string;
  SecretKey : option string;
  SessionToken : option string;
  Expiration : option Z
}.

Record AWSCredentials := {
  accessKeyId : option string;
  secretAccessKey : option string;
  sessionToken : option string;
  awsExpiration : option Z
}.

Record AmplifyUser := {
  sessionId : string;
  userid : option string;
  jwt : string * string * string;
  aws : AWSCredentials
}.

Definition remote_send {A} (command : RemoteCommand)
    (response : Completion ProviderThrown A) : ProviderM A :=
  fun this =>
    (response,
     {| _authService := _authService this;
        _config := _config this;
        _userStorage := _userStorage this;
        _authFlow := _authFlow this;
        remoteCommands := remoteCommands this ++ [command];
        hubEvents := hubEvents this |}).

Definition NO_CREDENTIALS : string :=
  "No credentials from the response of GetCredentialsForIdentity call.".

Definition shearAWSCredentials (res : option IdentityCredentials)
    : Completion ProviderThrown AWSCredentials :=
  match res with
  | None => Threw (Error NO_CREDENTIALS)
  | Some c =>
      Returned {| accessKeyId := AccessKeyId c;
                  secretAccessKey := SecretKey c;
                  sessionToken := SessionToken c;
                  awsExpiration := Expiration c |}
  end.

(** The event of a transition, as a listener sees it. *)
Record TransitionEvent := {
  eventType : string;
  eventError : option string
}.

(** What a transition listener does at one transition: settle the
    promise it serves, or keep waiting. *)
Definition Listener (A : Type) : Type :=
  AuthService -> TransitionEvent -> option (Completion ProviderThrown A).

(** How the facade waits for the machines.  xstate and the machines it
    runs (./machines) are not among the sources, so the waits are an
    interface: each lets the machines run and delivers what the facade
    was waiting for.
    - [waitFor p]: the state of the authentication machine once it
      satisfies [p];
    - [raceWaitFor p q]: [Promise.race] of a wait for the authentication
      machine to satisfy [p] and a wait for the actor to satisfy [q];
    - [onTransition l]: a promise settled by the listener [l], which is
      run at every transition of the authentication machine. *)
Record XState := {
  waitFor : (AuthService -> bool) -> ProviderM AuthService;
  raceWaitFor : (AuthService -> bool) -> (ActorRef -> bool) -> ProviderM unit;
  onTransition : forall A : Type, Listener A -> ProviderM A
}.

Section WithMachines.

(** [_handlingOAuthCodeResponse()]: the page URL carries an OAuth code. *)
Variable handlingOAuthCodeResponse : bool.

Variable xstate : XState.

Definition waitForSignUpComplete : ProviderM string :=
  onTransition xstate string
    (fun state event =>
       if matches state "signedUp" then
         Some (Returned "result from promise in waitForSignUpComplete")
       else if matches state "error" then
         if String.eqb (eventType event) "error"
         then Some (Threw (MachineError (eventError event)))
         else Some (Threw (Error "Something went wrong during sign up"))
       else None).

(** The actor is a shared object: after the waits its state is read
    where the machine keeps it, and from the reference taken before
    them only when the machine has dropped it. *)
Definition waitForSignInComplete : ProviderM SignInResult :=
  signingInState <- waitFor xstate (fun state => matches state "signingIn") ;;
  match actorRef signingInState with
  | Some signInActorRef =>
      (* TODO: Can I refactor signInMachine or the main AuthMachine state
         to avoid using Promise.race? *)
      raceWaitFor xstate
        (fun state => matches state "signedIn" || matches state "error")
        (fun actor => String.eqb (actorState actor) "nextAuthChallenge") ;;
      authService <- gets _authService ;;
      (* if it reaches error state, throw the caught error *)
      if matches authService "error" then
        throw (MachineError (contextError authService))
      else
        ret {| signInSuccesful := matches authService "signedIn";
               nextStep :=
                 String.eqb
                   (actorState (nullish (actorRef authService) signInActorRef))
                   "nextAuthChallenge" |}
  | None => ret {| signInSuccesful := false; nextStep := false |}
  end.

(** [JSON.parse] of the cached tokens; the parsed value may be null. *)
Variable JSON_parse : string -> Completion ProviderThrown (option SessionData).

(** ./Util: expiry of a JWT, and its [sub] claim when it is a string. *)
Variable getExpirationTimeFromJWT : string -> Completion ProviderThrown Z.
Variable decodeJWT_sub : string -> Completion ProviderThrown (option string).

(** The remote identity pool and user pool. *)
Variable remoteGetId :
  string -> string -> string -> Completion ProviderThrown (option string).
Variable remoteGetCredentialsForIdentity :
  string -> string -> string -> Completion ProviderThrown (option IdentityCredentials).
Variable remoteGetUser : string -> Completion ProviderThrown unit.

(** The promise chain [configure] starts on an OAuth redirect:
    [waitFor(signedOut).then(() => send(signInRequested Social))].
    [configure] does not await it: it runs after [configure] has
    returned, and sends nothing if the machine never reaches
    signedOut. *)
Definition requestSocialSignInOnceSignedOut : ProviderM unit :=
  (* wait for state machine to finish transitioning to signed out state *)
  waitFor xstate (fun state => matches state "signedOut") ;;
  authService_send (signInRequested "Social" None None None).

Definition configure (config : PluginConfig) : ProviderM unit :=
  if negb (truthy_opt (userPoolId config)) || negb (truthy_opt (region config))
  then throw (Error ("Invalid config for " ++ PROVIDER_NAME))
  else
    modify (fun this =>
      {| _authService := _authService this;
         _config := {| userPoolId := userPoolId config;
                       region := region config;
                       clientId := clientId config;
                       identityPoolId := identityPoolId config;
                       oauth := oauth config;
                       storage := None |};
         _userStorage := nullish (storage config) (_userStorage this);
         _authFlow := _authFlow this;
         remoteCommands := remoteCommands this;
         hubEvents := hubEvents this |}) ;;
    cfg <- gets _config ;;
    authService_send (configureEvent cfg) ;;
    if handlingOAuthCodeResponse then
      (* [requestSocialSignInOnceSignedOut] is started and not awaited *)
      ret tt
    else ret tt.

Definition signUp (params : SignUpParams) : ProviderM string :=
  this <- gets (fun this => this) ;;
  if negb (isConfigured this) then throw (Error "Plugin not configured")
  else
    (* kick off the sign up request *)
    authService_send (initiateSignUp params) ;;
    waitForSignUpComplete.

Definition confirmSignUp (params : ConfirmSignUpParams) : ProviderM string :=
  this <- gets (fun this => this) ;;
  if negb (present (actorRef (_authService this)))
     && negb (matches (_authService this) "signingUp")
  then throw (Error
         "Sign up proccess has not been initiated, have you called .signUp?")
  else
    (* DEBUGGING *)
    actor_subscribe ;;
    actor_send (confirmSignUpEvent params) ;;
    waitForSignUpComplete.

Definition signIn (params : SignInParams) : ProviderM SignInResult :=
  this <- gets (fun this => this) ;;
  if negb (isConfigured this) then throw (Error "Plugin not configured")
  else
    (* TODO: implement the other sign in method *)
    if String.eqb (signInType params) "Link"
       || String.eqb (signInType params) "WebAuthn"
    then throw (Error "Not implemented")
    else
      (* throw error if user is already signed in *)
      if isAuthenticated this then
        throw (Error ("User is already authenticated, " ++
                      "please sign out the current user before signing in."))
      else
        (* kick off the sign in request *)
        authService_send
          (signInRequested (signInType params) (Some (username params))
                           (password params) (Some (_authFlow this))) ;;
        waitForSignInComplete.

Definition SIGN_IN_NOT_INITIATED : string :=
  "Sign in proccess has not been initiated, have you called .signIn?".

Definition confirmSignIn (params : ConfirmSignInParams) : ProviderM SignInResult :=
  if negb (String.eqb (challengeName params) "SMS_MFA")
     && negb (String.eqb (challengeName params) "SOFTWARE_TOKEN_MFA")
     && negb (String.eqb (challengeName params) "NEW_PASSWORD_REQUIRED")
  then throw (Error "Not implemented")
  else
    this <- gets (fun this => this) ;;
    if negb (present (actorRef (_authService this)))
       || negb (matches (_authService this) "signingIn")
    then throw (Error SIGN_IN_NOT_INITIATED)
    else
      actor_send (respondToAuthChallenge params) ;;
      waitForSignInComplete.

Definition completeNewPassword (newPassword : string)
    (requiredAttributes : option StringMap) : ProviderM SignInResult :=
  if negb (truthy newPassword)
  then throw (Error "New password is required to do complete new password")
  else
    this <- gets (fun this => this) ;;
    if negb (present (actorRef (_authService this))) || negb (isSigningIn this)
    then throw (Error SIGN_IN_NOT_INITIATED)
    else
      actor_send
        (respondToAuthChallenge
           {| challengeName := "NEW_PASSWORD_REQUIRED";
              mfaCode := None;
              newPassword := Some newPassword;
              requiredAttributes := requiredAttributes |}) ;;
      waitForSignInComplete.

Definition clearCachedTokens : ProviderM unit :=
  modify (fun this =>
    {| _authService := _authService this;
       _config := _config this;
       _userStorage := removeItem (_userStorage this) COGNITO_CACHE_KEY;
       _authFlow := _authFlow this;
       remoteCommands := remoteCommands this;
       hubEvents := hubEvents this |}).

Definition dispatchAuthEvent (event : string) : ProviderM unit :=
  modify (fun this =>
    {| _authService := _authService this;
       _config := _config this;
       _userStorage := _userStorage this;
       _authFlow := _authFlow this;
       remoteCommands := remoteCommands this;
       hubEvents := hubEvents this ++ [event] |}).

Definition signOut : ProviderM unit :=
  clearCachedTokens ;;
  dispatchAuthEvent "signOut".

Definition getSessionData (this : CognitoProvider)
    : Completion ProviderThrown (option SessionData) :=
  match getItem (_userStorage this) COGNITO_CACHE_KEY with
  | Some cached => JSON_parse cached
  | None => Returned None
  end.

Definition fetchSession : ProviderM AmplifyUser :=
  this <- gets (fun this => this) ;;
  if negb (isConfigured this) then throw (Error "")
  else
    match region (_config this), identityPoolId (_config this) with
    | None, _ | Some EmptyString, _ =>
        throw (Error "region is not configured for getting the credentials")
    | Some _, None | Some _, Some EmptyString =>
        throw (Error "No Cognito Federated Identity pool provided")
    | Some region, Some identityPoolId =>
        session <- lift (getSessionData this) ;;
        match session with
        | None =>
            throw (Error
              "Does not have active user session, have you called .signIn?")
        | Some session =>
            let idToken := idToken session in
            let accessToken := accessToken session in
            let refreshToken := refreshToken session in
            _ <- lift (getExpirationTimeFromJWT idToken) ;;
            let cognitoIDPLoginKey :=
              ("cognito-idp." ++ region ++ ".amazonaws.com/"
               ++ nullish (userPoolId (_config this)) "undefined")%string in
            getIdRes <-
              remote_send (GetIdCommand identityPoolId cognitoIDPLoginKey idToken)
                (remoteGetId identityPoolId cognitoIDPLoginKey idToken) ;;
            match getIdRes with
            | None | Some EmptyString => throw (Error "Could not get Identity ID")
            | Some IdentityId =>
                getCredentialsRes <-
                  remote_send
                    (GetCredentialsForIdentityCommand IdentityId cognitoIDPLoginKey
                                                      idToken)
                    (remoteGetCredentialsForIdentity IdentityId cognitoIDPLoginKey
                                                     idToken) ;;
                if negb (present getCredentialsRes)
                then throw (Error NO_CREDENTIALS)
                else
                  remote_send (GetUserCommand accessToken)
                              (remoteGetUser accessToken) ;;
                  sub <- lift (decodeJWT_sub idToken) ;;
                  aws <- lift (shearAWSCredentials getCredentialsRes) ;;
                  ret {| sessionId := "";
                         userid := sub;
                         jwt := (idToken, accessToken, refreshToken);
                         aws := aws |}
            end
        end
    end.

End WithMachines.

(** A sign-in attempt is suspended, waiting for the response to a
    challenge: the machine is in signingIn and the actor it spawned is
    in nextAuthChallenge. *)
Definition awaitingChallengeResponse (this : CognitoProvider) : Prop :=
  matches (_authService this) "signingIn" = true
  /\ exists actor,
       actorRef (_authService this) = Some actor
       /\ actorState actor = "nextAuthChallenge".

(** A prior signIn has initiated an attempt that confirmSignIn can
    answer: the machine is in signingIn and holds the actor. *)
Definition signInInitiated (this : CognitoProvider) : bool :=
  present (actorRef (_authService this)) && matches (_authService this) "signingIn".

(** The configuration names no user pool id or no region. *)
Definition lacksPoolOrRegion (config : PluginConfig) : bool :=
  negb (truthy_opt (userPoolId config)) || negb (truthy_opt (region config)).

(** The event [signIn] sends for its parameters. *)
Definition signInRequestedFor (this : CognitoProvider) (params : SignInParams)
    : AuthMachineEvent :=
  signInRequested (signInType params) (Some (username params)) (password params)
                  (Some (_authFlow this)).

(** The provider after [event] was sent to the authentication machine. *)
Definition afterSend (event : AuthMachineEvent) (this : CognitoProvider)
    : CognitoProvider :=
  snd (authService_send event this).

(** The provider after [event] was sent to the actor the machine holds. *)
Definition afterActorSend (event : ActorEvent) (this : CognitoProvider)
    : CognitoProvider :=
  snd (actor_send event this).

(** [confirmSignIn] can answer the challenge. *)
Definition supportedChallenge (params : ConfirmSignInParams) : bool :=
  String.eqb (challengeName params) "SMS_MFA"
  || String.eqb (challengeName params) "SOFTWARE_TOKEN_MFA"
  || String.eqb (challengeName params) "NEW_PASSWORD_REQUIRED".

(** [signIn] can serve the sign-in type. *)
Definition supportedSignInType (params : SignInParams) : bool :=
  negb (String.eqb (signInType params) "Link"
        || String.eqb (signInType params) "WebAuthn").

End CognitoProvider.

(* ===================================================================== *)
(** ** Sample collaborators and inputs *)
(* ===================================================================== *)

Module Samples.
Import AuthErrors.

(** A sign-in request with the given credentials and no options. *)
Definition signInRequest (u : string) (p : option string) : SignIn.SignInRequest :=
  {| SignIn.username := u; SignIn.password := p; SignIn.options := None |}.

Definition tokens : SignIn.AuthenticationResultType :=
  {| SignIn.AccessToken := "access";
     SignIn.IdToken := "id";
     SignIn.RefreshToken := "refresh" |}.

Definition authenticated : SignIn.InitiateAuthOutput :=
  {| SignIn.ChallengeName := None;
     SignIn.ChallengeParameters := None;
     SignIn.AuthenticationResult := Some tokens;
     SignIn.Session := None |}.

(** An identity provider that knows one user, "alice" with password
    "correct", and rejects everything else as not authorized. *)
Definition identityProvider (u : string) (p : option string)
    (metadata : option StringMap)
    : Completion AuthThrown SignIn.InitiateAuthOutput :=
  match p with
  | Some pw =>
      if String.eqb u "alice" && String.eqb pw "correct"
      then Returned authenticated
      else Threw (ServiceError "NotAuthorizedException")
  | None => Threw (ServiceError "NotAuthorizedException")
  end.

Definition signInStepResult (step : SignIn.AuthSignInStep)
    (info : option StringMap) : SignIn.AuthSignInResult :=
  {| SignIn.isSignedIn := false;
     SignIn.nextStep :=
       {| SignIn.signInStep := step; SignIn.additionalInfo := info |} |}.

(** A challenge mapping that knows the SMS challenge only. *)
Definition getSignInResult (challenge : option string)
    (parameters : option StringMap)
    : Completion AuthThrown SignIn.AuthSignInResult :=
  match challenge with
  | Some "SMS_MFA" =>
      Returned (signInStepResult SignIn.CONFIRM_SIGN_IN_WITH_SMS_CODE parameters)
  | _ => Threw (PlainError "challenge not supported")
  end.

(** An error mapping that turns a required password reset into a step. *)
Definition getSignInResultFromError (name : string)
    : option SignIn.AuthSignInResult :=
  if String.eqb name "PasswordResetRequiredException"
  then Some (signInStepResult SignIn.RESET_PASSWORD None)
  else None.

Definition freshWorld : SignIn.World :=
  {| SignIn.signInStore := None;
     SignIn.tokenCache := None;
     SignIn.executorCalls := [] |}.

(** A world in which an earlier attempt waits for its SMS code. *)
Definition awaitingWorld : SignIn.World :=
  {| SignIn.signInStore :=
       Some {| SignIn.signInSession := Some "session-1";
               SignIn.activeUsername := "alice";
               SignIn.challengeName := Some "SMS_MFA" |};
     SignIn.tokenCache := None;
     SignIn.executorCalls := [] |}.

Definition signIn : SignIn.SignInRequest -> SignIn.SignInM SignIn.AuthSignInResult :=
  SignIn.signInWithUserPassword None identityProvider getSignInResult
                                getSignInResultFromError.

(** Sign-up: a configured user pool and a remote service that accepts
    every user, confirms "root" at once and mails a code to the others. *)
Definition userPool : SignUp.CognitoUserPoolConfig :=
  {| SignUp.userPoolId := Some "us-east-1_abc";
     SignUp.userPoolClientId := Some "client-1" |}.

Definition configuredWorld : SignUp.World :=
  {| SignUp.authConfig := Some userPool; SignUp.signUpCalls := [] |}.

Definition unconfiguredWorld : SignUp.World :=
  {| SignUp.authConfig := None; SignUp.signUpCalls := [] |}.

Definition signUpRequest (u p : string) : SignUp.SignUpRequest :=
  {| SignUp.username := u; SignUp.password := p; SignUp.options := None |}.

Definition getRegion (pool : option string) : Completion AuthThrown string :=
  match pool with
  | Some _ => Returned "us-east-1"
  | None => Threw (PlainError "Invalid user pool id provided.")
  end.

Definition emailDelivery : SignUp.CodeDeliveryDetailsType :=
  {| SignUp.AttributeName := Some "email";
     SignUp.DeliveryMedium := Some "EMAIL";
     SignUp.Destination := Some "a***@example.com" |}.

Definition unconfirmed : SignUp.SignUpCommandOutput :=
  {| SignUp.UserConfirmed := Some false;
     SignUp.CodeDeliveryDetails := Some emailDelivery;
     SignUp.UserSub := Some "sub-1" |}.

Definition confirmed : SignUp.SignUpCommandOutput :=
  {| SignUp.UserConfirmed := Some true;
     SignUp.CodeDeliveryDetails := None;
     SignUp.UserSub := Some "sub-0" |}.

Definition remoteSignUp (region : string) (input : SignUp.SignUpCommandInput)
    : Completion AuthThrown SignUp.SignUpCommandOutput :=
  if String.eqb (SignUp.Username input) "root"
  then Returned confirmed
  else Returned unconfirmed.

Definition signUp : SignUp.SignUpRequest -> SignUp.SignUpM SignUp.AuthSignUpResult :=
  SignUp.signUp getRegion remoteSignUp.

(** Storage: a session whose credentials expire one hour after the
    clock reading, a bucket, and a presigner that always answers. *)
Definition clock : Z := 1700000000000.

Definition sessionCredentials : GetUrl.AWSCredentials :=
  {| GetUrl.accessKeyId := "AKIA";
     GetUrl.secretAccessKey := "secret";
     GetUrl.sessionToken := Some "token";
     GetUrl.expiration := Some 1700003600000%Z |}.

Definition resolveCredentials
    : Completion GetUrl.StorageThrown GetUrl.ResolvedCredentials :=
  Returned {| GetUrl.credentials := Some sessionCredentials;
              GetUrl.identityId := Some "identity-1" |}.

Definition resolveStorageConfig
    : Completion GetUrl.StorageThrown GetUrl.StorageConfig :=
  Returned {| GetUrl.defaultAccessLevel := "guest";
              GetUrl.bucket := "bucket";
              GetUrl.region := "us-east-1" |}.

Definition getKeyWithPrefix (level : string) (identity : option string)
    (k : string) : string :=
  ("public/" ++ k)%string.

Definition headObject (k : string) : Completion GetUrl.StorageThrown unit :=
  Returned tt.

Definition presigner (o : GetUrl.PresignOptions) (i : GetUrl.GetObjectInput)
    : Completion GetUrl.StorageThrown string :=
  Returned ("https://bucket.s3.amazonaws.com/" ++ GetUrl.Key i)%string.

Definition getUrl
    : GetUrl.StorageDownloadDataRequest -> GetUrl.StorageM GetUrl.S3GetUrlResult :=
  GetUrl.getUrl resolveCredentials resolveStorageConfig getKeyWithPrefix
                headObject presigner clock.

Definition urlRequest (k : string) (e : option Z)
    : GetUrl.StorageDownloadDataRequest :=
  {| GetUrl.key := k;
     GetUrl.options :=
       match e with
       | Some _ => Some {| GetUrl.accessLevel := None;
                           GetUrl.validateObjectExistence := None;
                           GetUrl.optExpiration := e |}
       | None => None
       end |}.

(** Predictions: one provider that converts and interprets, over
    strings. *)
Definition Provider : Type :=
  Predictions.AbstractPredictionsProvider string string string string string string.

Definition awsProvider : Provider :=
  {| Predictions.getProviderName := "AmazonAIPredictionsProvider";
     Predictions.convert_method := Some (fun text => ("translated " ++ text)%string);
     Predictions.identify_method := None;
     Predictions.interpret_method := Some (fun text => "NEUTRAL") |}.

Definition emptyPredictions
    : Predictions.PredictionsClass string string string string string string :=
  {| Predictions._convertPluggables := [];
     Predictions._identifyPluggables := [];
     Predictions._interpretPluggables := [] |}.

(** The Predictions object after [addPluggable awsProvider]. *)
Definition predictions
    : Predictions.PredictionsClass string string string string string string :=
  snd (Predictions.addPluggable awsProvider emptyPredictions).

Definition named (name : string) : option Predictions.ProviderOptions :=
  Some {| Predictions.providerName := Some name |}.

(** The provider facade: configurations and providers in several
    states. *)
Definition poolConfig (client : option string) : CognitoProvider.PluginConfig :=
  {| CognitoProvider.userPoolId := Some "us-east-1_abc";
     CognitoProvider.region := Some "us-east-1";
     CognitoProvider.clientId := client;
     CognitoProvider.identityPoolId := None;
     CognitoProvider.oauth := None;
     CognitoProvider.storage := None |}.

Definition emptyConfig : CognitoProvider.PluginConfig :=
  {| CognitoProvider.userPoolId := None;
     CognitoProvider.region := None;
     CognitoProvider.clientId := None;
     CognitoProvider.identityPoolId := None;
     CognitoProvider.oauth := None;
     CognitoProvider.storage := None |}.

Definition provider (config : CognitoProvider.PluginConfig) (state : string)
    (actor : option CognitoProvider.ActorRef) : CognitoProvider.CognitoProvider :=
  {| CognitoProvider._authService :=
       {| CognitoProvider.stateValue := state;
          CognitoProvider.actorRef := actor;
          CognitoProvider.contextError := None;
          CognitoProvider.sentEvents := [] |};
     CognitoProvider._config := config;
     CognitoProvider._userStorage := [];
     CognitoProvider._authFlow := "USER_PASSWORD_AUTH";
     CognitoProvider.remoteCommands := [];
     CognitoProvider.hubEvents := [] |}.

Definition challengedActor : CognitoProvider.ActorRef :=
  {| CognitoProvider.actorState := "nextAuthChallenge";
     CognitoProvider.actorInbox := [] |}.

(** Configured, with an attempt waiting for its challenge response. *)
Definition suspendedProvider : CognitoProvider.CognitoProvider :=
  provider (poolConfig (Some "client-1")) "signingIn" (Some challengedActor).

(** Configured and signed out: no attempt was started. *)
Definition signedOutProvider : CognitoProvider.CognitoProvider :=
  provider (poolConfig (Some "client-1")) "signedOut" None.

(** Freshly constructed: nothing configured yet. *)
Definition unconfiguredProvider : CognitoProvider.CognitoProvider :=
  provider emptyConfig "notConfigured" None.

Definition passwordSignIn : CognitoProvider.SignInParams :=
  {| CognitoProvider.signInType := "Password";
     CognitoProvider.username := "alice";
     CognitoProvider.password := Some "correct" |}.

Definition smsCode : CognitoProvider.ConfirmSignInParams :=
  {| CognitoProvider.challengeName := "SMS_MFA";
     CognitoProvider.mfaCode := Some "123456";
     CognitoProvider.newPassword := None;
     CognitoProvider.requiredAttributes := None |}.

Definition TIMEOUT : CognitoProvider.ProviderThrown :=
  CognitoProvider.Error "Timeout of 10000 ms exceeded".

(** Machines that do not move: a wait succeeds when the awaited state
    is already there and times out otherwise; a listener is run once,
    on the current state. *)
Definition idleMachines : CognitoProvider.XState :=
  {| CognitoProvider.waitFor := fun p this =>
       (if p (CognitoProvider._authService this)
        then Returned (CognitoProvider._authService this)
        else Threw TIMEOUT, this);
     CognitoProvider.raceWaitFor := fun p q this =>
       (if p (CognitoProvider._authService this)
           || match CognitoProvider.actorRef (CognitoProvider._authService this) with
              | Some actor => q actor
              | None => false
              end
        then Returned tt
        else Threw TIMEOUT, this);
     CognitoProvider.onTransition := fun A listener this =>
       (nullish (listener (CognitoProvider._authService this)
                          {| CognitoProvider.eventType := "xstate.init";
                             CognitoProvider.eventError := None |})
                (Threw TIMEOUT), this) |}.

End Samples.

(* ===================================================================== *)
(** ** api-graphql/src/utils/resolveConfig.ts *)
(* ===================================================================== *)

Module ApiGraphQL.

Inductive APIValidationErrorCode :=
| NoEndpoint
| NoRegion
| NoDefaultAuthMode.

Inductive APIThrown :=
| ValidationError (code : APIValidationErrorCode).

(** [Amplify.getConfig().API?.GraphQL], as far as it is read; the value
    returned has the same four fields. *)
Record GraphQLConfig := {
  region : option string;
  defaultAuthMode : option string;
  endpoint : option string;
  apiKey : option string
}.

(** Modelled from the spec: ./errors of the api-graphql package is not
    among the sources.  [assertValidationError] throws the validation
    error named by [code] when the assertion is false. *)
Definition assertValidationError (assertion : bool)
    (code : APIValidationErrorCode) : Completion APIThrown unit :=
  if assertion then Returned tt else Threw (ValidationError code).

(** The argument is [Amplify.getConfig().API?.GraphQL]. *)
Definition resolveConfig (graphQL : option GraphQLConfig)
    : Completion APIThrown GraphQLConfig :=
  let config :=
    nullish graphQL
      {| region := None; defaultAuthMode := None; endpoint := None;
         apiKey := None |} in
  match assertValidationError (truthy_opt (endpoint config)) NoEndpoint with
  | Threw e => Threw e
  | Returned _ =>
      match assertValidationError (truthy_opt (region config)) NoRegion with
      | Threw e => Threw e
      | Returned _ =>
          match assertValidationError (truthy_opt (defaultAuthMode config))
                                      NoDefaultAuthMode with
          | Threw e => Threw e
          | Returned _ =>
              Returned {| region := region config;
                          defaultAuthMode := defaultAuthMode config;
                          endpoint := endpoint config;
                          apiKey := apiKey config |}
          end
      end
  end.

End ApiGraphQL.

(* ===================================================================== *)
(** ** Vocabulary for the statements about the rest of the code *)
(* ===================================================================== *)

Module Spec.

(** *** signInWithUserPassword *)


(** The request passes the two validation assertions of sign-in. *)
Definition validSignIn (req : SignIn.SignInRequest) : bool :=
  truthy (SignIn.username req) && truthy_opt (SignIn.password req).

(** *** signUp *)

(** The world and the request pass the configuration assertion and the
    two validation assertions of sign-up. *)
Definition validSignUp (w : SignUp.World) (req : SignUp.SignUpRequest) : bool :=
  SignUp.validTokenProviderConfig (SignUp.authConfig w)
  && truthy (SignUp.username req) && truthy (SignUp.password req).

(** *** getUrl *)

Definition accessLevelOf (cfg : GetUrl.StorageConfig)
    (req : GetUrl.StorageDownloadDataRequest) : string :=
  nullish (option_bind (GetUrl.options req) GetUrl.accessLevel)
          (GetUrl.defaultAccessLevel cfg).

(** The options [getUrl] hands to the presigner. *)
Definition presignOptionsOf (rc : GetUrl.ResolvedCredentials)
    (cfg : GetUrl.StorageConfig) (req : GetUrl.StorageDownloadDataRequest)
    : GetUrl.PresignOptions :=
  {| GetUrl.presignAccessLevel := accessLevelOf cfg req;
     GetUrl.presignCredentials := GetUrl.credentials rc;
     GetUrl.presignExpiration := GetUrl.requestedExpiration req;
     GetUrl.signingRegion := GetUrl.region cfg;
     GetUrl.presignRegion := GetUrl.region cfg;
     GetUrl.signingService := GetUrl.S3_SERVICE_NAME |}.

(** The object [getUrl] asks the presigner for. *)
Definition getObjectInputOf
    (getKeyWithPrefix : string -> option string -> string -> string)
    (rc : GetUrl.ResolvedCredentials) (cfg : GetUrl.StorageConfig)
    (req : GetUrl.StorageDownloadDataRequest) : GetUrl.GetObjectInput :=
  {| GetUrl.Bucket := GetUrl.bucket cfg;
     GetUrl.Key :=
       getKeyWithPrefix (accessLevelOf cfg req) (GetUrl.identityId rc)
                        (GetUrl.key req) |}.

(** The existence checks among the calls of a world. *)
Definition existenceChecks (w : GetUrl.World) : list GetUrl.StorageCall :=
  filter (fun c => negb (GetUrl.isPresignCall c)) w.

(** The epoch time at which resolved credentials expire, if they say. *)
Definition credentialExpiry (rc : GetUrl.ResolvedCredentials) : option Z :=
  option_bind (GetUrl.credentials rc) GetUrl.expiration.

(** The calls a passed or skipped existence check leaves in the world. *)
Definition existenceCall (req : GetUrl.StorageDownloadDataRequest)
    : list GetUrl.StorageCall :=
  if GetUrl.wantsExistenceCheck req
  then [GetUrl.GetPropertiesCall (GetUrl.key req)]
  else [].

(** *** The page URL of an OAuth redirect *)

(** [s.substr(1)] *)
Definition substr1 (s : string) : string :=
  match s with
  | EmptyString => EmptyString
  | String _ rest => rest
  end.

(** [_handlingOAuthCodeResponse], on the [search] part of the page URL:
    [url.search.substr(1).startsWith('code')].  (The guard before it,
    [typeof window === undefined], compares a string with undefined and
    never holds.) *)
Definition handlingOAuthCodeResponseOf (search : string) : bool :=
  String.prefix "code" (substr1 search).

End Spec.

(* ===================================================================== *)
(** ** More sample collaborators *)
(* ===================================================================== *)

Module MoreSamples.
Import AuthErrors.




(** A provider whose sign-in attempt is under way: the machine is in
    signingIn and holds the actor, which has not reached
    nextAuthChallenge. *)
Definition startingActor : CognitoProvider.ActorRef :=
  {| CognitoProvider.actorState := "initiating";
     CognitoProvider.actorInbox := [] |}.

Definition startedProvider : CognitoProvider.CognitoProvider :=
  Samples.provider (Samples.poolConfig (Some "client-1")) "signingIn"
                   (Some startingActor).

End MoreSamples.

(* ===================================================================== *)
(** ** Vocabulary for the Predictions registry *)
(* ===================================================================== *)

Module PredictionsSpec.
Import Predictions.

Section Types.

Context {CI CO II IO TI TO : Type}.

(** The names of the pluggables of a list, in order. *)
Definition names (l : list (AbstractPredictionsProvider CI CO II IO TI TO))
    : list string :=
  map getProviderName l.

(** Every pluggable of the registry, as [getAllProviders] lists them. *)
Definition allProviders (this : PredictionsClass CI CO II IO TI TO)
    : list (AbstractPredictionsProvider CI CO II IO TI TO) :=
  getAllProviders CI CO II IO TI TO this.

(** The pluggable implements at least one capability. *)
Definition implementsSome (p : AbstractPredictionsProvider CI CO II IO TI TO)
    : bool :=
  implementsConvertPluggable CI CO II IO TI TO p
  || implementsIdentifyPluggable CI CO II IO TI TO p
  || implementsInterpretPluggable CI CO II IO TI TO p.

(** A registry as addPluggable builds it: each list holds only
    pluggables that implement its capability, and no name twice. *)
Definition wellFormed (this : PredictionsClass CI CO II IO TI TO) : Prop :=
  (Forall (fun p => present (convert_method p) = true) (_convertPluggables this)
   /\ Forall (fun p => present (identify_method p) = true)
             (_identifyPluggables this)
   /\ Forall (fun p => present (interpret_method p) = true)
             (_interpretPluggables this))
  /\ (NoDup (names (_convertPluggables this))
      /\ NoDup (names (_identifyPluggables this))
      /\ NoDup (names (_interpretPluggables this))).

(** The call chooses [p] among [l]: by its name, or, without a name,
    as the only pluggable of the capability. *)
Definition chooses (options : option ProviderOptions)
    (l : list (AbstractPredictionsProvider CI CO II IO TI TO))
    (p : AbstractPredictionsProvider CI CO II IO TI TO) : Prop :=
  (option_bind options providerName = Some (getProviderName p)
   /\ getProviderName p <> "" /\ In p l)
  \/ (truthy_opt (option_bind options providerName) = false /\ l = [p]).

(** The registry of a new Predictions object. *)
Definition emptyRegistry : PredictionsClass CI CO II IO TI TO :=
  {| _convertPluggables := [];
     _identifyPluggables := [];
     _interpretPluggables := [] |}.

End Types.

End PredictionsSpec.

(* ===================================================================== *)
(** ** Vocabulary and samples for the facade's other operations *)
(* ===================================================================== *)

Module FacadeSpec.
Import CognitoProvider.

(** The provider with [commands] appended to its remote commands. *)
Definition withCommands (this : CognitoProvider) (commands : list RemoteCommand)
    : CognitoProvider :=
  {| _authService := _authService this;
     _config := _config this;
     _userStorage := _userStorage this;
     _authFlow := _authFlow this;
     remoteCommands := remoteCommands this ++ commands;
     hubEvents := hubEvents this |}.

(** The key under which the user pool's tokens are presented to the
    identity pool. *)
Definition loginKey (region userPool : string) : string :=
  ("cognito-idp." ++ region ++ ".amazonaws.com/" ++ userPool)%string.

(** The response completeNewPassword sends for a new password. *)
Definition newPasswordResponse (newPassword : string)
    (requiredAttributes : option StringMap) : ActorEvent :=
  respondToAuthChallenge
    {| challengeName := "NEW_PASSWORD_REQUIRED";
       mfaCode := None;
       newPassword := Some newPassword;
       requiredAttributes := requiredAttributes |}.

(** Sample: a provider with an identity pool and cached tokens. *)
Definition pooledConfig : PluginConfig :=
  {| userPoolId := Some "us-east-1_abc";
     region := Some "us-east-1";
     clientId := Some "client-1";
     identityPoolId := Some "us-east-1:pool";
     oauth := None;
     storage := None |}.

Definition cachedSession : SessionData :=
  {| accessToken := "access"; idToken := "id"; refreshToken := "refresh";
     expiration := 1700003600000%Z |}.

Definition signedInProvider : CognitoProvider :=
  {| _authService :=
       {| stateValue := "signedIn"; actorRef := None; contextError := None;
          sentEvents := [] |};
     _config := pooledConfig;
     _userStorage := [("theme", "dark"); (COGNITO_CACHE_KEY, "{tokens}")];
     _authFlow := "USER_PASSWORD_AUTH";
     remoteCommands := [];
     hubEvents := [] |}.

Definition JSON_parse (text : string)
    : Completion ProviderThrown (option SessionData) :=
  if String.eqb text "{tokens}" then Returned (Some cachedSession)
  else Threw (Error "Unexpected token").

Definition identityCredentials : IdentityCredentials :=
  {| AccessKeyId := Some "AKIA"; SecretKey := Some "secret";
     SessionToken := Some "token"; Expiration := Some 1700003600000%Z |}.

End FacadeSpec.

(* ===================================================================== *)
(** * Properties *)
(* ===================================================================== *)

Lemma truthy_true_iff (s : string) : truthy s = true <-> s <> "".
Proof.
  unfold truthy. rewrite negb_true_iff.
  destruct (String.eqb_spec s ""); split; congruence.
Qed.

Lemma truthy_false_iff (s : string) : truthy s = false <-> s = "".
Proof.
  unfold truthy. rewrite negb_false_iff. apply String.eqb_eq.
Qed.

Ltac js_unfold :=
  unfold Js.bind, Js.ret, Js.throw, Js.tryCatch, Js.gets, Js.modify, Js.lift in *.

(* ===================================================================== *)
(** ** signInWithUserPassword *)
(* ===================================================================== *)

Module SignInProps.
Import AuthErrors SignIn.

Section Facts.

Variable md : option StringMap.
Variable initiateAuth :
  string -> option string -> option StringMap ->
  Completion AuthThrown InitiateAuthOutput.
Variable getSignInResult :
  option string -> option StringMap -> Completion AuthThrown AuthSignInResult.
Variable getSignInResultFromError : string -> option AuthSignInResult.

Let run := signInWithUserPassword md initiateAuth getSignInResult
                                  getSignInResultFromError.

(** An empty username is rejected at once: the world is untouched. *)
Lemma signIn_empty_username (req : SignInRequest) (w : World) :
  truthy (username req) = false ->
  run req w = (Threw (ValidationError EmptySignInUsername), w).
Proof.
  intros Hu. unfold run, signInWithUserPassword, assertValidationError.
  js_unfold. rewrite Hu. reflexivity.
Qed.

(** So is an empty or missing password. *)
Lemma signIn_empty_password (req : SignInRequest) (w : World) :
  truthy (username req) = true ->
  truthy_opt (password req) = false ->
  run req w = (Threw (ValidationError EmptySignInPassword), w).
Proof.
  intros Hu Hp. unfold run, signInWithUserPassword, assertValidationError.
  js_unfold. rewrite Hu, Hp. reflexivity.
Qed.

(** No path of the function writes the token cache. *)
Lemma signIn_keeps_tokenCache (req : SignInRequest) (w : World) :
  tokenCache (snd (run req w)) = tokenCache w.
Proof.
  unfold run, signInWithUserPassword, assertValidationError, assertServiceError,
    handleUserPasswordAuthFlow, setActiveSignInState, cleanActiveSignInState.
  js_unfold.
  destruct (truthy (username req)); [| reflexivity].
  destruct (truthy_opt (password req)); [| reflexivity].
  simpl.
  destruct (initiateAuth _ _ _) as [out | e]; simpl.
  - destruct (present (AuthenticationResult out)); simpl; [reflexivity |].
    destruct (getSignInResult _ _) as [r | e]; simpl; [reflexivity |].
    destruct (isServiceError e); simpl; [| reflexivity].
    destruct (getSignInResultFromError _); reflexivity.
  - destruct (isServiceError e); simpl; [| reflexivity].
    destruct (getSignInResultFromError _); reflexivity.
Qed.

(** A validated request reaches the executor exactly once, whatever the
    sign-in store holds. *)
Lemma signIn_calls_executor_once (req : SignInRequest) (w : World) :
  truthy (username req) = true ->
  truthy_opt (password req) = true ->
  executorCalls (snd (run req w)) = executorCalls w ++ [executorCall md req].
Proof.
  intros Hu Hp.
  unfold run, signInWithUserPassword, assertValidationError, assertServiceError,
    handleUserPasswordAuthFlow, setActiveSignInState, cleanActiveSignInState.
  js_unfold. rewrite Hu, Hp. simpl.
  fold (metadataOf md req).
  destruct (initiateAuth _ _ _) as [out | e]; simpl.
  - destruct (present (AuthenticationResult out)); simpl; [reflexivity |].
    destruct (getSignInResult _ _) as [r | e]; simpl; [reflexivity |].
    destruct (isServiceError e); simpl; [| reflexivity].
    destruct (getSignInResultFromError _); reflexivity.
  - destruct (isServiceError e); simpl; [| reflexivity].
    destruct (getSignInResultFromError _); reflexivity.
Qed.

(** When the executor returns final tokens the call reports DONE and
    leaves the sign-in store clean. *)
Lemma signIn_authenticated (req : SignInRequest) (w : World)
    (out : InitiateAuthOutput) :
  truthy (username req) = true ->
  truthy_opt (password req) = true ->
  initiateAuth (username req) (password req) (metadataOf md req) = Returned out ->
  present (AuthenticationResult out) = true ->
  run req w =
    (Returned {| isSignedIn := true;
                 nextStep := {| signInStep := DONE; additionalInfo := None |} |},
     {| signInStore := None;
        tokenCache := tokenCache w;
        executorCalls := executorCalls w ++ [executorCall md req] |}).
Proof.
  intros Hu Hp Hout Hres.
  unfold run, signInWithUserPassword, assertValidationError,
    handleUserPasswordAuthFlow, setActiveSignInState, cleanActiveSignInState.
  js_unfold. rewrite Hu, Hp. simpl.
  fold (metadataOf md req). rewrite Hout. simpl. rewrite Hres. reflexivity.
Qed.

(** When the executor throws, the catch block runs on a cleaned store. *)
Lemma signIn_executor_throws (req : SignInRequest) (w : World) (e : AuthThrown) :
  truthy (username req) = true ->
  truthy_opt (password req) = true ->
  initiateAuth (username req) (password req) (metadataOf md req) = Threw e ->
  run req w =
    (delivered getSignInResultFromError e,
     {| signInStore := None;
        tokenCache := tokenCache w;
        executorCalls := executorCalls w ++ [executorCall md req] |}).
Proof.
  intros Hu Hp Hout.
  unfold run, signInWithUserPassword, assertValidationError, assertServiceError,
    handleUserPasswordAuthFlow, setActiveSignInState, cleanActiveSignInState,
    delivered, executorCall.
  js_unfold. rewrite Hu, Hp. simpl.
  fold (metadataOf md req). rewrite Hout. simpl.
  destruct (isServiceError e); simpl; [| reflexivity].
  destruct (getSignInResultFromError _); reflexivity.
Qed.

End Facts.

(** C1, where the code departs from the claim.  No path of
    signInWithUserPassword writes the session/credential cache: the
    token cache after the call is the one before it.  In particular,
    from a fresh world, the sign-in of a user whose credentials the
    identity provider accepts with final tokens returns isSignedIn =
    true with step DONE while the cache is still empty, so a caller that
    reads the cache after receiving the result observes a miss. *)
Theorem signIn_done_leaves_token_cache_empty :
  (forall md initiateAuth getSignInResult getSignInResultFromError req w,
     tokenCache
       (snd (signInWithUserPassword md initiateAuth getSignInResult
               getSignInResultFromError req w))
     = tokenCache w)
  /\ Samples.identityProvider "alice" (Some "correct") None
     = Returned Samples.authenticated
  /\ Samples.signIn (Samples.signInRequest "alice" (Some "correct"))
                    Samples.freshWorld
     = (Returned {| isSignedIn := true;
                    nextStep := {| signInStep := DONE; additionalInfo := None |} |},
        {| signInStore := None;
           tokenCache := None;
           executorCalls :=
             [{| callUsername := "alice";
                 callPassword := Some "correct";
                 callMetadata := None |}] |}).
Proof.
  split; [| split].
  - intros. apply signIn_keeps_tokenCache.
  - reflexivity.
  - reflexivity.
Qed.

(** C4.  When the executor call of a validated sign-in throws, the
    catch block first cleans the active sign-in state and only then
    delivers the mapped result or the error: in the world the caller
    sees, the sign-in store is back in its initial state.  A following
    sign-in whose credentials the identity provider accepts with final
    tokens then returns isSignedIn = true with step DONE. *)
Theorem signIn_error_clears_active_state
    (md : option StringMap)
    (initiateAuth : string -> option string -> option StringMap ->
                    Completion AuthThrown InitiateAuthOutput)
    (getSignInResult : option string -> option StringMap ->
                       Completion AuthThrown AuthSignInResult)
    (getSignInResultFromError : string -> option AuthSignInResult)
    (req : SignInRequest) (w : World) (e : AuthThrown) :
  truthy (username req) = true ->
  truthy_opt (password req) = true ->
  initiateAuth (username req) (password req) (metadataOf md req) = Threw e ->
  fst (signInWithUserPassword md initiateAuth getSignInResult
         getSignInResultFromError req w)
  = delivered getSignInResultFromError e
  /\ signInStore
       (snd (signInWithUserPassword md initiateAuth getSignInResult
               getSignInResultFromError req w))
     = None
  /\ forall (req' : SignInRequest) (out : InitiateAuthOutput),
       truthy (username req') = true ->
       truthy_opt (password req') = true ->
       initiateAuth (username req') (password req') (metadataOf md req')
       = Returned out ->
       present (AuthenticationResult out) = true ->
       fst (signInWithUserPassword md initiateAuth getSignInResult
              getSignInResultFromError req'
              (snd (signInWithUserPassword md initiateAuth getSignInResult
                      getSignInResultFromError req w)))
       = Returned {| isSignedIn := true;
                     nextStep := {| signInStep := DONE;
                                    additionalInfo := None |} |}.
Proof.
  intros Hu Hp Hthrow.
  rewrite (signIn_executor_throws md initiateAuth getSignInResult
             getSignInResultFromError req w e Hu Hp Hthrow).
  simpl. repeat split.
  intros req' out Hu' Hp' Hout Hres.
  rewrite (signIn_authenticated md initiateAuth getSignInResult
             getSignInResultFromError req' _ out Hu' Hp' Hout Hres).
  reflexivity.
Qed.

(** The sample identity provider rejects a wrong password of "alice"
    while an earlier attempt waits for its code; the store is cleaned,
    the NotAuthorizedException is delivered, and the sign-in with the
    right password then succeeds. *)
Lemma signIn_error_clears_active_state_witness :
  fst (Samples.signIn (Samples.signInRequest "alice" (Some "wrong"))
                      Samples.awaitingWorld)
  = Threw (ServiceError "NotAuthorizedException")
  /\ signInStore
       (snd (Samples.signIn (Samples.signInRequest "alice" (Some "wrong"))
                            Samples.awaitingWorld))
     = None
  /\ fst (Samples.signIn (Samples.signInRequest "alice" (Some "correct"))
            (snd (Samples.signIn (Samples.signInRequest "alice" (Some "wrong"))
                                 Samples.awaitingWorld)))
     = Returned {| isSignedIn := true;
                   nextStep := {| signInStep := DONE; additionalInfo := None |} |}.
Proof.
  destruct (signIn_error_clears_active_state
              None Samples.identityProvider Samples.getSignInResult
              Samples.getSignInResultFromError
              (Samples.signInRequest "alice" (Some "wrong"))
              Samples.awaitingWorld
              (ServiceError "NotAuthorizedException")
              eq_refl eq_refl eq_refl) as (Hdelivered & Hstore & Hnext).
  split; [exact Hdelivered |].
  split; [exact Hstore |].
  exact (Hnext (Samples.signInRequest "alice" (Some "correct"))
               Samples.authenticated eq_refl eq_refl eq_refl eq_refl).
Defined.

End SignInProps.

(* ===================================================================== *)
(** ** signUp *)
(* ===================================================================== *)

Module SignUpProps.
Import AuthErrors SignUp.

Section Facts.

Variable getRegion : option string -> Completion AuthThrown string.
Variable remoteSignUp :
  string -> SignUpCommandInput -> Completion AuthThrown SignUpCommandOutput.

Let run := signUp getRegion remoteSignUp.

(** The configuration is checked first: without a valid one the call
    throws the configuration error and the world is untouched. *)
Lemma signUp_invalid_config (req : SignUpRequest) (w : World) :
  validTokenProviderConfig (authConfig w) = false ->
  run req w = (Threw (ConfigurationError "AuthTokenConfigException"), w).
Proof.
  intros Hc. unfold run, signUp, assertTokenProviderConfig.
  js_unfold. rewrite Hc. reflexivity.
Qed.

Lemma signUp_empty_username (req : SignUpRequest) (w : World) :
  validTokenProviderConfig (authConfig w) = true ->
  truthy (username req) = false ->
  run req w = (Threw (ValidationError EmptySignUpUsername), w).
Proof.
  intros Hc Hu.
  unfold run, signUp, assertTokenProviderConfig, assertValidationError.
  js_unfold. rewrite Hc, Hu. reflexivity.
Qed.

Lemma signUp_empty_password (req : SignUpRequest) (w : World) :
  validTokenProviderConfig (authConfig w) = true ->
  truthy (username req) = true ->
  truthy (password req) = false ->
  run req w = (Threw (ValidationError EmptySignUpPassword), w).
Proof.
  intros Hc Hu Hp.
  unfold run, signUp, assertTokenProviderConfig, assertValidationError.
  js_unfold. rewrite Hc, Hu, Hp. reflexivity.
Qed.

(** A validated request whose region resolves is sent once, and the
    response alone decides the result. *)
Lemma signUp_sends (req : SignUpRequest) (w : World) (region : string) :
  validTokenProviderConfig (authConfig w) = true ->
  truthy (username req) = true ->
  truthy (password req) = true ->
  getRegion (option_bind (authConfig w) userPoolId) = Returned region ->
  run req w =
    (match remoteSignUp region (signUpInput (authConfig w) req) with
     | Returned res =>
         if truthy_flag (UserConfirmed res) then
           Returned {| isSignUpComplete := true;
                       nextStep := {| signUpStep := "DONE";
                                      codeDeliveryDetails := None |};
                       userId := None |}
         else
           Returned
             {| isSignUpComplete := false;
                nextStep :=
                  {| signUpStep := "CONFIRM_SIGN_UP";
                     codeDeliveryDetails :=
                       Some {| deliveryMedium :=
                                 option_bind (CodeDeliveryDetails res) DeliveryMedium;
                               destination :=
                                 option_bind (CodeDeliveryDetails res) Destination;
                               attributeName :=
                                 option_bind (CodeDeliveryDetails res) AttributeName |} |};
                userId := UserSub res |}
     | Threw e => Threw e
     end,
     {| authConfig := authConfig w;
        signUpCalls := signUpCalls w ++ [(region, signUpInput (authConfig w) req)] |}).
Proof.
  intros Hc Hu Hp Hr.
  unfold run, signUp, assertTokenProviderConfig, assertValidationError,
    signUpClient, signUpInput.
  js_unfold. rewrite Hc, Hu, Hp, Hr. simpl.
  destruct (remoteSignUp _ _) as [res | e]; simpl; [| reflexivity].
  destruct (truthy_flag (UserConfirmed res)); reflexivity.
Qed.

End Facts.

(** C7.  A validated sign-up whose remote response has UserConfirmed =
    true is complete: isSignUpComplete = true, step DONE.  With any
    other response it awaits the confirmation code: isSignUpComplete =
    false, step CONFIRM_SIGN_UP, and the delivery medium, destination
    and attribute name are those of the response's CodeDeliveryDetails,
    unchanged. *)
Theorem signUp_result_follows_response
    (getRegion : option string -> Completion AuthThrown string)
    (remoteSignUp : string -> SignUpCommandInput ->
                    Completion AuthThrown SignUpCommandOutput)
    (req : SignUpRequest) (w : World) (region : string)
    (res : SignUpCommandOutput) :
  validTokenProviderConfig (authConfig w) = true ->
  truthy (username req) = true ->
  truthy (password req) = true ->
  getRegion (option_bind (authConfig w) userPoolId) = Returned region ->
  remoteSignUp region (signUpInput (authConfig w) req) = Returned res ->
  (UserConfirmed res = Some true ->
   fst (signUp getRegion remoteSignUp req w)
   = Returned {| isSignUpComplete := true;
                 nextStep := {| signUpStep := "DONE";
                                codeDeliveryDetails := None |};
                 userId := None |})
  /\ (UserConfirmed res <> Some true ->
      fst (signUp getRegion remoteSignUp req w)
      = Returned
          {| isSignUpComplete := false;
             nextStep :=
               {| signUpStep := "CONFIRM_SIGN_UP";
                  codeDeliveryDetails :=
                    Some {| deliveryMedium :=
                              option_bind (CodeDeliveryDetails res) DeliveryMedium;
                            destination :=
                              option_bind (CodeDeliveryDetails res) Destination;
                            attributeName :=
                              option_bind (CodeDeliveryDetails res) AttributeName |} |};
             userId := UserSub res |}).
Proof.
  intros Hc Hu Hp Hr Hres.
  rewrite (signUp_sends getRegion remoteSignUp req w region Hc Hu Hp Hr).
  rewrite Hres. simpl. split.
  - intros Hconf. rewrite Hconf. reflexivity.
  - intros Hconf. destruct (UserConfirmed res) as [[|]|]; simpl;
      [congruence | reflexivity | reflexivity].
Qed.

(** The sample service confirms "root" at once and mails a code to
    "ann": her result carries EMAIL and the masked address as sent. *)
Lemma signUp_result_follows_response_witness :
  fst (Samples.signUp (Samples.signUpRequest "root" "pw") Samples.configuredWorld)
  = Returned {| isSignUpComplete := true;
                nextStep := {| signUpStep := "DONE";
                               codeDeliveryDetails := None |};
                userId := None |}
  /\ fst (Samples.signUp (Samples.signUpRequest "ann" "pw") Samples.configuredWorld)
     = Returned
         {| isSignUpComplete := false;
            nextStep :=
              {| signUpStep := "CONFIRM_SIGN_UP";
                 codeDeliveryDetails :=
                   Some {| deliveryMedium := Some "EMAIL";
                           destination := Some "a***@example.com";
                           attributeName := Some "email" |} |};
            userId := Some "sub-1" |}.
Proof.
  split.
  - exact (proj1 (signUp_result_follows_response
                    Samples.getRegion Samples.remoteSignUp
                    (Samples.signUpRequest "root" "pw") Samples.configuredWorld
                    "us-east-1" Samples.confirmed
                    eq_refl eq_refl eq_refl eq_refl eq_refl)
                 eq_refl).
  - refine (proj2 (signUp_result_follows_response
                     Samples.getRegion Samples.remoteSignUp
                     (Samples.signUpRequest "ann" "pw") Samples.configuredWorld
                     "us-east-1" Samples.unconfirmed
                     eq_refl eq_refl eq_refl eq_refl eq_refl)
                  _).
    discriminate.
Defined.

End SignUpProps.

(* ===================================================================== *)
(** ** Validation before any remote call *)
(* ===================================================================== *)

Module ValidationProps.
Import AuthErrors.

(** C5, as the code has it.  A sign-in request whose username or
    password is empty fails with a validation error and leaves the world
    as it was: no remote call is recorded and nothing is tried again.
    A sign-up request whose username or password is empty does the same
    when the token-provider configuration is valid; that configuration
    is checked first, so without a valid one the sign-up fails with the
    configuration error instead, the world again untouched. *)
Theorem empty_credentials_fail_before_any_remote_call
    (md : option StringMap)
    (initiateAuth : string -> option string -> option StringMap ->
                    Completion AuthThrown SignIn.InitiateAuthOutput)
    (getSignInResult : option string -> option StringMap ->
                       Completion AuthThrown SignIn.AuthSignInResult)
    (getSignInResultFromError : string -> option SignIn.AuthSignInResult)
    (getRegion : option string -> Completion AuthThrown string)
    (remoteSignUp : string -> SignUp.SignUpCommandInput ->
                    Completion AuthThrown SignUp.SignUpCommandOutput)
    (signInRequest : SignIn.SignInRequest) (signInWorld : SignIn.World)
    (signUpRequest : SignUp.SignUpRequest) (signUpWorld : SignUp.World) :
  (truthy (SignIn.username signInRequest) = false
   \/ truthy_opt (SignIn.password signInRequest) = false) ->
  (truthy (SignUp.username signUpRequest) = false
   \/ truthy (SignUp.password signUpRequest) = false) ->
  (exists code,
     SignIn.signInWithUserPassword md initiateAuth getSignInResult
       getSignInResultFromError signInRequest signInWorld
     = (Threw (ValidationError code), signInWorld))
  /\ (SignUp.validTokenProviderConfig (SignUp.authConfig signUpWorld) = true ->
      exists code,
        SignUp.signUp getRegion remoteSignUp signUpRequest signUpWorld
        = (Threw (ValidationError code), signUpWorld))
  /\ (SignUp.validTokenProviderConfig (SignUp.authConfig signUpWorld) = false ->
      SignUp.signUp getRegion remoteSignUp signUpRequest signUpWorld
      = (Threw (ConfigurationError "AuthTokenConfigException"), signUpWorld)).
Proof.
  intros Hin Hup. split; [| split].
  - destruct (truthy (SignIn.username signInRequest)) eqn:Hu.
    + destruct Hin as [Hin | Hin]; [discriminate |].
      exists EmptySignInPassword.
      now apply SignInProps.signIn_empty_password.
    + exists EmptySignInUsername.
      now apply SignInProps.signIn_empty_username.
  - intros Hc. destruct (truthy (SignUp.username signUpRequest)) eqn:Hu.
    + destruct Hup as [Hup | Hup]; [discriminate |].
      exists EmptySignUpPassword.
      now apply SignUpProps.signUp_empty_password.
    + exists EmptySignUpUsername.
      now apply SignUpProps.signUp_empty_username.
  - intros Hc. now apply SignUpProps.signUp_invalid_config.
Qed.

(** With the sample collaborators: a sign-in without a password and a
    sign-up without a username in a configured world both stop at the
    validation error. *)
Lemma empty_credentials_fail_before_any_remote_call_witness :
  (exists code,
     Samples.signIn (Samples.signInRequest "alice" None) Samples.awaitingWorld
     = (Threw (ValidationError code), Samples.awaitingWorld))
  /\ (exists code,
        Samples.signUp (Samples.signUpRequest "" "pw") Samples.configuredWorld
        = (Threw (ValidationError code), Samples.configuredWorld)).
Proof.
  destruct (empty_credentials_fail_before_any_remote_call
              None Samples.identityProvider Samples.getSignInResult
              Samples.getSignInResultFromError
              Samples.getRegion Samples.remoteSignUp
              (Samples.signInRequest "alice" None) Samples.awaitingWorld
              (Samples.signUpRequest "" "pw") Samples.configuredWorld
              (or_intror eq_refl) (or_introl eq_refl))
    as (Hin & Hup & _).
  split; [exact Hin | exact (Hup eq_refl)].
Defined.

(** C5 as stated fails for sign-up: with no configuration at all, a
    sign-up with an empty username throws the configuration error, not
    a validation error. *)
Lemma signUp_empty_username_without_config :
  SignUp.username (Samples.signUpRequest "" "pw") = ""
  /\ Samples.signUp (Samples.signUpRequest "" "pw") Samples.unconfiguredWorld
     = (Threw (ConfigurationError "AuthTokenConfigException"),
        Samples.unconfiguredWorld)
  /\ (forall code,
        fst (Samples.signUp (Samples.signUpRequest "" "pw")
                            Samples.unconfiguredWorld)
        <> Threw (ValidationError code)).
Proof.
  split; [reflexivity |]. split; [reflexivity |].
  intros code. simpl. discriminate.
Qed.

End ValidationProps.

(* ===================================================================== *)
(** ** getUrl *)
(* ===================================================================== *)

Module GetUrlProps.
Import GetUrl.
Local Open Scope Z_scope.

Lemma presignCalls_app (w w' : World) :
  presignCalls (w ++ w') = presignCalls w ++ presignCalls w'.
Proof. unfold presignCalls. apply filter_app. Qed.

Section Facts.

Variable resolveCredentials : Completion StorageThrown ResolvedCredentials.
Variable resolveStorageConfig : Completion StorageThrown StorageConfig.
Variable getKeyWithPrefix : string -> option string -> string -> string.
Variable headObject : string -> Completion StorageThrown unit.
Variable presigner :
  PresignOptions -> GetObjectInput -> Completion StorageThrown string.
Variable Date_now : Z.

Let run := getUrl resolveCredentials resolveStorageConfig getKeyWithPrefix
                  headObject presigner Date_now.

(** A request that does not ask for more than the limit never gets as
    far as the presigner: the call throws, and no presign call is added
    to the world. *)
Lemma getUrl_within_limit_throws (req : StorageDownloadDataRequest) (w : World) :
  requestedExpiration req <= MAX_URL_EXPIRATION ->
  (exists e, fst (run req w) = Threw e)
  /\ presignCalls (snd (run req w)) = presignCalls w.
Proof.
  intros Hle.
  assert (Hcheck : (MAX_URL_EXPIRATION <? requestedExpiration req) = false)
    by (apply Z.ltb_ge; exact Hle).
  unfold run, getUrl, assertValidationError, getProperties.
  unfold requestedExpiration in Hcheck.
  js_unfold.
  destruct resolveCredentials as [rc | e]; [| split; [eexists |]; reflexivity].
  destruct resolveStorageConfig as [cfg | e]; [| split; [eexists |]; reflexivity].
  destruct (truthy (key req)); [| split; [eexists |]; reflexivity].
  destruct (truthy_flag (option_bind (options req) validateObjectExistence)).
  - destruct (headObject (key req)) as [[] | e]; simpl.
    + rewrite Hcheck. simpl. split; [eexists; reflexivity |].
      rewrite presignCalls_app. simpl. apply app_nil_r.
    + split; [eexists; reflexivity |].
      rewrite presignCalls_app. simpl. apply app_nil_r.
  - simpl. rewrite Hcheck. split; [eexists |]; reflexivity.
Qed.


(** Only a request that asks for more than the limit returns. *)
Lemma getUrl_returns_above_limit (req : StorageDownloadDataRequest) (w : World)
    (r : S3GetUrlResult) :
  fst (run req w) = Returned r ->
  MAX_URL_EXPIRATION < requestedExpiration req.
Proof.
  intros Hret.
  destruct (Z.lt_ge_cases MAX_URL_EXPIRATION (requestedExpiration req))
    as [Hlt | Hge]; [exact Hlt |].
  destruct (getUrl_within_limit_throws req w Hge) as ((e & He) & _).
  rewrite He in Hret. discriminate.
Qed.

(** The expiry a successful call reports: the clock reading plus the
    smaller of the requested expiration and the epoch time at which the
    credentials expire. *)
Lemma getUrl_expiresAt (req : StorageDownloadDataRequest) (w : World)
    (r : S3GetUrlResult) :
  fst (run req w) = Returned r ->
  exists rc c credTime,
    resolveCredentials = Returned rc
    /\ credentials rc = Some c
    /\ expiration c = Some credTime
    /\ expiresAt r = Date_now + Z.min (requestedExpiration req) credTime.
Proof.
  unfold run, getUrl, assertValidationError, getProperties,
    getPresignedGetObjectUrl, requestedExpiration.
  js_unfold.
  destruct resolveCredentials as [rc | e]; [| discriminate].
  destruct resolveStorageConfig as [cfg | e]; [| discriminate].
  destruct (truthy (key req)); [| discriminate].
  set (exp := nullish (option_bind (options req) optExpiration)
                      DEFAULT_PRESIGN_EXPIRATION).
  assert (Hmin : forall t, (if exp <? t then exp else t) = Z.min exp t).
  { intros t. destruct (Z.ltb_spec exp t); lia. }
  destruct (truthy_flag (option_bind (options req) validateObjectExistence)).
  - destruct (headObject (key req)) as [[] | e]; simpl; [| discriminate].
    destruct (MAX_URL_EXPIRATION <? exp); [| discriminate].
    destruct (credentials rc) as [c |] eqn:Hc; simpl; [| discriminate].
    destruct (expiration c) as [t |] eqn:Ht; simpl; [| discriminate].
    destruct (presigner _ _) as [u | e]; simpl; [| discriminate].
    intros Hr. injection Hr as <-. simpl.
    exists rc, c, t. rewrite Hmin. auto.
  - simpl.
    destruct (MAX_URL_EXPIRATION <? exp); [| discriminate].
    destruct (credentials rc) as [c |] eqn:Hc; simpl; [| discriminate].
    destruct (expiration c) as [t |] eqn:Ht; simpl; [| discriminate].
    destruct (presigner _ _) as [u | e]; simpl; [| discriminate].
    intros Hr. injection Hr as <-. simpl.
    exists rc, c, t. rewrite Hmin. auto.
Qed.

(** With a positive clock and credentials that expire within seven
    days of it, every successful call reports an expiry later than the
    expiration of the credentials. *)
Lemma getUrl_expiresAt_beyond_credentials (req : StorageDownloadDataRequest)
    (w : World) (r : S3GetUrlResult) :
  fst (run req w) = Returned r ->
  0 < Date_now ->
  exists rc c credTime,
    resolveCredentials = Returned rc
    /\ credentials rc = Some c
    /\ expiration c = Some credTime
    /\ (credTime <= Date_now + MAX_URL_EXPIRATION -> credTime < expiresAt r).
Proof.
  intros Hret Hnow.
  pose proof (getUrl_returns_above_limit req w r Hret) as Habove.
  destruct (getUrl_expiresAt req w r Hret) as (rc & c & t & Hrc & Hc & Ht & Hexp).
  exists rc, c, t. repeat split; try assumption.
  intros Hsoon. rewrite Hexp. lia.
Qed.

End Facts.

(** C3, where the code departs from the claim.  The value the call
    compares with the credentials' epoch time is the requested
    expiration itself, a duration, and the smaller of the two is then
    added to the clock reading.  With a positive clock and credentials
    that expire within seven days of it, every successful call
    therefore reports an expiry later than the credentials' expiration.
    The sample call shows it: the credentials expire at 1700003600000,
    one hour after the clock reading, 604800001 is requested, and the
    reported expiry is 1700604800001. *)
Theorem getUrl_expiry_exceeds_credential_expiry :
  (forall resolveCredentials resolveStorageConfig getKeyWithPrefix headObject
          presigner Date_now req w r,
     fst (getUrl resolveCredentials resolveStorageConfig getKeyWithPrefix
                 headObject presigner Date_now req w) = Returned r ->
     0 < Date_now ->
     exists rc c credTime,
       resolveCredentials = Returned rc
       /\ credentials rc = Some c
       /\ expiration c = Some credTime
       /\ expiresAt r = Date_now + Z.min (requestedExpiration req) credTime
       /\ (credTime <= Date_now + MAX_URL_EXPIRATION -> credTime < expiresAt r))
  /\ fst (Samples.getUrl (Samples.urlRequest "photo.jpg" (Some 604800001)) [])
     = Returned {| url := "https://bucket.s3.amazonaws.com/public/photo.jpg";
                   expiresAt := 1700604800001 |}
  /\ expiration Samples.sessionCredentials = Some 1700003600000
  /\ 1700003600000 < 1700604800001.
Proof.
  split; [| split; [| split]].
  - intros rcs rsc gk ho ps now req w r Hret Hnow.
    destruct (getUrl_expiresAt rcs rsc gk ho ps now req w r Hret)
      as (rc & c & t & Hrc & Hc & Ht & Hexp).
    destruct (getUrl_expiresAt_beyond_credentials rcs rsc gk ho ps now req w r
                Hret Hnow) as (rc' & c' & t' & Hrc' & Hc' & Ht' & Hlate).
    assert (rc' = rc) by congruence. subst rc'.
    assert (c' = c) by congruence. subst c'.
    assert (t' = t) by congruence. subst t'.
    exists rc, c, t. auto.
  - reflexivity.
  - reflexivity.
  - reflexivity.
Qed.




End GetUrlProps.

(* ===================================================================== *)
(** ** Predictions dispatch *)
(* ===================================================================== *)

Module PredictionsProps.
Import Predictions.

Section Facts.

Context {CI CO II IO TI TO : Type}.

(** Looking a name up among pluggables that do not have it finds
    nothing. *)
Lemma find_unregistered (name : string)
    (pluggables : list (AbstractPredictionsProvider CI CO II IO TI TO)) :
  unregistered name pluggables ->
  find (fun pluggable => String.eqb (getProviderName pluggable) name) pluggables
  = None.
Proof.
  unfold unregistered.
  induction pluggables as [| p rest IH]; intros Hnone; simpl.
  - reflexivity.
  - destruct (String.eqb_spec (getProviderName p) name) as [Heq | Hne].
    + exfalso. apply (Hnone p); [left; reflexivity | exact Heq].
    + apply IH. intros q Hq. apply Hnone. right. exact Hq.
Qed.

(** A named call whose name is not registered returns undefined. *)
Lemma named_miss (name : string)
    (pluggables : list (AbstractPredictionsProvider CI CO II IO TI TO))
    (options : option ProviderOptions) :
  option_bind options providerName = Some name ->
  name <> "" ->
  unregistered name pluggables ->
  getPluggableToExecute pluggables options = Returned None.
Proof.
  intros Hname Hne Hnone. unfold getPluggableToExecute.
  rewrite Hname. simpl.
  rewrite (proj2 (truthy_true_iff name) Hne).
  now rewrite find_unregistered.
Qed.

(** The function throws exactly when no name is supplied and the list
    does not hold exactly one pluggable. *)
Lemma throws_iff
    (pluggables : list (AbstractPredictionsProvider CI CO II IO TI TO))
    (options : option ProviderOptions) (e : PredictionsThrown) :
  getPluggableToExecute pluggables options = Threw e
  <-> truthy_opt (option_bind options providerName) = false
      /\ length pluggables <> 1
      /\ e = Error NO_SINGLE_PROVIDER.
Proof.
  unfold getPluggableToExecute.
  destruct (truthy_opt (option_bind options providerName)).
  - split; [discriminate | intros (H & _); discriminate].
  - destruct (Nat.eqb_spec (length pluggables) 1) as [Hone | Hnot].
    + split; [discriminate | intros (_ & H & _); contradiction].
    + split.
      * intros H. injection H as <-. auto.
      * intros (_ & _ & ->). reflexivity.
Qed.

End Facts.

(** C10, as the code has it.  When a dispatch is given a provider name
    that is not empty and that no pluggable of the capability has,
    getPluggableToExecute returns undefined instead of throwing, and
    convert, identify and interpret go on to read their method from
    undefined: a TypeError, the Predictions object unchanged.
    getPluggableToExecute throws 'More than one or no providers are
    configured ...' exactly when the provider name is absent or the
    empty string and the capability's list does not hold exactly one
    pluggable. *)
Theorem named_miss_returns_undefined
    (CI CO II IO TI TO : Type)
    (this : PredictionsClass CI CO II IO TI TO)
    (name : string) (options : option ProviderOptions) :
  option_bind options providerName = Some name ->
  name <> "" ->
  (forall pluggables : list (AbstractPredictionsProvider CI CO II IO TI TO),
     unregistered name pluggables ->
     getPluggableToExecute pluggables options = Returned None)
  /\ (forall input,
        unregistered name (_convertPluggables this) ->
        convert input options this = (Threw (readOfUndefined "convert"), this))
  /\ (forall input,
        unregistered name (_identifyPluggables this) ->
        identify input options this = (Threw (readOfUndefined "identify"), this))
  /\ (forall input,
        unregistered name (_interpretPluggables this) ->
        interpret input options this = (Threw (readOfUndefined "interpret"), this))
  /\ (forall (pluggables : list (AbstractPredictionsProvider CI CO II IO TI TO))
             (anyOptions : option ProviderOptions) (e : PredictionsThrown),
        getPluggableToExecute pluggables anyOptions = Threw e
        <-> truthy_opt (option_bind anyOptions providerName) = false
            /\ length pluggables <> 1
            /\ e = Error NO_SINGLE_PROVIDER).
Proof.
  intros Hname Hne.
  split; [| split; [| split; [| split]]].
  - intros pluggables Hnone. now apply (named_miss name).
  - intros input Hnone. unfold convert. js_unfold.
    now rewrite (named_miss name _ options Hname Hne Hnone).
  - intros input Hnone. unfold identify. js_unfold.
    now rewrite (named_miss name _ options Hname Hne Hnone).
  - intros input Hnone. unfold interpret. js_unfold.
    now rewrite (named_miss name _ options Hname Hne Hnone).
  - intros pluggables anyOptions e. apply throws_iff.
Qed.

(** The sample provider implements convert and interpret.  A call that
    names "Other" finds nothing and ends in the TypeError; a call
    without a name finds the only converter. *)
Lemma named_miss_returns_undefined_witness :
  getPluggableToExecute (_convertPluggables Samples.predictions)
                        (Samples.named "Other")
  = Returned None
  /\ convert "hello" (Samples.named "Other") Samples.predictions
     = (Threw (readOfUndefined "convert"), Samples.predictions)
  /\ convert "hello" None Samples.predictions
     = (Returned "translated hello", Samples.predictions).
Proof.
  destruct (named_miss_returns_undefined
              string string string string string string
              Samples.predictions "Other" (Samples.named "Other")
              eq_refl ltac:(discriminate))
    as (Hfind & Hconvert & _).
  assert (Hnone : unregistered "Other" (_convertPluggables Samples.predictions)).
  { intros p [<- | []]. discriminate. }
  split; [exact (Hfind _ Hnone) |].
  split; [exact (Hconvert "hello" Hnone) |].
  reflexivity.
Defined.

(** C10 as stated fails for the empty name: with providerName set to
    the empty string, which no pluggable has, the call is treated as if
    no name were given.  On a capability without pluggables it throws
    the configuration error, and on a capability with one pluggable it
    runs that pluggable. *)
Lemma empty_provider_name_counts_as_none :
  option_bind (Samples.named "") providerName = Some ""
  /\ unregistered "" (_convertPluggables Samples.emptyPredictions)
  /\ unregistered "" (_convertPluggables Samples.predictions)
  /\ getPluggableToExecute (_convertPluggables Samples.emptyPredictions)
                           (Samples.named "")
     = Threw (Error NO_SINGLE_PROVIDER)
  /\ convert "hello" (Samples.named "") Samples.emptyPredictions
     = (Threw (Error NO_SINGLE_PROVIDER), Samples.emptyPredictions)
  /\ getPluggableToExecute (_convertPluggables Samples.predictions)
                           (Samples.named "")
     = Returned (Some Samples.awsProvider)
  /\ convert "hello" (Samples.named "") Samples.predictions
     = (Returned "translated hello", Samples.predictions).
Proof.
  split; [reflexivity |].
  split; [intros p [] |].
  split; [intros p [<- | []]; discriminate |].
  repeat split.
Qed.

End PredictionsProps.

(* ===================================================================== *)
(** ** The CognitoProvider facade *)
(* ===================================================================== *)

Module CognitoProviderProps.
Import CognitoProvider.

Lemma matches_exclusive (svc : AuthService) (a b : string) :
  matches svc a = true -> a <> b -> matches svc b = false.
Proof.
  unfold matches. intros Ha Hne.
  apply String.eqb_eq in Ha. apply String.eqb_neq. congruence.
Qed.

(** A suspended attempt is not an authenticated user. *)
Lemma awaiting_not_authenticated (this : CognitoProvider) :
  awaitingChallengeResponse this -> isAuthenticated this = false.
Proof.
  intros (Hstate & _). unfold isAuthenticated.
  apply (matches_exclusive _ "signingIn"); [exact Hstate | discriminate].
Qed.

Section Facts.

Variable xstate : XState.

(** Without a user pool id or a region, signIn stops at once. *)
Lemma signIn_not_configured (params : SignInParams) (this : CognitoProvider) :
  isConfigured this = false ->
  signIn xstate params this
  = (Threw (Error "Plugin not configured"), this).
Proof.
  intros Hc. unfold signIn. js_unfold. rewrite Hc. reflexivity.
Qed.

Lemma signUp_not_configured (params : SignUpParams) (this : CognitoProvider) :
  isConfigured this = false ->
  signUp xstate params this
  = (Threw (Error "Plugin not configured"), this).
Proof.
  intros Hc. unfold signUp. js_unfold. rewrite Hc. reflexivity.
Qed.

(** The only state signIn refuses is signedIn. *)
Lemma signIn_already_authenticated (params : SignInParams) (this : CognitoProvider) :
  isConfigured this = true ->
  supportedSignInType params = true ->
  isAuthenticated this = true ->
  signIn xstate params this
  = (Threw (Error ("User is already authenticated, " ++
                   "please sign out the current user before signing in.")),
     this).
Proof.
  intros Hc Ht Ha. unfold signIn. js_unfold. rewrite Hc. simpl.
  unfold supportedSignInType in Ht. apply negb_true_iff in Ht.
  rewrite Ht, Ha. reflexivity.
Qed.

(** In every other state the request goes to the machine. *)
Lemma signIn_dispatches (params : SignInParams) (this : CognitoProvider) :
  isConfigured this = true ->
  supportedSignInType params = true ->
  isAuthenticated this = false ->
  signIn xstate params this
  = waitForSignInComplete xstate (afterSend (signInRequestedFor this params) this).
Proof.
  intros Hc Ht Ha. unfold signIn. js_unfold. rewrite Hc. simpl.
  unfold supportedSignInType in Ht. apply negb_true_iff in Ht.
  rewrite Ht, Ha. reflexivity.
Qed.

(** confirmSignIn, when no attempt was initiated. *)
Lemma confirmSignIn_not_initiated (params : ConfirmSignInParams)
    (this : CognitoProvider) :
  signInInitiated this = false ->
  confirmSignIn xstate params this
  = (Threw (Error "Not implemented"), this)
  \/ confirmSignIn xstate params this
     = (Threw (Error SIGN_IN_NOT_INITIATED), this).
Proof.
  intros Hinit. unfold confirmSignIn. js_unfold.
  destruct (negb (String.eqb (challengeName params) "SMS_MFA")
            && negb (String.eqb (challengeName params) "SOFTWARE_TOKEN_MFA")
            && negb (String.eqb (challengeName params) "NEW_PASSWORD_REQUIRED")).
  - left. reflexivity.
  - right. unfold signInInitiated in Hinit.
    rewrite <- negb_andb, Hinit. reflexivity.
Qed.

(** Once an attempt is initiated, the response to a challenge that
    confirmSignIn can answer is sent to the actor, in whatever state the
    actor is. *)
Lemma confirmSignIn_initiated_sends (params : ConfirmSignInParams)
    (this : CognitoProvider) :
  supportedChallenge params = true ->
  signInInitiated this = true ->
  confirmSignIn xstate params this
  = waitForSignInComplete xstate
      (afterActorSend (respondToAuthChallenge params) this).
Proof.
  intros Hs Hinit. unfold confirmSignIn. js_unfold.
  unfold supportedChallenge in Hs.
  rewrite <- !negb_orb, Hs. simpl.
  unfold signInInitiated in Hinit.
  rewrite <- negb_andb, Hinit. simpl.
  unfold afterActorSend, actor_send.
  apply andb_true_iff in Hinit. destruct Hinit as (Hactor & _).
  destruct (actorRef (_authService this)); [reflexivity | discriminate].
Qed.

End Facts.

(** C2, as the code has it.  For a configured provider and a sign-in
    type it serves, signIn fails fast with a usage error, the provider
    untouched, when the machine is in signedIn.  While an earlier
    attempt is suspended awaiting its challenge response it does not:
    it sends one more signInRequested event to the authentication
    machine and waits for the outcome. *)
Theorem signIn_refuses_only_signed_in
    (xstate : XState)
    (params : SignInParams) (this : CognitoProvider) :
  isConfigured this = true ->
  supportedSignInType params = true ->
  (isAuthenticated this = true ->
   exists message,
     signIn xstate params this = (Threw (Error message), this))
  /\ (awaitingChallengeResponse this ->
      signIn xstate params this
      = waitForSignInComplete xstate (afterSend (signInRequestedFor this params) this)
      /\ sentEvents (_authService (afterSend (signInRequestedFor this params) this))
         = sentEvents (_authService this) ++ [signInRequestedFor this params]).
Proof.
  intros Hc Ht. split.
  - intros Ha. eexists.
    apply (signIn_already_authenticated xstate params this Hc Ht Ha).
  - intros Hawait. split; [| reflexivity].
    apply signIn_dispatches; try assumption.
    now apply awaiting_not_authenticated.
Qed.

(** The suspended sample provider takes a second signIn: the event is
    sent, and with a machine that does not move the call returns. *)
Lemma signIn_refuses_only_signed_in_witness :
  awaitingChallengeResponse Samples.suspendedProvider
  /\ signIn Samples.idleMachines Samples.passwordSignIn
            Samples.suspendedProvider
     = waitForSignInComplete Samples.idleMachines
         (afterSend (signInRequestedFor Samples.suspendedProvider
                                        Samples.passwordSignIn)
                    Samples.suspendedProvider).
Proof.
  assert (Hawait : awaitingChallengeResponse Samples.suspendedProvider).
  { split; [reflexivity |]. exists Samples.challengedActor. split; reflexivity. }
  split; [exact Hawait |].
  exact (proj1 (proj2 (signIn_refuses_only_signed_in
                         Samples.idleMachines Samples.passwordSignIn
                         Samples.suspendedProvider eq_refl eq_refl)
                      Hawait)).
Defined.

(** C2 as stated fails: with an attempt suspended awaiting its
    challenge response, a second signIn does not throw; it sends
    signInRequested to the machine. *)
Lemma signIn_while_awaiting_challenge_is_dispatched :
  awaitingChallengeResponse Samples.suspendedProvider
  /\ (forall xstate,
        signIn xstate Samples.passwordSignIn
               Samples.suspendedProvider
        = waitForSignInComplete xstate
            (afterSend (signInRequested "Password" (Some "alice")
                                        (Some "correct")
                                        (Some "USER_PASSWORD_AUTH"))
                       Samples.suspendedProvider))
  /\ sentEvents
       (_authService
          (snd (signIn Samples.idleMachines Samples.passwordSignIn
                       Samples.suspendedProvider)))
     = [signInRequested "Password" (Some "alice") (Some "correct")
                        (Some "USER_PASSWORD_AUTH")]
  /\ fst (signIn Samples.idleMachines Samples.passwordSignIn
                 Samples.suspendedProvider)
     = Returned {| signInSuccesful := false; nextStep := true |}.
Proof.
  split.
  - split; [reflexivity |]. exists Samples.challengedActor. split; reflexivity.
  - split; [intros machines; reflexivity |]. split; reflexivity.
Qed.

(** C6, as the code has it.  What confirmSignIn tests is whether a
    prior signIn has initiated an attempt: the machine holds an actor
    and is in signingIn.  When none has, the call throws a usage error
    of the facade, not a service rejection, and leaves the provider as
    it was: nothing is sent to the machine or its actor and no remote
    command is issued.  Once an attempt is initiated, the response to a
    challenge confirmSignIn serves is sent to the actor, in whatever
    state the actor is, also before it has reached nextAuthChallenge;
    for another challenge name the call throws 'Not implemented'. *)
Theorem confirmSignIn_guard_is_initiation
    (xstate : XState)
    (params : ConfirmSignInParams) (this : CognitoProvider) :
  (signInInitiated this = false ->
   exists e,
     confirmSignIn xstate params this = (Threw e, this)
     /\ e = Error (if supportedChallenge params
                   then SIGN_IN_NOT_INITIATED else "Not implemented")
     /\ isUsageError e = true
     /\ isServiceRejection e = false)
  /\ (signInInitiated this = true ->
      (supportedChallenge params = false ->
       confirmSignIn xstate params this
       = (Threw (Error "Not implemented"), this))
      /\ (supportedChallenge params = true ->
          confirmSignIn xstate params this
          = waitForSignInComplete xstate
              (afterActorSend (respondToAuthChallenge params) this)
          /\ exists actor,
               actorRef (_authService this) = Some actor
               /\ actorRef
                    (_authService
                       (afterActorSend (respondToAuthChallenge params) this))
                  = Some {| actorState := actorState actor;
                            actorInbox :=
                              actorInbox actor
                              ++ [respondToAuthChallenge params] |})).
Proof.
  split.
  - intros Hinit. eexists. split; [| split; [reflexivity | split; reflexivity]].
    unfold confirmSignIn, supportedChallenge. js_unfold.
    rewrite <- !negb_orb.
    destruct (String.eqb (challengeName params) "SMS_MFA"
              || String.eqb (challengeName params) "SOFTWARE_TOKEN_MFA"
              || String.eqb (challengeName params) "NEW_PASSWORD_REQUIRED");
      simpl; [| reflexivity].
    unfold signInInitiated in Hinit.
    rewrite <- negb_andb, Hinit. reflexivity.
  - intros Hinit. split.
    + intros Hs. unfold confirmSignIn. js_unfold.
      unfold supportedChallenge in Hs. now rewrite <- !negb_orb, Hs.
    + intros Hs. split.
      * now apply confirmSignIn_initiated_sends.
      * unfold signInInitiated in Hinit. apply andb_true_iff in Hinit.
        destruct Hinit as (Hactor & _).
        unfold afterActorSend, actor_send.
        destruct (actorRef (_authService this)) as [actor |];
          [| discriminate].
        exists actor. split; reflexivity.
Qed.

(** A signed-out provider answers confirmSignIn with the usage error,
    and a provider whose attempt is under way passes the code on. *)
Lemma confirmSignIn_guard_is_initiation_witness :
  (exists e,
     confirmSignIn Samples.idleMachines Samples.smsCode
                   Samples.signedOutProvider
     = (Threw e, Samples.signedOutProvider)
     /\ e = Error SIGN_IN_NOT_INITIATED
     /\ isUsageError e = true
     /\ isServiceRejection e = false)
  /\ confirmSignIn Samples.idleMachines Samples.smsCode
                   MoreSamples.startedProvider
     = waitForSignInComplete Samples.idleMachines
         (afterActorSend (respondToAuthChallenge Samples.smsCode)
                         MoreSamples.startedProvider).
Proof.
  split.
  - exact (proj1 (confirmSignIn_guard_is_initiation
                    Samples.idleMachines Samples.smsCode
                    Samples.signedOutProvider)
                 eq_refl).
  - exact (proj1 (proj2 (proj2 (confirmSignIn_guard_is_initiation
                                  Samples.idleMachines Samples.smsCode
                                  MoreSamples.startedProvider)
                               eq_refl)
                        eq_refl)).
Defined.

(** C6 as stated fails: with the machine in signingIn and the actor not
    yet at nextAuthChallenge, the attempt is not awaiting a challenge
    response, and confirmSignIn still passes its guard: it sends the
    response to the actor, whose inbox then holds it, and goes on to
    wait for the machines, whatever they are. *)
Lemma confirmSignIn_before_challenge_is_sent :
  ~ awaitingChallengeResponse MoreSamples.startedProvider
  /\ (forall xstate,
        confirmSignIn xstate Samples.smsCode MoreSamples.startedProvider
        = waitForSignInComplete xstate
            (afterActorSend (respondToAuthChallenge Samples.smsCode)
                            MoreSamples.startedProvider))
  /\ actorRef (_authService
                 (afterActorSend (respondToAuthChallenge Samples.smsCode)
                                 MoreSamples.startedProvider))
     = Some {| actorState := "initiating";
               actorInbox := [respondToAuthChallenge Samples.smsCode] |}
  /\ afterActorSend (respondToAuthChallenge Samples.smsCode)
                    MoreSamples.startedProvider
     <> MoreSamples.startedProvider.
Proof.
  split; [| split; [| split]].
  - intros (_ & actor & Hactor & Hstate).
    injection Hactor as <-. discriminate Hstate.
  - intros xstate. reflexivity.
  - reflexivity.
  - discriminate.
Qed.

Section ConfigurationFacts.

Variable handlingOAuthCodeResponse : bool.
Variable JSON_parse : string -> Completion ProviderThrown (option SessionData).
Variable getExpirationTimeFromJWT : string -> Completion ProviderThrown Z.
Variable decodeJWT_sub : string -> Completion ProviderThrown (option string).
Variable remoteGetId :
  string -> string -> string -> Completion ProviderThrown (option string).
Variable remoteGetCredentialsForIdentity :
  string -> string -> string -> Completion ProviderThrown (option IdentityCredentials).
Variable remoteGetUser : string -> Completion ProviderThrown unit.

Lemma isConfigured_lacks (this : CognitoProvider) :
  isConfigured this = negb (lacksPoolOrRegion (_config this)).
Proof.
  unfold isConfigured, lacksPoolOrRegion.
  now rewrite negb_orb, !negb_involutive.
Qed.

(** configure refuses a configuration without user pool id or region
    before it stores or sends anything. *)
Lemma configure_invalid (config : PluginConfig) (this : CognitoProvider) :
  lacksPoolOrRegion config = true ->
  configure handlingOAuthCodeResponse config this
  = (Threw (Error "Invalid config for CognitoProvider"), this).
Proof.
  intros Hlack. unfold configure. unfold lacksPoolOrRegion in Hlack.
  rewrite Hlack. reflexivity.
Qed.

(** configure accepts every other configuration, stores it and tells
    the machine. *)
Lemma configure_valid (config : PluginConfig) (this : CognitoProvider) :
  lacksPoolOrRegion config = false ->
  fst (configure handlingOAuthCodeResponse config this) = Returned tt
  /\ isConfigured (snd (configure handlingOAuthCodeResponse config this)) = true
  /\ clientId (_config (snd (configure handlingOAuthCodeResponse config this)))
     = clientId config.
Proof.
  intros Hvalid. unfold configure. unfold lacksPoolOrRegion in Hvalid.
  rewrite Hvalid. unfold authService_send. js_unfold. simpl.
  destruct handlingOAuthCodeResponse; simpl;
    (split; [reflexivity |]; split; [| reflexivity]);
    unfold isConfigured; simpl;
    apply orb_false_iff in Hvalid; destruct Hvalid as (Hp & Hr);
    apply negb_false_iff in Hp; apply negb_false_iff in Hr;
    now rewrite Hp, Hr.
Qed.

Lemma fetchSession_not_configured (this : CognitoProvider) :
  isConfigured this = false ->
  fetchSession JSON_parse getExpirationTimeFromJWT decodeJWT_sub remoteGetId
               remoteGetCredentialsForIdentity remoteGetUser this
  = (Threw (Error ""), this).
Proof.
  intros Hc. unfold fetchSession. js_unfold. rewrite Hc. reflexivity.
Qed.

End ConfigurationFacts.

(** C8, as the code has it.  configure refuses every configuration
    that lacks the user pool id or the region, on any provider, with
    the Error 'Invalid config for CognitoProvider'; and while the stored
    configuration lacks one of the two, signIn and signUp throw the
    Error 'Plugin not configured' and fetchSession an Error without
    message.  In each case the provider is left as it was, so nothing
    was sent to the machine and no remote command was issued, and the
    error is the facade's own, not a service rejection.  The client id
    takes no part in these checks. *)
Theorem missing_pool_or_region_fails_before_dispatch
    (handlingOAuthCodeResponse : bool)
    (xstate : XState)
    (JSON_parse : string -> Completion ProviderThrown (option SessionData))
    (getExpirationTimeFromJWT : string -> Completion ProviderThrown Z)
    (decodeJWT_sub : string -> Completion ProviderThrown (option string))
    (remoteGetId : string -> string -> string ->
                   Completion ProviderThrown (option string))
    (remoteGetCredentialsForIdentity :
       string -> string -> string ->
       Completion ProviderThrown (option IdentityCredentials))
    (remoteGetUser : string -> Completion ProviderThrown unit)
    (config : PluginConfig) (this : CognitoProvider)
    (signInParams : SignInParams) (signUpParams : SignUpParams) :
  (lacksPoolOrRegion config = true ->
   configure handlingOAuthCodeResponse config this
   = (Threw (Error "Invalid config for CognitoProvider"), this))
  /\ (lacksPoolOrRegion (_config this) = true ->
      signIn xstate signInParams this
      = (Threw (Error "Plugin not configured"), this)
      /\ signUp xstate signUpParams this
         = (Threw (Error "Plugin not configured"), this)
      /\ fetchSession JSON_parse getExpirationTimeFromJWT decodeJWT_sub
                      remoteGetId remoteGetCredentialsForIdentity remoteGetUser
                      this
         = (Threw (Error ""), this)).
Proof.
  split.
  - intros Hconfig. now apply configure_invalid.
  - intros Hthis.
    assert (Hc : isConfigured this = false).
    { rewrite isConfigured_lacks, Hthis. reflexivity. }
    split; [now apply signIn_not_configured |].
    split; [now apply signUp_not_configured |].
    now apply fetchSession_not_configured.
Qed.

(** An empty configuration is refused by a provider that was never
    configured and by one that is configured and in the middle of a
    sign-in alike; the unconfigured one refuses signIn. *)
Lemma missing_pool_or_region_fails_before_dispatch_witness :
  configure false Samples.emptyConfig Samples.unconfiguredProvider
  = (Threw (Error "Invalid config for CognitoProvider"),
     Samples.unconfiguredProvider)
  /\ configure true Samples.emptyConfig Samples.suspendedProvider
     = (Threw (Error "Invalid config for CognitoProvider"),
        Samples.suspendedProvider)
  /\ signIn Samples.idleMachines Samples.passwordSignIn
            Samples.unconfiguredProvider
     = (Threw (Error "Plugin not configured"), Samples.unconfiguredProvider).
Proof.
  pose proof (missing_pool_or_region_fails_before_dispatch
                false Samples.idleMachines
                (fun _ => Returned None) (fun _ => Returned 0%Z)
                (fun _ => Returned None) (fun _ _ _ => Returned None)
                (fun _ _ _ => Returned None) (fun _ => Returned tt)
                Samples.emptyConfig Samples.unconfiguredProvider
                Samples.passwordSignIn
                {| signUpUsername := "ann"; signUpPassword := "pw" |})
    as (Hconfigure & Hguards).
  pose proof (missing_pool_or_region_fails_before_dispatch
                true Samples.idleMachines
                (fun _ => Returned None) (fun _ => Returned 0%Z)
                (fun _ => Returned None) (fun _ _ _ => Returned None)
                (fun _ _ _ => Returned None) (fun _ => Returned tt)
                Samples.emptyConfig Samples.suspendedProvider
                Samples.passwordSignIn
                {| signUpUsername := "ann"; signUpPassword := "pw" |})
    as (Hconfigured & _).
  split; [exact (Hconfigure eq_refl) |].
  split; [exact (Hconfigured eq_refl) |].
  exact (proj1 (Hguards eq_refl)).
Defined.

(** C8 as stated fails for the client id: configure accepts a
    configuration without one, the provider then counts as configured,
    and signIn sends its request to the machine instead of failing. *)
Lemma configure_accepts_missing_client_id :
  clientId (Samples.poolConfig None) = None
  /\ fst (configure false (Samples.poolConfig None) Samples.unconfiguredProvider)
     = Returned tt
  /\ isConfigured
       (snd (configure false (Samples.poolConfig None)
                       Samples.unconfiguredProvider))
     = true
  /\ (forall xstate,
        signIn xstate Samples.passwordSignIn
               (snd (configure false (Samples.poolConfig None)
                               Samples.unconfiguredProvider))
        = waitForSignInComplete xstate
            (afterSend (signInRequested "Password" (Some "alice")
                                        (Some "correct")
                                        (Some "USER_PASSWORD_AUTH"))
                       (snd (configure false (Samples.poolConfig None)
                                       Samples.unconfiguredProvider))))
  /\ sentEvents
       (_authService
          (snd (signIn Samples.idleMachines Samples.passwordSignIn
                  (snd (configure false (Samples.poolConfig None)
                                  Samples.unconfiguredProvider)))))
     = [configureEvent (Samples.poolConfig None);
        signInRequested "Password" (Some "alice") (Some "correct")
                        (Some "USER_PASSWORD_AUTH")].
Proof.
  split; [reflexivity |]. split; [reflexivity |]. split; [reflexivity |].
  split; [intros machines; reflexivity | reflexivity].
Qed.

End CognitoProviderProps.

(* ===================================================================== *)
(** ** signInWithUserPassword: the store and the executor calls *)
(* ===================================================================== *)

Module SignInMore.
Import AuthErrors SignIn.

Section Facts.

Variable md : option StringMap.
Variable initiateAuth :
  string -> option string -> option StringMap ->
  Completion AuthThrown InitiateAuthOutput.
Variable getSignInResult :
  option string -> option StringMap -> Completion AuthThrown AuthSignInResult.
Variable getSignInResultFromError : string -> option AuthSignInResult.

Let run := signInWithUserPassword md initiateAuth getSignInResult
                                  getSignInResultFromError.


End Facts.



(** X2.  Every call issues one executor call when the request passes
    validation and none otherwise, on every path, error paths included.
    The call carries the request's own client metadata when it has some,
    and the metadata of the Amplify configuration otherwise. *)
Theorem signIn_issues_one_call_iff_valid
    (md : option StringMap)
    (initiateAuth : string -> option string -> option StringMap ->
                    Completion AuthThrown InitiateAuthOutput)
    (getSignInResult : option string -> option StringMap ->
                       Completion AuthThrown AuthSignInResult)
    (getSignInResultFromError : string -> option AuthSignInResult)
    (req : SignInRequest) (w : World) :
  executorCalls
    (snd (signInWithUserPassword md initiateAuth getSignInResult
            getSignInResultFromError req w))
  = executorCalls w ++
    (if Spec.validSignIn req then
       [{| callUsername := username req;
           callPassword := password req;
           callMetadata :=
             match option_bind (option_bind (options req) serviceOptions)
                               clientMetadata with
             | Some own => Some own
             | None => md
             end |}]
     else []).
Proof.
  unfold Spec.validSignIn.
  destruct (truthy (username req)) eqn:Hu.
  - destruct (truthy_opt (password req)) eqn:Hp.
    + rewrite (SignInProps.signIn_calls_executor_once md initiateAuth
                 getSignInResult getSignInResultFromError req w Hu Hp).
      unfold executorCall, metadataOf, or_else. simpl.
      destruct (option_bind (option_bind (options req) serviceOptions)
                            clientMetadata); reflexivity.
    + rewrite (SignInProps.signIn_empty_password md initiateAuth
                 getSignInResult getSignInResultFromError req w Hu Hp).
      simpl. now rewrite app_nil_r.
  - rewrite (SignInProps.signIn_empty_username md initiateAuth
               getSignInResult getSignInResultFromError req w Hu).
    simpl. now rewrite app_nil_r.
Qed.

End SignInMore.

(* ===================================================================== *)
(** ** signUp: the remote call and its failures *)
(* ===================================================================== *)

Module SignUpMore.
Import AuthErrors SignUp.

(** X3.  A sign-up sends at most one remote call: exactly one when the
    configuration and the request are valid and the region of the user
    pool resolves, none otherwise; and it never changes the
    configuration. Nothing is caught: when the region lookup or the
    remote service rejects a valid sign-up, the caller gets that very
    error. *)
Theorem signUp_sends_once_and_rethrows
    (getRegion : option string -> Completion AuthThrown string)
    (remoteSignUp : string -> SignUpCommandInput ->
                    Completion AuthThrown SignUpCommandOutput)
    (req : SignUpRequest) (w : World) :
  signUpCalls (snd (signUp getRegion remoteSignUp req w))
  = signUpCalls w ++
    (if Spec.validSignUp w req then
       match getRegion (option_bind (authConfig w) userPoolId) with
       | Returned region => [(region, signUpInput (authConfig w) req)]
       | Threw _ => []
       end
     else [])
  /\ authConfig (snd (signUp getRegion remoteSignUp req w)) = authConfig w
  /\ (Spec.validSignUp w req = true ->
      forall e,
        getRegion (option_bind (authConfig w) userPoolId) = Threw e ->
        fst (signUp getRegion remoteSignUp req w) = Threw e)
  /\ (Spec.validSignUp w req = true ->
      forall region e,
        getRegion (option_bind (authConfig w) userPoolId) = Returned region ->
        remoteSignUp region (signUpInput (authConfig w) req) = Threw e ->
        fst (signUp getRegion remoteSignUp req w) = Threw e).
Proof.
  unfold Spec.validSignUp.
  destruct (validTokenProviderConfig (authConfig w)) eqn:Hc; simpl.
  2:{ rewrite (SignUpProps.signUp_invalid_config getRegion remoteSignUp req w Hc).
      simpl. rewrite app_nil_r. repeat split; discriminate. }
  destruct (truthy (username req)) eqn:Hu; simpl.
  2:{ rewrite (SignUpProps.signUp_empty_username getRegion remoteSignUp req w Hc Hu).
      simpl. rewrite app_nil_r. repeat split; discriminate. }
  destruct (truthy (password req)) eqn:Hp; simpl.
  2:{ rewrite (SignUpProps.signUp_empty_password getRegion remoteSignUp req w
                 Hc Hu Hp).
      simpl. rewrite app_nil_r. repeat split; discriminate. }
  destruct (getRegion (option_bind (authConfig w) userPoolId))
    as [region | e0] eqn:Hr.
  - rewrite (SignUpProps.signUp_sends getRegion remoteSignUp req w region
               Hc Hu Hp Hr).
    simpl. repeat split.
    + intros _ e He. discriminate.
    + intros _ region' e Hregion Hremote.
      injection Hregion as <-. now rewrite Hremote.
  - unfold signUp, assertTokenProviderConfig, assertValidationError.
    js_unfold. rewrite Hc, Hu, Hp, Hr. simpl. rewrite app_nil_r.
    repeat split.
    + intros _ e He. congruence.
    + intros _ region e Hregion. discriminate.
Qed.

(** The sample service under a configured world: the sign-up of "ann"
    is sent once, with the configured client id. *)
Lemma signUp_sends_once_and_rethrows_witness :
  signUpCalls (snd (Samples.signUp (Samples.signUpRequest "ann" "pw")
                                   Samples.configuredWorld))
  = [("us-east-1",
      {| Username := "ann"; Password := "pw"; UserAttributes := None;
         ClientMetadata := None; ValidationData := None;
         ClientId := Some "client-1" |})].
Proof.
  exact (proj1 (signUp_sends_once_and_rethrows
                  Samples.getRegion Samples.remoteSignUp
                  (Samples.signUpRequest "ann" "pw") Samples.configuredWorld)).
Defined.

End SignUpMore.

(* ===================================================================== *)
(** ** getUrl: what reaches the presigner and what stops before it *)
(* ===================================================================== *)

Module GetUrlMore.
Import GetUrl.
Local Open Scope Z_scope.

Section Facts.

Variable resolveCredentials : Completion StorageThrown ResolvedCredentials.
Variable resolveStorageConfig : Completion StorageThrown StorageConfig.
Variable getKeyWithPrefix : string -> option string -> string -> string.
Variable headObject : string -> Completion StorageThrown unit.
Variable presigner :
  PresignOptions -> GetObjectInput -> Completion StorageThrown string.
Variable Date_now : Z.

Let run := getUrl resolveCredentials resolveStorageConfig getKeyWithPrefix
                  headObject presigner Date_now.

(** The call once credentials and configuration are resolved and the
    key is not empty: the existence check, the limit, the expiry of the
    credentials and the presigner, in this order. *)
Lemma getUrl_after_key_check (req : StorageDownloadDataRequest) (w : World)
    (rc : ResolvedCredentials) (cfg : StorageConfig) :
  resolveCredentials = Returned rc ->
  resolveStorageConfig = Returned cfg ->
  truthy (key req) = true ->
  run req w =
    let afterCheck :=
      if wantsExistenceCheck req then w ++ [GetPropertiesCall (key req)] else w in
    match (if wantsExistenceCheck req then headObject (key req) else Returned tt)
    with
    | Threw e => (Threw e, afterCheck)
    | Returned _ =>
        if MAX_URL_EXPIRATION <? requestedExpiration req then
          match Spec.credentialExpiry rc with
          | None =>
              (Threw (TypeError
                 "Cannot read properties of undefined (reading 'getTime')"),
               afterCheck)
          | Some credTime =>
              let o := Spec.presignOptionsOf rc cfg req in
              let i := Spec.getObjectInputOf getKeyWithPrefix rc cfg req in
              (match presigner o i with
               | Returned u =>
                   Returned {| url := u;
                               expiresAt :=
                                 Date_now
                                 + Z.min (requestedExpiration req) credTime |}
               | Threw e => Threw e
               end,
               afterCheck ++ [PresignCall o i])
          end
        else (Threw (ValidationError UrlExpirationMaxLimitExceed), afterCheck)
    end.
Proof.
  intros Hrc Hcfg Hkey.
  unfold run, getUrl, assertValidationError, getProperties,
    getPresignedGetObjectUrl, wantsExistenceCheck, requestedExpiration,
    Spec.credentialExpiry, Spec.presignOptionsOf, Spec.getObjectInputOf,
    Spec.accessLevelOf, requestedExpiration.
  js_unfold. rewrite Hrc, Hcfg, Hkey. cbv zeta.
  set (exp := nullish (option_bind (options req) optExpiration)
                      DEFAULT_PRESIGN_EXPIRATION).
  assert (Hmin : forall t, (if exp <? t then exp else t) = Z.min exp t).
  { intros t. destruct (Z.ltb_spec exp t); lia. }
  destruct (truthy_flag (option_bind (options req) validateObjectExistence)).
  - destruct (headObject (key req)) as [[] | e]; simpl; [| reflexivity].
    destruct (MAX_URL_EXPIRATION <? exp); simpl; [| reflexivity].
    destruct (option_bind (credentials rc) expiration) as [t |]; simpl;
      [| reflexivity].
    destruct (presigner _ _) as [u | e]; simpl; [| reflexivity].
    now rewrite Hmin.
  - simpl.
    destruct (MAX_URL_EXPIRATION <? exp); simpl; [| reflexivity].
    destruct (option_bind (credentials rc) expiration) as [t |]; simpl;
      [| reflexivity].
    destruct (presigner _ _) as [u | e]; simpl; [| reflexivity].
    now rewrite Hmin.
Qed.

Lemma existenceChecks_app (w w' : World) :
  Spec.existenceChecks (w ++ w')
  = Spec.existenceChecks w ++ Spec.existenceChecks w'.
Proof. unfold Spec.existenceChecks. apply filter_app. Qed.

End Facts.

(** X4.  A successful call asks the presigner exactly once, after the
    existence check if one was asked for. The presigner gets the
    expiration as requested, not the clamped one, the bucket of the
    configuration and the key prefixed for the request's access level
    (the configured default when the request names none); the URL
    returned is the presigner's, and the reported expiry is the clock
    reading plus the smaller of the requested expiration and the epoch
    time at which the credentials expire. *)
Theorem getUrl_presigns_once_as_requested
    (resolveCredentials : Completion StorageThrown ResolvedCredentials)
    (resolveStorageConfig : Completion StorageThrown StorageConfig)
    (getKeyWithPrefix : string -> option string -> string -> string)
    (headObject : string -> Completion StorageThrown unit)
    (presigner : PresignOptions -> GetObjectInput ->
                 Completion StorageThrown string)
    (Date_now : Z)
    (req : StorageDownloadDataRequest) (w : World)
    (rc : ResolvedCredentials) (cfg : StorageConfig) (credTime : Z)
    (u : string) :
  resolveCredentials = Returned rc ->
  resolveStorageConfig = Returned cfg ->
  truthy (key req) = true ->
  (wantsExistenceCheck req = true -> headObject (key req) = Returned tt) ->
  MAX_URL_EXPIRATION < requestedExpiration req ->
  Spec.credentialExpiry rc = Some credTime ->
  presigner (Spec.presignOptionsOf rc cfg req)
            (Spec.getObjectInputOf getKeyWithPrefix rc cfg req) = Returned u ->
  getUrl resolveCredentials resolveStorageConfig getKeyWithPrefix headObject
         presigner Date_now req w
  = (Returned {| url := u;
                 expiresAt :=
                   Date_now + Z.min (requestedExpiration req) credTime |},
     w ++ Spec.existenceCall req
       ++ [PresignCall (Spec.presignOptionsOf rc cfg req)
                       (Spec.getObjectInputOf getKeyWithPrefix rc cfg req)])
  /\ presignExpiration (Spec.presignOptionsOf rc cfg req)
     = requestedExpiration req
  /\ Bucket (Spec.getObjectInputOf getKeyWithPrefix rc cfg req) = bucket cfg
  /\ Key (Spec.getObjectInputOf getKeyWithPrefix rc cfg req)
     = getKeyWithPrefix
         (match option_bind (options req) accessLevel with
          | Some level => level
          | None => defaultAccessLevel cfg
          end)
         (identityId rc) (key req).
Proof.
  intros Hrc Hcfg Hkey Hhead Hlimit Hexp Hpresign.
  rewrite (getUrl_after_key_check resolveCredentials resolveStorageConfig
             getKeyWithPrefix headObject presigner Date_now req w rc cfg
             Hrc Hcfg Hkey).
  cbv zeta. unfold Spec.existenceCall.
  apply Z.ltb_lt in Hlimit.
  destruct (wantsExistenceCheck req).
  - rewrite (Hhead eq_refl), Hlimit, Hexp, Hpresign.
    rewrite <- app_assoc. repeat split.
  - rewrite Hlimit, Hexp, Hpresign. repeat split.
Qed.

(** The sample call for seven days and a millisecond: one presign call,
    for 604800001, under the default access level. *)
Lemma getUrl_presigns_once_as_requested_witness :
  Samples.getUrl (Samples.urlRequest "photo.jpg" (Some 604800001)) []
  = (Returned {| url := "https://bucket.s3.amazonaws.com/public/photo.jpg";
                 expiresAt := 1700604800001 |},
     [PresignCall
        {| presignAccessLevel := "guest";
           presignCredentials := Some Samples.sessionCredentials;
           presignExpiration := 604800001;
           signingRegion := "us-east-1";
           presignRegion := "us-east-1";
           signingService := "s3" |}
        {| Bucket := "bucket"; Key := "public/photo.jpg" |}]).
Proof.
  refine (proj1 (getUrl_presigns_once_as_requested
                   Samples.resolveCredentials Samples.resolveStorageConfig
                   Samples.getKeyWithPrefix Samples.headObject Samples.presigner
                   Samples.clock
                   (Samples.urlRequest "photo.jpg" (Some 604800001)) []
                   _ _ 1700003600000
                   "https://bucket.s3.amazonaws.com/public/photo.jpg"
                   eq_refl eq_refl eq_refl (fun _ => eq_refl) eq_refl
                   eq_refl eq_refl)).
Defined.

(** X5.  The existence check is made only on request and only for a key
    that is not empty, at most once and for the key of the request. When
    the check fails the call throws its error, and nothing is presigned. *)
Theorem getUrl_existence_check_on_request_only
    (resolveCredentials : Completion StorageThrown ResolvedCredentials)
    (resolveStorageConfig : Completion StorageThrown StorageConfig)
    (getKeyWithPrefix : string -> option string -> string -> string)
    (headObject : string -> Completion StorageThrown unit)
    (presigner : PresignOptions -> GetObjectInput ->
                 Completion StorageThrown string)
    (Date_now : Z)
    (req : StorageDownloadDataRequest) (w : World) :
  (Spec.existenceChecks
     (snd (getUrl resolveCredentials resolveStorageConfig getKeyWithPrefix
                  headObject presigner Date_now req w))
   = Spec.existenceChecks w
   \/ wantsExistenceCheck req = true /\ truthy (key req) = true
      /\ Spec.existenceChecks
           (snd (getUrl resolveCredentials resolveStorageConfig getKeyWithPrefix
                        headObject presigner Date_now req w))
         = Spec.existenceChecks w ++ [GetPropertiesCall (key req)])
  /\ (forall rc cfg e,
        resolveCredentials = Returned rc ->
        resolveStorageConfig = Returned cfg ->
        truthy (key req) = true ->
        wantsExistenceCheck req = true ->
        headObject (key req) = Threw e ->
        getUrl resolveCredentials resolveStorageConfig getKeyWithPrefix
               headObject presigner Date_now req w
        = (Threw e, w ++ [GetPropertiesCall (key req)])).
Proof.
  split.
  - destruct resolveCredentials as [rc | e].
    2:{ left. reflexivity. }
    destruct resolveStorageConfig as [cfg | e].
    2:{ left. reflexivity. }
    destruct (truthy (key req)) eqn:Hkey.
    2:{ left. unfold getUrl, assertValidationError. js_unfold.
        rewrite Hkey. reflexivity. }
    rewrite (getUrl_after_key_check (Returned rc) (Returned cfg)
               getKeyWithPrefix headObject presigner Date_now req w rc cfg
               eq_refl eq_refl Hkey).
    cbv zeta.
    destruct (wantsExistenceCheck req).
    + right. split; [reflexivity |]. split; [reflexivity |].
      destruct (headObject (key req)) as [[] | e]; simpl;
        [| now rewrite existenceChecks_app].
      destruct (MAX_URL_EXPIRATION <? requestedExpiration req); simpl;
        [| now rewrite existenceChecks_app].
      destruct (Spec.credentialExpiry rc); simpl;
        rewrite !existenceChecks_app; simpl; [now rewrite app_nil_r | reflexivity].
    + left.
      destruct (MAX_URL_EXPIRATION <? requestedExpiration req); simpl;
        [| reflexivity].
      destruct (Spec.credentialExpiry rc); simpl; [| reflexivity].
      rewrite existenceChecks_app. simpl. now rewrite app_nil_r.
  - intros rc cfg e Hrc Hcfg Hkey Hwants Hhead.
    rewrite (getUrl_after_key_check resolveCredentials resolveStorageConfig
               getKeyWithPrefix headObject presigner Date_now req w rc cfg
               Hrc Hcfg Hkey).
    cbv zeta. now rewrite Hwants, Hhead.
Qed.

(** X6.  Credentials that carry no expiration stop a call that has
    passed every check: the read of their expiry is a TypeError, and
    nothing is presigned. *)
Theorem getUrl_needs_credential_expiry
    (resolveCredentials : Completion StorageThrown ResolvedCredentials)
    (resolveStorageConfig : Completion StorageThrown StorageConfig)
    (getKeyWithPrefix : string -> option string -> string -> string)
    (headObject : string -> Completion StorageThrown unit)
    (presigner : PresignOptions -> GetObjectInput ->
                 Completion StorageThrown string)
    (Date_now : Z)
    (req : StorageDownloadDataRequest) (w : World)
    (rc : ResolvedCredentials) (cfg : StorageConfig) :
  resolveCredentials = Returned rc ->
  resolveStorageConfig = Returned cfg ->
  truthy (key req) = true ->
  (wantsExistenceCheck req = true -> headObject (key req) = Returned tt) ->
  MAX_URL_EXPIRATION < requestedExpiration req ->
  Spec.credentialExpiry rc = None ->
  getUrl resolveCredentials resolveStorageConfig getKeyWithPrefix headObject
         presigner Date_now req w
  = (Threw (TypeError "Cannot read properties of undefined (reading 'getTime')"),
     w ++ Spec.existenceCall req).
Proof.
  intros Hrc Hcfg Hkey Hhead Hlimit Hexp.
  rewrite (getUrl_after_key_check resolveCredentials resolveStorageConfig
             getKeyWithPrefix headObject presigner Date_now req w rc cfg
             Hrc Hcfg Hkey).
  cbv zeta. unfold Spec.existenceCall.
  apply Z.ltb_lt in Hlimit.
  destruct (wantsExistenceCheck req).
  - now rewrite (Hhead eq_refl), Hlimit, Hexp.
  - rewrite Hlimit, Hexp. now rewrite app_nil_r.
Qed.

(** A session without credentials, asked for a URL of eight days. *)
Lemma getUrl_needs_credential_expiry_witness :
  getUrl (Returned {| credentials := None; identityId := Some "identity-1" |})
         Samples.resolveStorageConfig Samples.getKeyWithPrefix
         Samples.headObject Samples.presigner Samples.clock
         (Samples.urlRequest "photo.jpg" (Some 691200000)) []
  = (Threw (TypeError "Cannot read properties of undefined (reading 'getTime')"),
     []).
Proof.
  exact (getUrl_needs_credential_expiry
           (Returned {| credentials := None; identityId := Some "identity-1" |})
           Samples.resolveStorageConfig Samples.getKeyWithPrefix
           Samples.headObject Samples.presigner Samples.clock
           (Samples.urlRequest "photo.jpg" (Some 691200000)) []
           _ _ eq_refl eq_refl eq_refl (fun _ => eq_refl) eq_refl eq_refl).
Defined.

End GetUrlMore.

(* ===================================================================== *)
(** ** The Predictions registry: add, get, remove and dispatch *)
(* ===================================================================== *)

Module PredictionsMore.
Import Predictions PredictionsSpec.

Section Facts.

Context {CI CO II IO TI TO : Type}.

Lemma find_app_first {A} (f : A -> bool) (l l' : list A) :
  find f (l ++ l') = match find f l with
                     | Some x => Some x
                     | None => find f l'
                     end.
Proof.
  induction l as [| a l IH]; simpl; [reflexivity |].
  destruct (f a); [reflexivity | exact IH].
Qed.

(** A lookup by name succeeds exactly on the names of the list. *)
Lemma find_name_none_iff (name : string)
    (l : list (AbstractPredictionsProvider CI CO II IO TI TO)) :
  find (fun pluggable => String.eqb (getProviderName pluggable) name) l = None
  <-> ~ In name (names l).
Proof.
  unfold names. induction l as [| p l IH]; simpl.
  - split; [intros _ [] | reflexivity].
  - destruct (String.eqb_spec (getProviderName p) name) as [Heq | Hne].
    + split; [discriminate | intros H; exfalso; apply H; left; exact Heq].
    + rewrite IH. split.
      * intros H [Hp | Hin]; [contradiction | exact (H Hin)].
      * intros H Hin. apply H. right. exact Hin.
Qed.

(** In a list without repeated names, a lookup by the name of one of
    its pluggables finds that pluggable. *)
Lemma find_name_unique (p : AbstractPredictionsProvider CI CO II IO TI TO)
    (l : list (AbstractPredictionsProvider CI CO II IO TI TO)) :
  NoDup (names l) ->
  In p l ->
  find (fun pluggable =>
          String.eqb (getProviderName pluggable) (getProviderName p)) l
  = Some p.
Proof.
  unfold names. induction l as [| q l IH]; simpl; intros Hnd Hin; [contradiction |].
  inversion Hnd as [| ? ? Hnotin Hnd']; subst.
  destruct Hin as [-> | Hin].
  - now rewrite String.eqb_refl.
  - destruct (String.eqb_spec (getProviderName q) (getProviderName p))
      as [Heq | Hne].
    + exfalso. apply Hnotin. rewrite Heq. now apply in_map.
    + now apply IH.
Qed.

Lemma find_name_filter (name other : string)
    (l : list (AbstractPredictionsProvider CI CO II IO TI TO)) :
  find (fun pluggable => String.eqb (getProviderName pluggable) other)
       (filter (fun pluggable =>
                  negb (String.eqb (getProviderName pluggable) name)) l)
  = if String.eqb other name then None
    else find (fun pluggable => String.eqb (getProviderName pluggable) other) l.
Proof.
  induction l as [| p l IH]; simpl.
  - now destruct (String.eqb other name).
  - destruct (String.eqb_spec (getProviderName p) name) as [Hpn | Hpn]; simpl.
    + rewrite IH.
      destruct (String.eqb_spec other name) as [Hon | Hon]; [reflexivity |].
      destruct (String.eqb_spec (getProviderName p) other) as [Hpo | Hpo];
        [congruence | reflexivity].
    + destruct (String.eqb_spec (getProviderName p) other) as [Hpo | Hpo].
      * destruct (String.eqb_spec other name); [congruence | reflexivity].
      * exact IH.
Qed.

Lemma names_app (l l' : list (AbstractPredictionsProvider CI CO II IO TI TO)) :
  names (l ++ l') = names l ++ names l'.
Proof. unfold names. apply map_app. Qed.

Lemma NoDup_names_snoc (p : AbstractPredictionsProvider CI CO II IO TI TO)
    (l : list (AbstractPredictionsProvider CI CO II IO TI TO)) :
  NoDup (names l) ->
  ~ In (getProviderName p) (names l) ->
  NoDup (names (l ++ [p])).
Proof.
  intros Hnd Hnotin. rewrite names_app. simpl.
  apply NoDup_app; [exact Hnd | repeat constructor; intros [] | ].
  intros a Ha [<- | []]. contradiction.
Qed.

Lemma NoDup_names_filter (f : AbstractPredictionsProvider CI CO II IO TI TO -> bool)
    (l : list (AbstractPredictionsProvider CI CO II IO TI TO)) :
  NoDup (names l) -> NoDup (names (filter f l)).
Proof.
  unfold names. induction l as [| p l IH]; simpl; intros Hnd; [constructor |].
  inversion Hnd as [| ? ? Hnotin Hnd']; subst.
  destruct (f p); simpl; [| now apply IH].
  constructor; [| now apply IH].
  intros Hin. apply Hnotin.
  apply in_map_iff in Hin. destruct Hin as (q & Hq & Hin).
  apply filter_In in Hin. apply in_map_iff. exists q. tauto.
Qed.

(** The registry after a successful addPluggable: the pluggable is put
    at the end of the list of each capability it implements. *)
Lemma addPluggable_new (p : AbstractPredictionsProvider CI CO II IO TI TO)
    (this : PredictionsClass CI CO II IO TI TO) :
  getPluggable this (getProviderName p) = None ->
  addPluggable p this
  = (Returned tt,
     {| _convertPluggables :=
          _convertPluggables this
          ++ (if present (convert_method p) then [p] else []);
        _identifyPluggables :=
          _identifyPluggables this
          ++ (if present (identify_method p) then [p] else []);
        _interpretPluggables :=
          _interpretPluggables this
          ++ (if present (interpret_method p) then [p] else []) |}).
Proof.
  intros Hnew. unfold addPluggable. rewrite Hnew. simpl.
  unfold implementsConvertPluggable, implementsIdentifyPluggable,
    implementsInterpretPluggable.
  destruct this as [cs ds ts]. simpl.
  destruct (present (convert_method p)), (present (identify_method p)),
    (present (interpret_method p)); simpl; rewrite ?app_nil_r; reflexivity.
Qed.

Lemma find_name_optional (name : string) (b : bool)
    (p : AbstractPredictionsProvider CI CO II IO TI TO) :
  find (fun pluggable => String.eqb (getProviderName pluggable) name)
       (if b then [p] else [])
  = if b && String.eqb (getProviderName p) name then Some p else None.
Proof.
  destruct b; simpl; [| reflexivity].
  now destruct (String.eqb (getProviderName p) name).
Qed.

(** What getPluggable finds after a successful addPluggable. *)
Lemma getPluggable_after_add (p : AbstractPredictionsProvider CI CO II IO TI TO)
    (this : PredictionsClass CI CO II IO TI TO) (name : string) :
  getPluggable this (getProviderName p) = None ->
  getPluggable (snd (addPluggable p this)) name
  = match getPluggable this name with
    | Some q => Some q
    | None =>
        if implementsSome p && String.eqb (getProviderName p) name
        then Some p else None
    end.
Proof.
  intros Hnew. rewrite (addPluggable_new p this Hnew). simpl.
  unfold getPluggable, getAllProviders, implementsSome,
    implementsConvertPluggable, implementsIdentifyPluggable,
    implementsInterpretPluggable in *. simpl.
  rewrite !find_app_first in Hnew.
  rewrite !find_app_first, !find_name_optional.
  destruct (String.eqb_spec (getProviderName p) name) as [Heq | Hne].
  - subst name.
    destruct (find _ (_convertPluggables this)); [discriminate |].
    destruct (find _ (_identifyPluggables this)); [discriminate |].
    destruct (find _ (_interpretPluggables this)); [discriminate |].
    destruct (present (convert_method p)), (present (identify_method p)),
      (present (interpret_method p)); reflexivity.
  - clear Hnew. rewrite !andb_false_r.
    destruct (find _ (_convertPluggables this)); [reflexivity |].
    destruct (find _ (_identifyPluggables this)); [reflexivity |].
    destruct (find _ (_interpretPluggables this)); reflexivity.
Qed.

Lemma getPluggable_none_iff (this : PredictionsClass CI CO II IO TI TO)
    (name : string) :
  getPluggable this name = None <-> ~ In name (names (allProviders this)).
Proof. unfold getPluggable, allProviders. apply find_name_none_iff. Qed.

End Facts.

(** X7.  Adding a pluggable under a name that is not registered
    succeeds. Afterwards getPluggable finds the pluggable under its name
    if it implements at least one capability; a pluggable that
    implements none is dropped without an error, and its name stays
    unknown. Every other name resolves as before. *)
Theorem addPluggable_registers_the_name
    (CI CO II IO TI TO : Type)
    (p : AbstractPredictionsProvider CI CO II IO TI TO)
    (this : PredictionsClass CI CO II IO TI TO) :
  getPluggable this (getProviderName p) = None ->
  fst (addPluggable p this) = Returned tt
  /\ getPluggable (snd (addPluggable p this)) (getProviderName p)
     = (if implementsSome p then Some p else None)
  /\ (implementsSome p = false -> snd (addPluggable p this) = this)
  /\ (forall other,
        other <> getProviderName p ->
        getPluggable (snd (addPluggable p this)) other = getPluggable this other).
Proof.
  intros Hnew. split; [| split; [| split]].
  - now rewrite (addPluggable_new p this Hnew).
  - rewrite (getPluggable_after_add p this _ Hnew), Hnew, String.eqb_refl.
    now rewrite andb_true_r.
  - intros Hnone. rewrite (addPluggable_new p this Hnew). simpl.
    unfold implementsSome, implementsConvertPluggable,
      implementsIdentifyPluggable, implementsInterpretPluggable in Hnone.
    apply orb_false_iff in Hnone. destruct Hnone as (Hci & Ht).
    apply orb_false_iff in Hci. destruct Hci as (Hc & Hi).
    rewrite Hc, Hi, Ht, !app_nil_r. now destruct this.
  - intros other Hother.
    rewrite (getPluggable_after_add p this other Hnew).
    destruct (getPluggable this other); [reflexivity |].
    destruct (String.eqb_spec (getProviderName p) other) as [Heq | Hne];
      [congruence |].
    now rewrite andb_false_r.
Qed.

(** The sample provider, added to an empty registry, is found under
    its name. *)
Lemma addPluggable_registers_the_name_witness :
  getPluggable Samples.predictions "AmazonAIPredictionsProvider"
  = Some Samples.awsProvider.
Proof.
  exact (proj1 (proj2 (addPluggable_registers_the_name
                         string string string string string string
                         Samples.awsProvider Samples.emptyPredictions eq_refl))).
Defined.

(** X8.  addPluggable throws exactly when the name is already
    registered, for any capability, also one the new pluggable does not
    implement; the error names the pluggable and the registry is left as
    it was. *)
Theorem addPluggable_refuses_registered_name
    (CI CO II IO TI TO : Type)
    (p : AbstractPredictionsProvider CI CO II IO TI TO)
    (this : PredictionsClass CI CO II IO TI TO) :
  ((exists e, fst (addPluggable p this) = Threw e)
   <-> In (getProviderName p) (names (allProviders this)))
  /\ (forall e,
        fst (addPluggable p this) = Threw e ->
        e = Error ("Pluggable with name " ++ getProviderName p
                   ++ " has already been added.")
        /\ snd (addPluggable p this) = this).
Proof.
  destruct (getPluggable this (getProviderName p)) as [q |] eqn:Hget.
  - assert (Hin : In (getProviderName p) (names (allProviders this))).
    { destruct (in_dec string_dec (getProviderName p) (names (allProviders this)))
        as [Hin | Hnotin]; [exact Hin |].
      apply getPluggable_none_iff in Hnotin. congruence. }
    unfold addPluggable. rewrite Hget. simpl. split.
    + split; [intros _; exact Hin | intros _; eexists; reflexivity].
    + intros e He. injection He as <-. split; reflexivity.
  - rewrite (addPluggable_new p this Hget). simpl. split.
    + split; [intros (e & He); discriminate |].
      intros Hin. apply getPluggable_none_iff in Hget. contradiction.
    + intros e He. discriminate.
Qed.

(** X9.  removePluggable forgets the name in every capability and leaves
    every other name as it resolved before; it never throws, also for a
    name that was not registered. *)
Theorem removePluggable_forgets_only_the_name
    (CI CO II IO TI TO : Type)
    (this : PredictionsClass CI CO II IO TI TO) (name : string) :
  fst (removePluggable name this) = Returned tt
  /\ getPluggable (snd (removePluggable name this)) name = None
  /\ ~ In name (names (allProviders (snd (removePluggable name this))))
  /\ (forall other,
        other <> name ->
        getPluggable (snd (removePluggable name this)) other
        = getPluggable this other).
Proof.
  assert (Hget : forall other,
            getPluggable (snd (removePluggable name this)) other
            = if String.eqb other name then None else getPluggable this other).
  { intros other. unfold removePluggable, getPluggable, getAllProviders.
    js_unfold. simpl.
    rewrite !find_app_first, !find_name_filter.
    destruct (String.eqb other name); reflexivity. }
  split; [reflexivity |].
  split; [rewrite Hget; now rewrite String.eqb_refl |].
  split.
  - apply getPluggable_none_iff. rewrite Hget. now rewrite String.eqb_refl.
  - intros other Hother. rewrite Hget.
    destruct (String.eqb_spec other name); [contradiction | reflexivity].
Qed.

Section Dispatch.

Context {CI CO II IO TI TO : Type}.

Lemma not_in_names_app (name : string)
    (l l' : list (AbstractPredictionsProvider CI CO II IO TI TO)) :
  ~ In name (names (l ++ l')) -> ~ In name (names l) /\ ~ In name (names l').
Proof.
  rewrite names_app. intros H. split; intros Hin; apply H; apply in_or_app; tauto.
Qed.

(** A chosen pluggable is the one getPluggableToExecute returns, when
    no name occurs twice in the list. *)
Lemma chosen_is_returned (options : option ProviderOptions)
    (l : list (AbstractPredictionsProvider CI CO II IO TI TO))
    (p : AbstractPredictionsProvider CI CO II IO TI TO) :
  NoDup (names l) ->
  chooses options l p ->
  getPluggableToExecute l options = Returned (Some p).
Proof.
  intros Hnd [(Hname & Hne & Hin) | (Hnone & ->)]; unfold getPluggableToExecute.
  - rewrite Hname. simpl.
    rewrite (proj2 (truthy_true_iff _) Hne).
    now rewrite (find_name_unique p l Hnd Hin).
  - rewrite Hnone. reflexivity.
Qed.

End Dispatch.

(** X10.  The registry keeps its shape: a new registry is well formed,
    and addPluggable and removePluggable keep it so, whether they
    succeed or not. Each capability list holds only pluggables that
    implement the capability, and holds no name twice. *)
Theorem registry_stays_well_formed (CI CO II IO TI TO : Type) :
  wellFormed (@emptyRegistry CI CO II IO TI TO)
  /\ (forall (this : PredictionsClass CI CO II IO TI TO) p,
        wellFormed this -> wellFormed (snd (addPluggable p this)))
  /\ (forall (this : PredictionsClass CI CO II IO TI TO) name,
        wellFormed this -> wellFormed (snd (removePluggable name this))).
Proof.
  split; [| split].
  - repeat split; constructor.
  - intros this p ((Hc & Hi & Ht) & (Hnc & Hni & Hnt)).
    destruct (getPluggable this (getProviderName p)) as [q |] eqn:Hget.
    + unfold addPluggable. rewrite Hget. simpl. repeat split; assumption.
    + rewrite (addPluggable_new p this Hget). simpl.
      apply getPluggable_none_iff in Hget. unfold allProviders, getAllProviders in Hget.
      apply not_in_names_app in Hget. destruct Hget as (Hpc & Hrest).
      apply not_in_names_app in Hrest. destruct Hrest as (Hpi & Hpt).
      split; [split; [| split] | split; [| split]].
      * apply Forall_app. split; [exact Hc |].
        destruct (present (convert_method p)) eqn:Hp; repeat constructor; exact Hp.
      * apply Forall_app. split; [exact Hi |].
        destruct (present (identify_method p)) eqn:Hp; repeat constructor; exact Hp.
      * apply Forall_app. split; [exact Ht |].
        destruct (present (interpret_method p)) eqn:Hp; repeat constructor; exact Hp.
      * destruct (present (convert_method p));
          [now apply NoDup_names_snoc | now rewrite app_nil_r].
      * destruct (present (identify_method p));
          [now apply NoDup_names_snoc | now rewrite app_nil_r].
      * destruct (present (interpret_method p));
          [now apply NoDup_names_snoc | now rewrite app_nil_r].
  - intros this name ((Hc & Hi & Ht) & (Hnc & Hni & Hnt)).
    assert (Hkeep : forall (P : AbstractPredictionsProvider CI CO II IO TI TO
                                -> Prop) f l,
              Forall P l -> Forall P (filter f l)).
    { intros P f l Hall. apply Forall_forall. intros q Hq.
      apply filter_In in Hq. destruct Hq as (Hq & _).
      exact (proj1 (Forall_forall P l) Hall q Hq). }
    unfold removePluggable. js_unfold. simpl.
    split; [split; [| split] | split; [| split]].
    + now apply Hkeep.
    + now apply Hkeep.
    + now apply Hkeep.
    + now apply NoDup_names_filter.
    + now apply NoDup_names_filter.
    + now apply NoDup_names_filter.
Qed.

(** X11.  In a well-formed registry a dispatch that chooses a pluggable
    of the capability, by its name or as the only one, runs the method
    of exactly that pluggable and returns its result; the registry is
    not changed. It holds for convert, identify and interpret. *)
Theorem dispatch_runs_the_chosen_pluggable
    (CI CO II IO TI TO : Type)
    (this : PredictionsClass CI CO II IO TI TO)
    (options : option ProviderOptions)
    (p : AbstractPredictionsProvider CI CO II IO TI TO) :
  wellFormed this ->
  (chooses options (_convertPluggables this) p ->
   exists method,
     convert_method p = Some method
     /\ forall input,
          convert input options this = (Returned (method input), this))
  /\ (chooses options (_identifyPluggables this) p ->
      exists method,
        identify_method p = Some method
        /\ forall input,
             identify input options this = (Returned (method input), this))
  /\ (chooses options (_interpretPluggables this) p ->
      exists method,
        interpret_method p = Some method
        /\ forall input,
             interpret input options this = (Returned (method input), this)).
Proof.
  intros ((Hc & Hi & Ht) & (Hnc & Hni & Hnt)).
  assert (Hin : forall l, chooses options l p -> In p l).
  { intros l [(_ & _ & Hin) | (_ & ->)]; [exact Hin | left; reflexivity]. }
  split; [| split]; intros Hch.
  - pose proof (proj1 (Forall_forall _ _) Hc p (Hin _ Hch)) as Hp.
    cbv beta in Hp.
    destruct (convert_method p) as [method |] eqn:Hm; [| discriminate Hp].
    exists method. split; [reflexivity |]. intros input.
    unfold convert. js_unfold.
    rewrite (chosen_is_returned options _ p Hnc Hch). simpl.
    unfold invoke. now rewrite Hm.
  - pose proof (proj1 (Forall_forall _ _) Hi p (Hin _ Hch)) as Hp.
    cbv beta in Hp.
    destruct (identify_method p) as [method |] eqn:Hm; [| discriminate Hp].
    exists method. split; [reflexivity |]. intros input.
    unfold identify. js_unfold.
    rewrite (chosen_is_returned options _ p Hni Hch). simpl.
    unfold invoke. now rewrite Hm.
  - pose proof (proj1 (Forall_forall _ _) Ht p (Hin _ Hch)) as Hp.
    cbv beta in Hp.
    destruct (interpret_method p) as [method |] eqn:Hm; [| discriminate Hp].
    exists method. split; [reflexivity |]. intros input.
    unfold interpret. js_unfold.
    rewrite (chosen_is_returned options _ p Hnt Hch). simpl.
    unfold invoke. now rewrite Hm.
Qed.

(** The sample registry is well formed, and a call that names the
    sample provider runs its convert method. *)
Lemma dispatch_runs_the_chosen_pluggable_witness :
  exists method,
    convert_method Samples.awsProvider = Some method
    /\ forall input,
         convert input (Samples.named "AmazonAIPredictionsProvider")
                 Samples.predictions
         = (Returned (method input), Samples.predictions).
Proof.
  assert (Hwf : wellFormed Samples.predictions).
  { repeat split; repeat constructor; simpl; intros H; exact H. }
  refine (proj1 (dispatch_runs_the_chosen_pluggable
                   string string string string string string
                   Samples.predictions
                   (Samples.named "AmazonAIPredictionsProvider")
                   Samples.awsProvider Hwf) _).
  left. split; [reflexivity |]. split; [discriminate | left; reflexivity].
Defined.

End PredictionsMore.

(* ===================================================================== *)
(** ** The CognitoProvider facade: the other operations *)
(* ===================================================================== *)

Module CognitoProviderMore.
Import CognitoProvider.

Lemma getItem_removeItem (st : Storage) (k k' : string) :
  getItem (removeItem st k) k'
  = if String.eqb k' k then None else getItem st k'.
Proof.
  unfold removeItem. induction st as [| [key v] st IH]; simpl.
  - now destruct (String.eqb k' k).
  - destruct (String.eqb_spec key k) as [Hk | Hk]; simpl.
    + rewrite IH. destruct (String.eqb_spec k' k) as [Hk' | Hk']; [reflexivity |].
      destruct (String.eqb_spec key k'); [congruence | reflexivity].
    + destruct (String.eqb_spec key k') as [Hkk' | Hkk'].
      * destruct (String.eqb_spec k' k); [congruence | reflexivity].
      * exact IH.
Qed.

Lemma truthy_opt_some (o : option string) :
  truthy_opt o = true -> exists c rest, o = Some (String c rest).
Proof.
  destruct o as [[| c rest] |]; simpl; try discriminate.
  intros _. now exists c, rest.
Qed.

Section Facts.

Variable xstate : XState.
Variable JSON_parse : string -> Completion ProviderThrown (option SessionData).
Variable getExpirationTimeFromJWT : string -> Completion ProviderThrown Z.
Variable decodeJWT_sub : string -> Completion ProviderThrown (option string).
Variable remoteGetId :
  string -> string -> string -> Completion ProviderThrown (option string).
Variable remoteGetCredentialsForIdentity :
  string -> string -> string -> Completion ProviderThrown (option IdentityCredentials).
Variable remoteGetUser : string -> Completion ProviderThrown unit.

Let fetch := fetchSession JSON_parse getExpirationTimeFromJWT decodeJWT_sub
                          remoteGetId remoteGetCredentialsForIdentity
                          remoteGetUser.

(** fetchSession changes nothing but the list of remote commands, and
    its result does not depend on that list. *)
Lemma fetchSession_frame (this : CognitoProvider) :
  _authService (snd (fetch this)) = _authService this
  /\ _config (snd (fetch this)) = _config this
  /\ _userStorage (snd (fetch this)) = _userStorage this
  /\ _authFlow (snd (fetch this)) = _authFlow this
  /\ hubEvents (snd (fetch this)) = hubEvents this.
Proof.
  unfold fetch, fetchSession, getSessionData, remote_send. js_unfold.
  destruct (isConfigured this); simpl; [| repeat split].
  destruct (region (_config this)) as [[| c r] |]; simpl; try (repeat split; fail).
  destruct (identityPoolId (_config this)) as [[| c' ip] |]; simpl;
    try (repeat split; fail).
  destruct (match getItem (_userStorage this) COGNITO_CACHE_KEY with
            | Some cached => JSON_parse cached
            | None => Returned None
            end) as [[session |] | e]; simpl; try (repeat split; fail).
  destruct (getExpirationTimeFromJWT _) as [z | e]; simpl; try (repeat split; fail).
  destruct (remoteGetId _ _ _) as [[[| c'' iid] |] | e]; simpl;
    try (repeat split; fail).
  destruct (remoteGetCredentialsForIdentity _ _ _) as [[creds |] | e]; simpl;
    try (repeat split; fail).
  destruct (remoteGetUser _) as [[] | e]; simpl; try (repeat split; fail).
  destruct (decodeJWT_sub _) as [sub | e]; simpl; repeat split.
Qed.

Lemma fetchSession_ignores_commands (this : CognitoProvider)
    (commands : list RemoteCommand) :
  fst (fetch {| _authService := _authService this;
                _config := _config this;
                _userStorage := _userStorage this;
                _authFlow := _authFlow this;
                remoteCommands := commands;
                hubEvents := hubEvents this |})
  = fst (fetch this).
Proof.
  unfold fetch, fetchSession, getSessionData, remote_send, isConfigured.
  js_unfold. simpl.
  destruct (truthy_opt (userPoolId (_config this))
            && truthy_opt (region (_config this))); simpl; [| reflexivity].
  destruct (region (_config this)) as [[| c r] |]; simpl; try reflexivity.
  destruct (identityPoolId (_config this)) as [[| c' ip] |]; simpl;
    try reflexivity.
  destruct (match getItem (_userStorage this) COGNITO_CACHE_KEY with
            | Some cached => JSON_parse cached
            | None => Returned None
            end) as [[session |] | e]; simpl; try reflexivity.
  destruct (getExpirationTimeFromJWT _) as [z | e]; simpl; try reflexivity.
  destruct (remoteGetId _ _ _) as [[[| c'' iid] |] | e]; simpl; try reflexivity.
  destruct (remoteGetCredentialsForIdentity _ _ _) as [[creds |] | e]; simpl;
    try reflexivity.
  destruct (remoteGetUser _) as [[] | e]; simpl; try reflexivity.
  destruct (decodeJWT_sub _) as [sub | e]; simpl; reflexivity.
Qed.

(** The successful path of fetchSession, step by step. *)
Lemma fetchSession_succeeds (this : CognitoProvider)
    (c : Ascii.ascii) (r : string) (c' : Ascii.ascii) (ip : string)
    (cached : string) (session : SessionData) (z : Z)
    (c'' : Ascii.ascii) (iid : string)
    (creds : IdentityCredentials) (sub : option string) :
  let region := String c r in
  let pool := String c' ip in
  let identity := String c'' iid in
  let key := FacadeSpec.loginKey region
               (nullish (userPoolId (_config this)) "undefined") in
  isConfigured this = true ->
  CognitoProvider.region (_config this) = Some region ->
  identityPoolId (_config this) = Some pool ->
  getItem (_userStorage this) COGNITO_CACHE_KEY = Some cached ->
  JSON_parse cached = Returned (Some session) ->
  getExpirationTimeFromJWT (idToken session) = Returned z ->
  remoteGetId pool key (idToken session) = Returned (Some identity) ->
  remoteGetCredentialsForIdentity identity key (idToken session)
  = Returned (Some creds) ->
  remoteGetUser (accessToken session) = Returned tt ->
  decodeJWT_sub (idToken session) = Returned sub ->
  fetch this
  = (Returned
       {| sessionId := "";
          userid := sub;
          jwt := (idToken session, accessToken session, refreshToken session);
          aws := {| accessKeyId := AccessKeyId creds;
                    secretAccessKey := SecretKey creds;
                    sessionToken := SessionToken creds;
                    awsExpiration := Expiration creds |} |},
     FacadeSpec.withCommands this
       [GetIdCommand pool key (idToken session);
        GetCredentialsForIdentityCommand identity key (idToken session);
        GetUserCommand (accessToken session)]).
Proof.
  intros region0 pool identity key Hc Hr Hp Hitem Hparse Hexp Hid Hcreds Huser Hsub.
  subst region0 pool identity key.
  unfold fetch, fetchSession, getSessionData, remote_send,
    FacadeSpec.withCommands, FacadeSpec.loginKey in *.
  js_unfold. rewrite Hc, Hr, Hp. simpl. rewrite Hitem, Hparse. simpl.
  rewrite Hexp. simpl. simpl in Hid. rewrite Hid. simpl.
  simpl in Hcreds. rewrite Hcreds. simpl.
  rewrite Huser. simpl. rewrite Hsub. simpl.
  now rewrite <- !app_assoc.
Qed.

End Facts.

(** X12.  fetchSession of a configured provider with an identity pool
    and cached tokens asks the identity pool for the identity, then for
    its credentials, then the user pool for the user, in this order and
    once each, presenting the cached id token under the key
    cognito-idp.<region>.amazonaws.com/<user pool id>. It returns the
    cached tokens unchanged with the credentials of the response. *)
Theorem fetchSession_exchanges_cached_tokens
    (JSON_parse : string -> Completion ProviderThrown (option SessionData))
    (getExpirationTimeFromJWT : string -> Completion ProviderThrown Z)
    (decodeJWT_sub : string -> Completion ProviderThrown (option string))
    (remoteGetId : string -> string -> string ->
                   Completion ProviderThrown (option string))
    (remoteGetCredentialsForIdentity :
       string -> string -> string ->
       Completion ProviderThrown (option IdentityCredentials))
    (remoteGetUser : string -> Completion ProviderThrown unit)
    (this : CognitoProvider)
    (region userPool pool cached identity : string)
    (session : SessionData) (z : Z)
    (creds : IdentityCredentials) (sub : option string) :
  userPoolId (_config this) = Some userPool ->
  CognitoProvider.region (_config this) = Some region ->
  identityPoolId (_config this) = Some pool ->
  userPool <> "" -> region <> "" -> pool <> "" -> identity <> "" ->
  getItem (_userStorage this) COGNITO_CACHE_KEY = Some cached ->
  JSON_parse cached = Returned (Some session) ->
  getExpirationTimeFromJWT (idToken session) = Returned z ->
  remoteGetId pool (FacadeSpec.loginKey region userPool) (idToken session)
  = Returned (Some identity) ->
  remoteGetCredentialsForIdentity identity (FacadeSpec.loginKey region userPool)
                                  (idToken session)
  = Returned (Some creds) ->
  remoteGetUser (accessToken session) = Returned tt ->
  decodeJWT_sub (idToken session) = Returned sub ->
  fetchSession JSON_parse getExpirationTimeFromJWT decodeJWT_sub remoteGetId
               remoteGetCredentialsForIdentity remoteGetUser this
  = (Returned
       {| sessionId := "";
          userid := sub;
          jwt := (idToken session, accessToken session, refreshToken session);
          aws := {| accessKeyId := AccessKeyId creds;
                    secretAccessKey := SecretKey creds;
                    sessionToken := SessionToken creds;
                    awsExpiration := Expiration creds |} |},
     FacadeSpec.withCommands this
       [GetIdCommand pool (FacadeSpec.loginKey region userPool) (idToken session);
        GetCredentialsForIdentityCommand
          identity (FacadeSpec.loginKey region userPool) (idToken session);
        GetUserCommand (accessToken session)]).
Proof.
  intros Hup Hr Hp Hupne Hrne Hpne Hine Hitem Hparse Hexp Hid Hcreds Huser Hsub.
  destruct region as [| c r]; [contradiction |].
  destruct pool as [| c' ip]; [contradiction |].
  destruct identity as [| c'' iid]; [contradiction |].
  assert (Hc : isConfigured this = true).
  { unfold isConfigured. rewrite Hup, Hr. simpl.
    rewrite (proj2 (truthy_true_iff userPool) Hupne). reflexivity. }
  pose proof (fetchSession_succeeds JSON_parse getExpirationTimeFromJWT
                decodeJWT_sub remoteGetId remoteGetCredentialsForIdentity
                remoteGetUser this c r c' ip cached session z c'' iid creds sub)
    as Hrun.
  cbv zeta in Hrun. rewrite Hup in Hrun. simpl nullish in Hrun.
  now apply Hrun.
Qed.

(** The sample provider with its cached tokens. *)
Lemma fetchSession_exchanges_cached_tokens_witness :
  fst (fetchSession FacadeSpec.JSON_parse (fun _ => Returned 0%Z)
         (fun _ => Returned (Some "sub-1"))
         (fun _ _ _ => Returned (Some "us-east-1:identity"))
         (fun _ _ _ => Returned (Some FacadeSpec.identityCredentials))
         (fun _ => Returned tt) FacadeSpec.signedInProvider)
  = Returned
      {| sessionId := "";
         userid := Some "sub-1";
         jwt := ("id", "access", "refresh");
         aws := {| accessKeyId := Some "AKIA";
                   secretAccessKey := Some "secret";
                   sessionToken := Some "token";
                   awsExpiration := Some 1700003600000%Z |} |}.
Proof.
  exact (f_equal fst
           (fetchSession_exchanges_cached_tokens
              FacadeSpec.JSON_parse (fun _ => Returned 0%Z)
              (fun _ => Returned (Some "sub-1"))
              (fun _ _ _ => Returned (Some "us-east-1:identity"))
              (fun _ _ _ => Returned (Some FacadeSpec.identityCredentials))
              (fun _ => Returned tt) FacadeSpec.signedInProvider
              "us-east-1" "us-east-1_abc" "us-east-1:pool" "{tokens}"
              "us-east-1:identity" FacadeSpec.cachedSession 0%Z
              FacadeSpec.identityCredentials (Some "sub-1")
              eq_refl eq_refl eq_refl
              ltac:(discriminate) ltac:(discriminate) ltac:(discriminate)
              ltac:(discriminate)
              eq_refl eq_refl eq_refl eq_refl eq_refl eq_refl eq_refl)).
Defined.

(** X13.  fetchSession only reads: it leaves the machine, the
    configuration, the storage and the hub as they were and only adds
    remote commands, at most three. A second call therefore gets what
    the first one got when the collaborators answer alike: nothing is
    refreshed or cached in between. *)
Theorem fetchSession_only_reads
    (JSON_parse : string -> Completion ProviderThrown (option SessionData))
    (getExpirationTimeFromJWT : string -> Completion ProviderThrown Z)
    (decodeJWT_sub : string -> Completion ProviderThrown (option string))
    (remoteGetId : string -> string -> string ->
                   Completion ProviderThrown (option string))
    (remoteGetCredentialsForIdentity :
       string -> string -> string ->
       Completion ProviderThrown (option IdentityCredentials))
    (remoteGetUser : string -> Completion ProviderThrown unit)
    (this : CognitoProvider) :
  (exists commands,
     snd (fetchSession JSON_parse getExpirationTimeFromJWT decodeJWT_sub
            remoteGetId remoteGetCredentialsForIdentity remoteGetUser this)
     = FacadeSpec.withCommands this commands
     /\ length commands <= 3)
  /\ fst (fetchSession JSON_parse getExpirationTimeFromJWT decodeJWT_sub
            remoteGetId remoteGetCredentialsForIdentity remoteGetUser
            (snd (fetchSession JSON_parse getExpirationTimeFromJWT decodeJWT_sub
                    remoteGetId remoteGetCredentialsForIdentity remoteGetUser
                    this)))
     = fst (fetchSession JSON_parse getExpirationTimeFromJWT decodeJWT_sub
              remoteGetId remoteGetCredentialsForIdentity remoteGetUser this).
Proof.
  assert (Hcommands : exists commands,
            snd (fetchSession JSON_parse getExpirationTimeFromJWT decodeJWT_sub
                   remoteGetId remoteGetCredentialsForIdentity remoteGetUser this)
            = FacadeSpec.withCommands this commands
            /\ length commands <= 3).
  { assert (Hnil : this = FacadeSpec.withCommands this []).
    { unfold FacadeSpec.withCommands. rewrite app_nil_r. now destruct this. }
    unfold fetchSession, getSessionData, remote_send. js_unfold.
    destruct (isConfigured this); simpl;
      [| exists []; split; [exact Hnil | simpl; lia]].
    destruct (region (_config this)) as [[| c r] |]; simpl;
      try (exists []; split; [exact Hnil | simpl; lia]).
    destruct (identityPoolId (_config this)) as [[| c' ip] |]; simpl;
      try (exists []; split; [exact Hnil | simpl; lia]).
    destruct (match getItem (_userStorage this) COGNITO_CACHE_KEY with
              | Some cached => JSON_parse cached
              | None => Returned None
              end) as [[session |] | e]; simpl;
      try (exists []; split; [exact Hnil | simpl; lia]).
    destruct (getExpirationTimeFromJWT _) as [z | e]; simpl;
      try (exists []; split; [exact Hnil | simpl; lia]).
    destruct (remoteGetId _ _ _) as [[[| c'' iid] |] | e]; simpl;
      try (eexists [_]; split; [reflexivity | simpl; lia]).
    destruct (remoteGetCredentialsForIdentity _ _ _) as [[creds |] | e]; simpl;
      try (eexists [_; _]; unfold FacadeSpec.withCommands;
           rewrite <- app_assoc; split; [reflexivity | simpl; lia]).
    destruct (remoteGetUser _) as [[] | e]; simpl;
      try (eexists [_; _; _]; unfold FacadeSpec.withCommands;
           rewrite <- !app_assoc; split; [reflexivity | simpl; lia]).
    destruct (decodeJWT_sub _) as [sub | e]; simpl;
      eexists [_; _; _]; unfold FacadeSpec.withCommands;
      rewrite <- !app_assoc; (split; [reflexivity | simpl; lia]). }
  split; [exact Hcommands |].
  destruct Hcommands as (commands & -> & _).
  apply (fetchSession_ignores_commands JSON_parse getExpirationTimeFromJWT
           decodeJWT_sub remoteGetId remoteGetCredentialsForIdentity
           remoteGetUser this).
Qed.

(** X14.  signOut always succeeds and is purely local: it removes the
    cached tokens from the storage and keeps every other key, announces
    'signOut' on the hub and issues no remote command. Afterwards
    fetchSession of a configured provider with an identity pool fails
    with the Error of a missing session, before any remote command. *)
Theorem signOut_forgets_the_session
    (JSON_parse : string -> Completion ProviderThrown (option SessionData))
    (getExpirationTimeFromJWT : string -> Completion ProviderThrown Z)
    (decodeJWT_sub : string -> Completion ProviderThrown (option string))
    (remoteGetId : string -> string -> string ->
                   Completion ProviderThrown (option string))
    (remoteGetCredentialsForIdentity :
       string -> string -> string ->
       Completion ProviderThrown (option IdentityCredentials))
    (remoteGetUser : string -> Completion ProviderThrown unit)
    (this : CognitoProvider) :
  fst (signOut this) = Returned tt
  /\ getItem (_userStorage (snd (signOut this))) COGNITO_CACHE_KEY = None
  /\ (forall k,
        k <> COGNITO_CACHE_KEY ->
        getItem (_userStorage (snd (signOut this))) k
        = getItem (_userStorage this) k)
  /\ remoteCommands (snd (signOut this)) = remoteCommands this
  /\ hubEvents (snd (signOut this)) = hubEvents this ++ ["signOut"]
  /\ _config (snd (signOut this)) = _config this
  /\ (isConfigured this = true ->
      truthy_opt (identityPoolId (_config this)) = true ->
      fetchSession JSON_parse getExpirationTimeFromJWT decodeJWT_sub remoteGetId
                   remoteGetCredentialsForIdentity remoteGetUser
                   (snd (signOut this))
      = (Threw (Error
           "Does not have active user session, have you called .signIn?"),
         snd (signOut this))).
Proof.
  unfold signOut, clearCachedTokens, dispatchAuthEvent. js_unfold. simpl.
  split; [reflexivity |].
  split; [rewrite getItem_removeItem; now rewrite String.eqb_refl |].
  split.
  { intros k Hk. rewrite getItem_removeItem.
    destruct (String.eqb_spec k COGNITO_CACHE_KEY); [contradiction | reflexivity]. }
  split; [reflexivity |]. split; [reflexivity |]. split; [reflexivity |].
  intros Hc Hpool.
  unfold fetchSession, getSessionData, isConfigured in *. js_unfold. simpl.
  rewrite Hc. simpl.
  apply andb_true_iff in Hc. destruct Hc as (_ & Hregion).
  destruct (truthy_opt_some _ Hregion) as (c & r & ->).
  destruct (truthy_opt_some _ Hpool) as (c' & ip & ->).
  simpl. rewrite getItem_removeItem, String.eqb_refl. reflexivity.
Qed.

(** The sample provider holds cached tokens and a theme: after signOut
    the theme is still there and fetchSession finds no session. *)
Lemma signOut_forgets_the_session_witness :
  getItem (_userStorage (snd (signOut FacadeSpec.signedInProvider))) "theme"
  = Some "dark"
  /\ fetchSession FacadeSpec.JSON_parse (fun _ => Returned 0%Z)
       (fun _ => Returned None) (fun _ _ _ => Returned None)
       (fun _ _ _ => Returned None) (fun _ => Returned tt)
       (snd (signOut FacadeSpec.signedInProvider))
     = (Threw (Error
          "Does not have active user session, have you called .signIn?"),
        snd (signOut FacadeSpec.signedInProvider)).
Proof.
  destruct (signOut_forgets_the_session
              FacadeSpec.JSON_parse (fun _ => Returned 0%Z)
              (fun _ => Returned None) (fun _ _ _ => Returned None)
              (fun _ _ _ => Returned None) (fun _ => Returned tt)
              FacadeSpec.signedInProvider)
    as (_ & _ & Hkeys & _ & _ & _ & Hfetch).
  split.
  - rewrite (Hkeys "theme"); [reflexivity | discriminate].
  - exact (Hfetch eq_refl eq_refl).
Defined.

(** X15.  completeNewPassword tests for signedIn where confirmSignIn
    tests for signingIn. While the machine is in signingIn, where a new
    password can be asked for, it throws a usage error and sends
    nothing; a password that is not empty is sent to the actor only when
    the machine is in signedIn and holds one. *)
Theorem completeNewPassword_needs_signedIn
    (xstate : XState) (newPassword : string)
    (requiredAttributes : option StringMap) (this : CognitoProvider) :
  (matches (_authService this) "signingIn" = true ->
   exists message,
     completeNewPassword xstate newPassword requiredAttributes this
     = (Threw (Error message), this))
  /\ (truthy newPassword = true ->
      (present (actorRef (_authService this))
       && matches (_authService this) "signedIn" = true ->
       completeNewPassword xstate newPassword requiredAttributes this
       = waitForSignInComplete xstate
           (afterActorSend
              (FacadeSpec.newPasswordResponse newPassword requiredAttributes)
              this))
      /\ (present (actorRef (_authService this))
          && matches (_authService this) "signedIn" = false ->
          completeNewPassword xstate newPassword requiredAttributes this
          = (Threw (Error SIGN_IN_NOT_INITIATED), this))).
Proof.
  split.
  - intros Hstate.
    assert (Hnot : isSigningIn this = false).
    { unfold isSigningIn.
      apply (CognitoProviderProps.matches_exclusive _ "signingIn");
        [exact Hstate | discriminate]. }
    unfold completeNewPassword. js_unfold.
    destruct (truthy newPassword); simpl; [| eexists; reflexivity].
    rewrite Hnot, orb_true_r. eexists; reflexivity.
  - intros Hpw. unfold completeNewPassword, isSigningIn. js_unfold.
    rewrite Hpw. simpl. rewrite <- negb_andb. split; intros Hguard.
    + rewrite Hguard. simpl.
      unfold afterActorSend, actor_send, FacadeSpec.newPasswordResponse.
      apply andb_true_iff in Hguard. destruct Hguard as (Hactor & _).
      destruct (actorRef (_authService this)); [reflexivity | discriminate].
    + rewrite Hguard. reflexivity.
Qed.

(** The suspended sample provider waits for a challenge response, and
    completeNewPassword refuses to give one. *)
Lemma completeNewPassword_needs_signedIn_witness :
  exists message,
    completeNewPassword Samples.idleMachines "N3w-password" None
                        Samples.suspendedProvider
    = (Threw (Error message), Samples.suspendedProvider).
Proof.
  exact (proj1 (completeNewPassword_needs_signedIn
                  Samples.idleMachines "N3w-password" None
                  Samples.suspendedProvider)
               eq_refl).
Defined.

(** X16.  confirmSignUp refuses with its usage error only when the
    machine holds no actor and is not in signingUp. Whenever the machine
    holds an actor, in any state, the confirmation is sent to that
    actor; and in signingUp without an actor the call fails where it
    first uses the actor, at the subscription, with the TypeError of
    reading 'subscribe' of undefined. The provider is unchanged whenever
    the call throws here. *)
Theorem confirmSignUp_guard
    (xstate : XState) (params : ConfirmSignUpParams) (this : CognitoProvider) :
  (actorRef (_authService this) = None ->
   matches (_authService this) "signingUp" = false ->
   confirmSignUp xstate params this
   = (Threw (Error
        "Sign up proccess has not been initiated, have you called .signUp?"),
      this))
  /\ (actorRef (_authService this) = None ->
      matches (_authService this) "signingUp" = true ->
      confirmSignUp xstate params this
      = (Threw (TypeError
           "Cannot read properties of undefined (reading 'subscribe')"),
         this))
  /\ (forall actor,
        actorRef (_authService this) = Some actor ->
        confirmSignUp xstate params this
        = waitForSignUpComplete xstate
            (afterActorSend (confirmSignUpEvent params) this)
        /\ actorRef (_authService
                       (afterActorSend (confirmSignUpEvent params) this))
           = Some {| actorState := actorState actor;
                     actorInbox := actorInbox actor
                                   ++ [confirmSignUpEvent params] |}).
Proof.
  unfold confirmSignUp, afterActorSend, actor_send, actor_subscribe. js_unfold.
  split; [| split].
  - intros Hactor Hstate. rewrite Hactor, Hstate. reflexivity.
  - intros Hactor Hstate. rewrite Hactor, Hstate. simpl.
    rewrite Hactor. reflexivity.
  - intros actor Hactor. rewrite !Hactor. simpl. rewrite !Hactor. simpl.
    split; reflexivity.
Qed.

(** A signed-out provider without an actor refuses the confirmation. *)
Lemma confirmSignUp_guard_witness :
  confirmSignUp Samples.idleMachines
                {| confirmUsername := "ann"; confirmationCode := "123456" |}
                Samples.signedOutProvider
  = (Threw (Error
       "Sign up proccess has not been initiated, have you called .signUp?"),
     Samples.signedOutProvider).
Proof.
  exact (proj1 (confirmSignUp_guard
                  Samples.idleMachines
                  {| confirmUsername := "ann"; confirmationCode := "123456" |}
                  Samples.signedOutProvider)
               eq_refl eq_refl).
Defined.

(** X17.  What waitForSignInComplete reports, whatever the machines do
    during its waits: success is reported only if the authentication
    machine is in signedIn when the waits are over, and a result that
    reports success or a next step is returned only if the machine is
    not in its error state then; in that state the error of the
    machine's context is thrown instead. *)
Theorem waitForSignInComplete_reports_the_final_state
    (xstate : XState) (this : CognitoProvider) (result : SignInResult) :
  fst (waitForSignInComplete xstate this) = Returned result ->
  (signInSuccesful result = true ->
   matches (_authService (snd (waitForSignInComplete xstate this))) "signedIn"
   = true)
  /\ (signInSuccesful result = true \/ nextStep result = true ->
      matches (_authService (snd (waitForSignInComplete xstate this))) "error"
      = false).
Proof.
  unfold waitForSignInComplete. js_unfold.
  destruct (waitFor xstate _ this) as [[state | e] w1]; simpl; [| discriminate].
  destruct (actorRef state) as [actor |]; simpl.
  - destruct (raceWaitFor xstate _ _ w1) as [[[] | e] w2]; simpl; [| discriminate].
    destruct (matches (_authService w2) "error") eqn:Herr; simpl; [discriminate |].
    intros Hr. injection Hr as <-. simpl. split; [tauto | intros _; exact Herr].
  - intros Hr. injection Hr as <-. simpl.
    split; [discriminate | intros [H | H]; discriminate].
Qed.

(** With machines that do not move, the suspended sample provider
    reports a next step and no success. *)
Lemma waitForSignInComplete_reports_the_final_state_witness :
  fst (waitForSignInComplete Samples.idleMachines Samples.suspendedProvider)
  = Returned {| signInSuccesful := false; nextStep := true |}
  /\ matches (_authService
                (snd (waitForSignInComplete Samples.idleMachines
                                            Samples.suspendedProvider)))
             "error"
     = false.
Proof.
  split; [reflexivity |].
  exact (proj2 (waitForSignInComplete_reports_the_final_state
                  Samples.idleMachines Samples.suspendedProvider
                  {| signInSuccesful := false; nextStep := true |} eq_refl)
               (or_intror eq_refl)).
Defined.

(** X18.  configure decides whether the provider counts as configured. A
    configuration with a user pool id and a region replaces the stored
    one, so the provider is configured afterwards whatever it held, and
    the storage is replaced only when the configuration brings one. A
    configuration without them is refused and changes nothing: the
    provider stays as configured as it was. *)
Theorem configure_decides_isConfigured
    (handlingOAuthCodeResponse : bool)
    (config : PluginConfig) (this : CognitoProvider) :
  isConfigured (snd (configure handlingOAuthCodeResponse config this))
  = (if lacksPoolOrRegion config then isConfigured this else true)
  /\ _userStorage (snd (configure handlingOAuthCodeResponse config this))
     = (if lacksPoolOrRegion config then _userStorage this
        else match storage config with
             | Some given => given
             | None => _userStorage this
             end)
  /\ (lacksPoolOrRegion config = false ->
      fst (configure handlingOAuthCodeResponse config this) = Returned tt
      /\ userPoolId (_config (snd (configure handlingOAuthCodeResponse config this)))
         = userPoolId config
      /\ region (_config (snd (configure handlingOAuthCodeResponse config this)))
         = region config
      /\ identityPoolId
           (_config (snd (configure handlingOAuthCodeResponse config this)))
         = identityPoolId config).
Proof.
  destruct (lacksPoolOrRegion config) eqn:Hlack.
  - rewrite (CognitoProviderProps.configure_invalid handlingOAuthCodeResponse
               config this Hlack).
    simpl. split; [reflexivity |]. split; [reflexivity |]. discriminate.
  - destruct (CognitoProviderProps.configure_valid handlingOAuthCodeResponse
                config this Hlack) as (Hret & Hconf & _).
    split; [exact Hconf |].
    unfold configure in *. unfold lacksPoolOrRegion in Hlack. rewrite Hlack in *.
    unfold authService_send. js_unfold. simpl.
    destruct handlingOAuthCodeResponse; simpl; repeat split;
      now destruct (storage config).
Qed.

End CognitoProviderMore.

(* ===================================================================== *)
(** ** The OAuth redirect test and the GraphQL configuration *)
(* ===================================================================== *)

Module ConfigMore.

Lemma prefix_iff_app (p s : string) :
  String.prefix p s = true <-> exists rest, s = (p ++ rest)%string.
Proof.
  revert s. induction p as [| c p IH]; intros s.
  - split; [intros _; exists s; reflexivity | destruct s; reflexivity].
  - destruct s as [| c' s]; simpl.
    + split; [discriminate | intros (rest & H); discriminate].
    + destruct (Ascii.ascii_dec c c') as [Heq | Hne].
      * subst c'. rewrite IH. split.
        -- intros (rest & ->). now exists rest.
        -- intros (rest & H). injection H as ->. now exists rest.
      * split; [discriminate |].
        intros (rest & H). injection H as H _. congruence.
Qed.

(** X19.  The provider treats the page as an OAuth redirect exactly when
    the query string of its URL, after its first character, starts with
    'code'. So '?code=abc' counts and so does '?codex=1', while a code
    that is not the first parameter, as in '?state=s&code=abc', does
    not, and neither does an empty query string. *)
Theorem oauth_redirect_iff_query_starts_with_code (search : string) :
  (Spec.handlingOAuthCodeResponseOf search = true
   <-> exists first rest, search = String first ("code" ++ rest))
  /\ Spec.handlingOAuthCodeResponseOf "?code=abc" = true
  /\ Spec.handlingOAuthCodeResponseOf "?codex=1" = true
  /\ Spec.handlingOAuthCodeResponseOf "?state=s&code=abc" = false
  /\ Spec.handlingOAuthCodeResponseOf "" = false.
Proof.
  split; [| repeat split].
  unfold Spec.handlingOAuthCodeResponseOf. rewrite prefix_iff_app.
  destruct search as [| first s]; simpl.
  - split; [intros (rest & H); discriminate | intros (f & rest & H); discriminate].
  - split.
    + intros (rest & ->). now exists first, rest.
    + intros (f & rest & H). injection H as _ ->. now exists rest.
Qed.

(** X20.  resolveConfig returns exactly when the GraphQL configuration
    names an endpoint, a region and a default auth mode, and then
    returns the configuration as it is, with or without an API key.
    Otherwise it reports the first thing missing, in the order endpoint,
    region, default auth mode; without any GraphQL configuration that is
    the endpoint. *)
Theorem resolveConfig_reports_first_missing
    (graphQL : option ApiGraphQL.GraphQLConfig) :
  (forall resolved,
     ApiGraphQL.resolveConfig graphQL = Returned resolved
     <-> graphQL = Some resolved
         /\ truthy_opt (ApiGraphQL.endpoint resolved) = true
         /\ truthy_opt (ApiGraphQL.region resolved) = true
         /\ truthy_opt (ApiGraphQL.defaultAuthMode resolved) = true)
  /\ (ApiGraphQL.resolveConfig graphQL
      = Threw (ApiGraphQL.ValidationError ApiGraphQL.NoEndpoint)
      <-> truthy_opt (option_bind graphQL ApiGraphQL.endpoint) = false)
  /\ (ApiGraphQL.resolveConfig graphQL
      = Threw (ApiGraphQL.ValidationError ApiGraphQL.NoRegion)
      <-> truthy_opt (option_bind graphQL ApiGraphQL.endpoint) = true
          /\ truthy_opt (option_bind graphQL ApiGraphQL.region) = false)
  /\ (ApiGraphQL.resolveConfig graphQL
      = Threw (ApiGraphQL.ValidationError ApiGraphQL.NoDefaultAuthMode)
      <-> truthy_opt (option_bind graphQL ApiGraphQL.endpoint) = true
          /\ truthy_opt (option_bind graphQL ApiGraphQL.region) = true
          /\ truthy_opt (option_bind graphQL ApiGraphQL.defaultAuthMode) = false).
Proof.
  unfold ApiGraphQL.resolveConfig, ApiGraphQL.assertValidationError.
  destruct graphQL as [[r m e k] |]; simpl.
  - destruct (truthy_opt e) eqn:He; simpl.
    2:{ split; [| split; [| split]].
        - intros resolved. split; [discriminate |].
          intros (H & He' & _). injection H as <-. simpl in He'. congruence.
        - split; reflexivity.
        - split; [discriminate | intros (H & _); discriminate].
        - split; [discriminate | intros (H & _); discriminate]. }
    destruct (truthy_opt r) eqn:Hr; simpl.
    2:{ split; [| split; [| split]].
        - intros resolved. split; [discriminate |].
          intros (H & _ & Hr' & _). injection H as <-. simpl in Hr'. congruence.
        - split; discriminate.
        - split; [intros _; split; reflexivity | reflexivity].
        - split; [discriminate | intros (_ & H & _); discriminate]. }
    destruct (truthy_opt m) eqn:Hm; simpl.
    2:{ split; [| split; [| split]].
        - intros resolved. split; [discriminate |].
          intros (H & _ & _ & Hm'). injection H as <-. simpl in Hm'. congruence.
        - split; discriminate.
        - split; [discriminate | intros (_ & H); discriminate].
        - split; [intros _; repeat split | reflexivity]. }
    split; [| split; [| split]].
    + intros resolved. split.
      * intros H. injection H as <-. simpl. auto.
      * intros (H & _). injection H as <-. reflexivity.
    + split; discriminate.
    + split; [discriminate | intros (_ & H); discriminate].
    + split; [discriminate | intros (_ & _ & H); discriminate].
  - split; [| split; [| split]].
    + intros resolved. split; [discriminate | intros (H & _); discriminate].
    + split; reflexivity.
    + split; [discriminate | intros (H & _); discriminate].
    + split; [discriminate | intros (H & _); discriminate].
Qed.

End ConfigMore.
